(** * btc-alerts-server: the server-side trading pipeline

    A shallow embedding of the four services of the repository
    (price monitor, signal detector, Binance executor, trading bot)
    and the properties its specification states about them.

    Conventions of the embedding.
    - A JavaScript [number] that carries a price, an indicator, a balance
      or a quantity is a binary64 value: Rocq's primitive [float], whose
      [+ - * /] and comparisons are the IEEE-754 operations JavaScript uses.
    - A [number] that carries an epoch time in milliseconds, a counter or
      the additive score is an integer: [Z].  Doubles represent every integer
      below 2^53 exactly, and [Math.floor (t / 300000) * 300000] is then the
      integer [t / 300000 * 300000] for every such integer [t] the feed can
      deliver.
    - [undefined] read from an array out of its bounds is only ever used in
      arithmetic and comparisons, where it behaves as [NaN].
    - An [async] method is one computation in the monad of the host, run
      from its first line to its return with no other call in between.
      Where a property depends on what another call can do between two
      [await]s, the parts of the method before and after the [await] are
      given on their own. *)

From Stdlib Require Import ZArith List Bool Lia String Ascii Sorted.
From Stdlib Require Import Floats Uint63 DecimalString.
Import ListNotations.

Set Warnings "-inexact-float".
Local Open Scope Z_scope.

(* ================================================================== *)
(** ** JavaScript numbers *)

Module Js.

(** [Number(z)] for an integer: exact below 2^53. *)
Definition ofZ (z : Z) : float :=
  if z <? 0 then PrimFloat.opp (PrimFloat.of_uint63 (Uint63.of_Z (- z)))
  else PrimFloat.of_uint63 (Uint63.of_Z z).

Definition ofNat (n : nat) : float := ofZ (Z.of_nat n).

(** Truthiness of a number: [0], [-0] and [NaN] are falsy. *)
Definition truthy (x : float) : bool :=
  negb (PrimFloat.is_nan x || PrimFloat.is_zero x).

(** [a || b] on numbers. *)
Definition orElse (a b : float) : float := if truthy a then a else b.

(** [a?.f || b] where the object may be [null]. *)
Definition optOrElse (a : option float) (b : float) : float :=
  match a with
  | Some x => orElse x b
  | None => b
  end.

(** [x > y], [x >= y] are the flipped [<], [<=]; all four are false as
    soon as one side is [NaN]. *)
Definition gtb (x y : float) : bool := PrimFloat.ltb y x.
Definition geb (x y : float) : bool := PrimFloat.leb y x.

(** [x === y] and [x !== y] on numbers. *)
Definition strictEq (x y : float) : bool := PrimFloat.eqb x y.
Definition strictNe (x y : float) : bool := negb (PrimFloat.eqb x y).

(** [Math.max] and [Math.min] of two numbers: [NaN] is contagious and
    [+0] is larger than [-0]. *)
Definition max2 (a b : float) : float :=
  if PrimFloat.is_nan a || PrimFloat.is_nan b then PrimFloat.nan
  else if PrimFloat.ltb a b then b
  else if PrimFloat.ltb b a then a
  else if PrimFloat.get_sign a then b else a.

Definition min2 (a b : float) : float :=
  if PrimFloat.is_nan a || PrimFloat.is_nan b then PrimFloat.nan
  else if PrimFloat.ltb a b then a
  else if PrimFloat.ltb b a then b
  else if PrimFloat.get_sign a then a else b.

Definition max3 (a b c : float) : float := max2 (max2 a b) c.

(** [Math.floor]: a finite double is [(-1)^s * m * 2^e]; with [e >= 0]
    it is an integer already, otherwise its floor is below 2^52 in
    magnitude and converts back exactly. *)
Definition floor (x : float) : float :=
  match Prim2SF x with
  | S754_finite s m e =>
      if 0 <=? e then x
      else
        let q := Z.pos m / 2 ^ (- e) in
        let r := Z.pos m mod 2 ^ (- e) in
        if r =? 0 then x
        else if s then ofZ (- (q + 1))
        else ofZ q
  | _ => x
  end.

(** [Math.pow (b, n)] for a natural exponent, by repeated product; the
    powers of 1.5 used by the reconnection backoff are exact. *)
Fixpoint pow (b : float) (n : nat) : float :=
  match n with
  | O => 1%float
  | S k => (b * pow b k)%float
  end.

(** [xs.reduce ((a, b) => a + b, 0)]. *)
Definition sum (xs : list float) : float :=
  fold_left PrimFloat.add xs 0%float.

(** [xs.slice (-n)]: the last [n] elements, all of them when there are
    fewer. *)
Definition lastn {A : Type} (n : nat) (xs : list A) : list A :=
  skipn (List.length xs - n) xs.

(** [xs [xs.length - 1]] on an array of numbers. *)
Definition lastNum (xs : list float) : float := List.last xs PrimFloat.nan.

(** [`${n}`] for an integer. *)
Definition showZ (z : Z) : string := NilZero.string_of_int (Z.to_int z).

(** [s.includes (sub)]. *)
Definition includes (sub s : string) : bool :=
  match String.index 0 sub s with
  | Some _ => true
  | None => false
  end.

End Js.

(* ================================================================== *)
(** ** The event loop's timers

  [setInterval] and [setTimeout] register a timer and return its handle;
  [clearInterval] removes the timer with the given handle.  A one-shot
  timer leaves the table when it fires. *)

Module EventLoop.

Inductive Purpose : Type :=
| Heartbeat            (* price monitor: ping every 30 s *)
| ReconnectBackoff     (* price monitor: reconnect after the backoff delay *)
| ReconnectCooldown    (* price monitor: reset and reconnect after 60 s *)
| PeriodicAnalysis     (* signal detector: analysis every 60 s *)
| FirstAnalysis.       (* signal detector: first analysis after 5 s *)

Record Timer : Type := mkTimer {
  handle : nat;
  purpose : Purpose;
  delay : float;
  repeats : bool
}.

Record Timers : Type := mkTimers {
  nextHandle : nat;
  pending : list Timer
}.

Definition empty : Timers := mkTimers 0 [].

Definition register (p : Purpose) (d : float) (rep : bool) (t : Timers)
  : nat * Timers :=
  (nextHandle t,
   mkTimers (S (nextHandle t)) (pending t ++ [mkTimer (nextHandle t) p d rep])).

Definition setInterval (p : Purpose) (d : float) : Timers -> nat * Timers :=
  register p d true.

Definition setTimeout (p : Purpose) (d : float) : Timers -> nat * Timers :=
  register p d false.

Definition clearInterval (h : nat) (t : Timers) : Timers :=
  mkTimers (nextHandle t)
           (filter (fun x => negb (Nat.eqb (handle x) h)) (pending t)).

(** The timer fires: an interval stays registered, a timeout is consumed. *)
Definition fired (h : nat) (t : Timers) : Timers :=
  mkTimers (nextHandle t)
           (filter (fun x => repeats x || negb (Nat.eqb (handle x) h))
                   (pending t)).

Definition purpose_eqb (p q : Purpose) : bool :=
  match p, q with
  | Heartbeat, Heartbeat
  | ReconnectBackoff, ReconnectBackoff
  | ReconnectCooldown, ReconnectCooldown
  | PeriodicAnalysis, PeriodicAnalysis
  | FirstAnalysis, FirstAnalysis => true
  | _, _ => false
  end.

(** Which service registers which timers. *)
Definition ofPriceMonitor (x : Timer) : bool :=
  match purpose x with
  | Heartbeat | ReconnectBackoff | ReconnectCooldown => true
  | _ => false
  end.

Definition ofSignalDetector (x : Timer) : bool :=
  match purpose x with
  | PeriodicAnalysis | FirstAnalysis => true
  | _ => false
  end.

End EventLoop.

(* ================================================================== *)
(** ** Price monitor (price-monitor.ts) *)

Module PriceMonitor.

Record PriceData : Type := mkPriceData {
  symbol : string;
  price : float;
  timestamp : Z;
  volume24h : float;
  priceChange24h : float;
  priceChangePercent24h : float
}.

(** The two handlers the repository registers with [onPrice]. *)
Inductive PriceCallback : Type :=
| DetectorProcessPrice   (* signal detector: [processPrice] *)
| BotCurrentPrice.       (* trading bot: [currentPrice = data.price] *)

Inductive ReadyState : Type := CONNECTING | OPEN | CLOSING | CLOSED.

Record State : Type := mkState {
  ws : option ReadyState;
  reconnectAttempts : nat;
  callbacks : list PriceCallback;
  lastPrice : option PriceData;
  isRunning : bool;
  pingInterval : option nat
}.

Definition maxReconnectAttempts : nat := 10.
Definition reconnectDelay : float := 5000%float.

Definition initial : State := mkState None 0 [] None false None.

Definition World : Type := (State * EventLoop.Timers)%type.

(** [connect ()]: a guard on [isRunning], then a fresh socket. *)
Definition connect (w : World) : World :=
  let (st, tm) := w in
  if negb (isRunning st) then w
  else
    (mkState (Some CONNECTING) (reconnectAttempts st) (callbacks st)
             (lastPrice st) (isRunning st) (pingInterval st), tm).

Definition start (w : World) : World :=
  let (st, tm) := w in
  if isRunning st then w
  else
    connect (mkState (ws st) (reconnectAttempts st) (callbacks st)
                     (lastPrice st) true (pingInterval st), tm).

Definition stop (w : World) : World :=
  let (st, tm) := w in
  let tm1 :=
    match pingInterval st with
    | Some h => EventLoop.clearInterval h tm
    | None => tm
    end in
  (* [this.ws.close (); this.ws = null] when a socket exists *)
  (mkState None (reconnectAttempts st) (callbacks st) (lastPrice st)
           false None, tm1).

(** [scheduleReconnect ()]. *)
Definition scheduleReconnect (w : World) : World :=
  let (st, tm) := w in
  if (maxReconnectAttempts <=? reconnectAttempts st)%nat then
    let (_, tm1) :=
      EventLoop.setTimeout EventLoop.ReconnectCooldown 60000%float tm in
    (st, tm1)
  else
    let delay :=
      (reconnectDelay * Js.pow 1.5 (reconnectAttempts st))%float in
    let st1 :=
      mkState (ws st) (S (reconnectAttempts st)) (callbacks st)
              (lastPrice st) (isRunning st) (pingInterval st) in
    let (_, tm1) := EventLoop.setTimeout EventLoop.ReconnectBackoff delay tm in
    (st1, tm1).

(** The handlers [connect] attaches to a socket stay attached when [stop]
    or a later [connect] makes the monitor forget that socket, and they act
    on the monitor, not on the socket.  [held] says whether the socket an
    event comes from is still the one in [this.ws]; only then does the
    ready state the monitor sees change. *)
Definition seen (held : bool) (rs : ReadyState) (st : State)
  : option ReadyState :=
  if held then match ws st with Some _ => Some rs | None => None end
  else ws st.

(** The socket's ['open'] handler. *)
Definition onOpen (held : bool) (w : World) : World :=
  let (st, tm) := w in
  let (h, tm1) := EventLoop.setInterval EventLoop.Heartbeat 30000%float tm in
  (mkState (seen held OPEN st)
           0 (callbacks st) (lastPrice st) (isRunning st) (Some h), tm1).

(** The socket's ['close'] handler. *)
Definition onClose (held : bool) (w : World) : World :=
  let (st, tm) := w in
  let tm1 :=
    match pingInterval st with
    | Some h => EventLoop.clearInterval h tm
    | None => tm
    end in
  let st1 :=
    mkState (seen held CLOSED st)
            (reconnectAttempts st) (callbacks st) (lastPrice st)
            (isRunning st) None in
  if isRunning st1 then scheduleReconnect (st1, tm1) else (st1, tm1).

(** The callbacks of the two reconnection timeouts, when they fire. *)
Definition onBackoffTimeout (h : nat) (w : World) : World :=
  let (st, tm) := w in
  connect (st, EventLoop.fired h tm).

Definition onCooldownTimeout (h : nat) (w : World) : World :=
  let (st, tm) := w in
  connect (mkState (ws st) 0 (callbacks st) (lastPrice st) (isRunning st)
                   (pingInterval st), EventLoop.fired h tm).

(** The ['message'] handler on a well-formed ticker: remember it and hand
    it to every callback, in registration order. *)
Definition onTicker (d : PriceData) (st : State)
  : State * list (PriceCallback * PriceData) :=
  (mkState (ws st) (reconnectAttempts st) (callbacks st) (Some d)
           (isRunning st) (pingInterval st),
   map (fun cb => (cb, d)) (callbacks st)).

Definition onPrice (cb : PriceCallback) (st : State) : State :=
  mkState (ws st) (reconnectAttempts st) (callbacks st ++ [cb])
          (lastPrice st) (isRunning st) (pingInterval st).

Definition getLastPrice (st : State) : option PriceData := lastPrice st.

Definition isConnected (st : State) : bool :=
  match ws st with
  | Some OPEN => true
  | _ => false
  end.

End PriceMonitor.

(* ================================================================== *)
(** ** Signal detector (signal-detector.ts) *)

Module Candle.

Record t : Type := mk {
  open : float;
  high : float;
  low : float;
  close : float;
  volume : float;
  timestamp : Z
}.

(** What an out-of-bounds read of a candle array stands for. *)
Definition undefined : t :=
  mk PrimFloat.nan PrimFloat.nan PrimFloat.nan PrimFloat.nan PrimFloat.nan 0.

End Candle.

Module Signal.

Inductive Direction : Type := LONG | SHORT.

(** The texts pushed on [reasons], in the order the source pushes them. *)
Inductive Reason : Type :=
| TendenciaDeAlta            (* 'Tendência de alta (EMA)' *)
| TendenciaDeBaixa           (* 'Tendência de baixa (EMA)' *)
| RsiFavoravel (rsi : float) (* `RSI favorável (${rsi.toFixed(1)})` *)
| MacdBullish
| MacdBearish
| MomentumPositivo
| MomentumNegativo
| TendenciaForte.

Record t : Type := mk {
  type : Direction;
  entryPrice : float;
  stopLoss : float;
  takeProfit1 : float;
  takeProfit2 : float;
  takeProfit3 : float;
  score : Z;
  reason : list Reason;        (* joined with ', ' in the source *)
  timestamp : Z
}.

Definition withTimestamp (now : Z) (s : t) : t :=
  mk (type s) (entryPrice s) (stopLoss s) (takeProfit1 s) (takeProfit2 s)
     (takeProfit3 s) (score s) (reason s) now.

End Signal.

Module SignalDetector.

Record Macd : Type := mkMacd {
  macd : float;
  signal : float;
  histogram : float
}.

(** The subscribers of [onSignal], by identity. *)
Definition SignalCallback : Type := nat.

Record State : Type := mkState {
  candles : list Candle.t;
  lastCandleTime : Z;
  currentCandle : option Candle.t;
  callbacks : list SignalCallback;
  lastSignalTime : Z;
  isRunning : bool;
  analysisInterval : option nat;
  historyLoaded : bool
}.

Definition maxCandles : nat := 200.
Definition candleInterval : Z := 5 * 60 * 1000.
Definition minSignalInterval : Z := 5 * 60 * 1000.

Definition initial : State := mkState [] 0 None [] 0 false None false.

(** *** Bar aggregation *)

Definition processPrice (price : float) (timestamp : Z) (st : State) : State :=
  let candleTime := timestamp / candleInterval * candleInterval in
  if candleTime >? lastCandleTime st then
    let candles1 :=
      match currentCandle st with
      | Some c =>
          let pushed := candles st ++ [c] in
          if (maxCandles <? List.length pushed)%nat then List.tl pushed
          else pushed
      | None => candles st
      end in
    mkState candles1 candleTime
            (Some (Candle.mk price price price price 0%float candleTime))
            (callbacks st) (lastSignalTime st) (isRunning st)
            (analysisInterval st) (historyLoaded st)
  else
    match currentCandle st with
    | Some c =>
        mkState (candles st) (lastCandleTime st)
                (Some (Candle.mk (Candle.open c)
                                 (Js.max2 (Candle.high c) price)
                                 (Js.min2 (Candle.low c) price)
                                 price
                                 (Candle.volume c)
                                 (Candle.timestamp c)))
                (callbacks st) (lastSignalTime st) (isRunning st)
                (analysisInterval st) (historyLoaded st)
    | None => st
    end.

(** Every tick of the feed goes through [processPrice], oldest first. *)
Definition processTicks (ticks : list (float * Z)) (st : State) : State :=
  fold_left (fun s tk => processPrice (fst tk) (snd tk) s) ticks st.

(** [loadHistoricalCandles ()]: the outcome of the REST call is either a
    failure (network, status, JSON) or the klines, already converted. *)
Inductive Klines : Type :=
| KlinesFailed
| KlinesLoaded (data : list Candle.t).

Definition loadHistoricalCandles (k : Klines) (st : State) : State :=
  match k with
  | KlinesFailed => st
  | KlinesLoaded data =>
      mkState data
              (match data with
               | [] => lastCandleTime st
               | _ => Candle.timestamp (List.last data Candle.undefined)
               end)
              (currentCandle st) (callbacks st) (lastSignalTime st)
              (isRunning st) (analysisInterval st) true
  end.

(** *** Indicators *)

Definition calculateEMA (data : list float) (period : nat) : float :=
  if (List.length data <? period)%nat then Js.lastNum data
  else
    let k := (2 / (Js.ofNat period + 1))%float in
    let ema0 := (Js.sum (firstn period data) / Js.ofNat period)%float in
    fold_left (fun ema x => (x * k + ema * (1 - k))%float)
              (skipn period data) ema0.

Definition calculateRSI (data : list float) (period : nat) : float :=
  if (List.length data <? period + 1)%nat then 50%float
  else
    let step (acc : float * float) (i : nat) :=
      let change :=
        (nth i data PrimFloat.nan - nth (i - 1) data PrimFloat.nan)%float in
      if Js.gtb change 0%float then ((fst acc + change)%float, snd acc)
      else (fst acc, (snd acc - change)%float) in
    let '(gains, losses) :=
      fold_left step (seq (List.length data - period) period)
                (0%float, 0%float) in
    let avgGain := (gains / Js.ofNat period)%float in
    let avgLoss := (losses / Js.ofNat period)%float in
    if Js.strictEq avgLoss 0%float then 100%float
    else
      let rs := (avgGain / avgLoss)%float in
      (100 - 100 / (1 + rs))%float.

Definition calculateMACD (data : list float) : Macd :=
  let ema12 := calculateEMA data 12 in
  let ema26 := calculateEMA data 26 in
  let macd := (ema12 - ema26)%float in
  let signal := (macd * 0.9)%float in
  let histogram := (macd - signal)%float in
  mkMacd macd signal histogram.

(** The true range the loop of [calculateATR] adds for one bar. *)
Definition trueRange (current previous : Candle.t) : float :=
  Js.max3 (Candle.high current - Candle.low current)%float
          (PrimFloat.abs (Candle.high current - Candle.close previous)%float)
          (PrimFloat.abs (Candle.low current - Candle.close previous)%float).

Definition calculateATR (st : State) (period : nat) : float :=
  if (List.length (candles st) <? period + 1)%nat then
    let price :=
      Js.optOrElse (option_map Candle.close (currentCandle st)) 50000%float in
    (price * 0.01)%float
  else
    let recentCandles := Js.lastn (period + 1) (candles st) in
    let atrSum :=
      fold_left
        (fun acc i =>
           let current := nth i recentCandles Candle.undefined in
           let previous := nth (i - 1) recentCandles Candle.undefined in
           (acc + trueRange current previous)%float)
        (seq 1 (List.length recentCandles - 1)) 0%float in
    (atrSum / Js.ofNat period)%float.

(** *** Scoring *)

(** The three locals [score], [type], [reasons] of [detectSignal]. *)
Record Tally : Type := mkTally {
  score : Z;
  type : option Signal.Direction;
  reasons : list Signal.Reason
}.

Definition add (points : Z) (r : Signal.Reason) (a : Tally) : Tally :=
  mkTally (score a + points) (type a) (reasons a ++ [r]).

Definition isLong (a : Tally) : bool :=
  match type a with Some Signal.LONG => true | _ => false end.

Definition isShort (a : Tally) : bool :=
  match type a with Some Signal.SHORT => true | _ => false end.

Definition scoreTrend (price ema20 ema50 : float) (a : Tally) : Tally :=
  if Js.gtb price ema20 && Js.gtb ema20 ema50 then
    mkTally (score a + 25) (Some Signal.LONG)
            (reasons a ++ [Signal.TendenciaDeAlta])
  else if PrimFloat.ltb price ema20 && PrimFloat.ltb ema20 ema50 then
    mkTally (score a + 25) (Some Signal.SHORT)
            (reasons a ++ [Signal.TendenciaDeBaixa])
  else a.

Definition scoreRSI (rsi : float) (a : Tally) : Tally :=
  if isLong a && Js.gtb rsi 40%float && PrimFloat.ltb rsi 70%float then
    add 20 (Signal.RsiFavoravel rsi) a
  else if isShort a && PrimFloat.ltb rsi 60%float && Js.gtb rsi 30%float then
    add 20 (Signal.RsiFavoravel rsi) a
  else a.

Definition macdBullish (m : Macd) : bool :=
  Js.gtb (histogram m) 0%float && Js.gtb (macd m) (signal m).

Definition macdBearish (m : Macd) : bool :=
  PrimFloat.ltb (histogram m) 0%float && PrimFloat.ltb (macd m) (signal m).

Definition scoreMACD (m : Macd) (a : Tally) : Tally :=
  if isLong a && macdBullish m then add 25 Signal.MacdBullish a
  else if isShort a && macdBearish m then add 25 Signal.MacdBearish a
  else a.

Definition scoreMomentum (price ema20 : float) (a : Tally) : Tally :=
  let distanceFromEMA := ((price - ema20) / ema20 * 100)%float in
  if isLong a && Js.gtb distanceFromEMA 0.1%float
     && PrimFloat.ltb distanceFromEMA 2%float then
    add 15 Signal.MomentumPositivo a
  else if isShort a && PrimFloat.ltb distanceFromEMA (-0.1)%float
          && Js.gtb distanceFromEMA (-2)%float then
    add 15 Signal.MomentumNegativo a
  else a.

Definition scoreStrength (ema20 ema50 : float) (a : Tally) : Tally :=
  let emaDiff := ((ema20 - ema50) / ema50 * 100)%float in
  if Js.gtb (PrimFloat.abs emaDiff) 0.5%float then
    add 15 Signal.TendenciaForte a
  else a.

(** The tally at the end of the five scoring blocks. *)
Definition tally (price ema20 ema50 rsi : float) (m : Macd) : Tally :=
  scoreStrength ema20 ema50
    (scoreMomentum price ema20
       (scoreMACD m
          (scoreRSI rsi
             (scoreTrend price ema20 ema50 (mkTally 0 None []))))).

(** [detectSignal]; [clock] is what [Date.now ()] reads when the signal
    object is built. *)
Definition detectSignal (st : State) (clock : Z)
    (price ema20 ema50 rsi : float) (m : Macd) : option Signal.t :=
  let a := tally price ema20 ema50 rsi m in
  match type a with
  | Some ty =>
      if score a >=? 60 then
        let atr := calculateATR st 14 in
        let stopDistance := (atr * 1.5)%float in
        let tpMultiplier :=
          match ty with Signal.LONG => 1%float | Signal.SHORT => (-1)%float end in
        Some (Signal.mk
                ty price
                (match ty with
                 | Signal.LONG => (price - stopDistance)%float
                 | Signal.SHORT => (price + stopDistance)%float
                 end)
                (price + stopDistance * 1.5 * tpMultiplier)%float
                (price + stopDistance * 2.5 * tpMultiplier)%float
                (price + stopDistance * 4 * tpMultiplier)%float
                (score a) (reasons a) clock)
      else None
  | None => None
  end.

(** *** Periodic analysis *)

(** The locals [closes] and [currentPrice] of [analyzeMarket]. *)
Definition closes (st : State) : list float := map Candle.close (candles st).

Definition currentPrice (st : State) : float :=
  Js.optOrElse (option_map Candle.close (currentCandle st))
               (Js.lastNum (closes st)).

(** The four indicator values [analyzeMarket] hands to [detectSignal]. *)
Record Indicators : Type := mkIndicators {
  ema20 : float;
  ema50 : float;
  rsi : float;
  macdOf : Macd
}.

Definition indicatorsOver (series : list float) : Indicators :=
  mkIndicators (calculateEMA series 20) (calculateEMA series 50)
               (calculateRSI series 14) (calculateMACD series).

Definition indicators (st : State) : Indicators := indicatorsOver (closes st).

(** [analyzeMarket ()] at clock reading [now]: the new state and the
    deliveries [cb (signal)] it makes, in subscription order.  The reading
    taken inside [detectSignal] is overwritten by [now] before delivery. *)
Definition analyzeMarket (now : Z) (st : State)
  : State * list (SignalCallback * Signal.t) :=
  if (List.length (candles st) <? 50)%nat then (st, [])
  else if now - lastSignalTime st <? minSignalInterval then (st, [])
  else
    let i := indicators st in
    match detectSignal st now (currentPrice st)
                       (ema20 i) (ema50 i) (rsi i) (macdOf i) with
    | Some signal =>
        let signal1 := Signal.withTimestamp now signal in
        (mkState (candles st) (lastCandleTime st) (currentCandle st)
                 (callbacks st) now (isRunning st) (analysisInterval st)
                 (historyLoaded st),
         map (fun cb => (cb, signal1)) (callbacks st))
    | None => (st, [])
    end.

(** *** Life cycle *)

Definition World : Type :=
  (State * PriceMonitor.State * EventLoop.Timers)%type.

(** [start ()], given what the history endpoint answers; the wait for
    that answer is taken as one step. *)
Definition start (k : Klines) (w : World) : World :=
  let '(st, pm, tm) := w in
  if isRunning st then w
  else
    let st1 :=
      mkState (candles st) (lastCandleTime st) (currentCandle st)
              (callbacks st) (lastSignalTime st) true (analysisInterval st)
              (historyLoaded st) in
    let st2 :=
      if historyLoaded st1 then st1 else loadHistoricalCandles k st1 in
    let pm1 := PriceMonitor.onPrice PriceMonitor.DetectorProcessPrice pm in
    let (h, tm1) :=
      EventLoop.setInterval EventLoop.PeriodicAnalysis 60000%float tm in
    let st3 :=
      mkState (candles st2) (lastCandleTime st2) (currentCandle st2)
              (callbacks st2) (lastSignalTime st2) (isRunning st2) (Some h)
              (historyLoaded st2) in
    let (_, tm2) :=
      EventLoop.setTimeout EventLoop.FirstAnalysis 5000%float tm1 in
    (st3, pm1, tm2).

Definition stop (w : State * EventLoop.Timers) : State * EventLoop.Timers :=
  let (st, tm) := w in
  let tm1 :=
    match analysisInterval st with
    | Some h => EventLoop.clearInterval h tm
    | None => tm
    end in
  (mkState (candles st) (lastCandleTime st) (currentCandle st) (callbacks st)
           (lastSignalTime st) false None (historyLoaded st), tm1).


Definition onSignal (cb : SignalCallback) (st : State) : State :=
  mkState (candles st) (lastCandleTime st) (currentCandle st)
          (callbacks st ++ [cb]) (lastSignalTime st) (isRunning st)
          (analysisInterval st) (historyLoaded st).

Definition getStatus (st : State) : bool * nat * Z :=
  (isRunning st, List.length (candles st), lastSignalTime st).

End SignalDetector.

(* ================================================================== *)
(** ** The host: clock, network and built-ins

    [Date.now ()] reads the clock; [fetch] sends one request to the venue
    and, some time later, yields its reply.  The venue's answers, the time
    a round trip takes, the time the push collaborator takes, and the
    built-ins [parseFloat] (on the venue's decimal strings) and
    [Number.prototype.toString] are given by the host. *)

Module Host.

Inductive Method : Type := GET | POST | DELETE.

Inductive Value : Type :=
| Str (s : string)
| Num (x : float)
| Int (z : Z)
| Fixed3 (x : float).       (* [x.toFixed (3)] *)

Record Request : Type := mkRequest {
  method : Method;
  url : string;
  params : list (string * Value);
  apiKeyHeader : string       (* 'X-MBX-APIKEY' *)
}.

Record Position : Type := mkPosition {
  symbol : string;
  positionAmt : string;
  entryPrice : string;
  unRealizedProfit : string;
  leverage : string;
  marginType : string
}.

Record Balance : Type := mkBalance {
  asset : string;
  availableBalance : option string
}.

(** The JSON bodies the executor looks into, as [response.json ()] yields
    them: the order id is a JSON number, so a binary64 value. *)
Inductive Body : Type :=
| PositionRisk (positions : list Position)
| Balances (balances : list Balance)
| Order (orderId : float) (executedQty avgPrice : string)
| Message (msg : string)        (* an object with a [msg] field *)
| Other.

Inductive Reply : Type :=
| Failed (message : string)     (* [fetch] or [response.json ()] rejects *)
| Replied (ok : bool) (status : Z) (body : Body).

(** The texts and payloads handed to the push collaborator. *)
Inductive Notice : Type :=
| RoboIniciado
| RoboParado
| SinalDetectado (s : Signal.t)
| Executado (s : Signal.t) (orderId : option string)
            (executedQty avgPrice : option float)
| ErroAoExecutar (s : Signal.t) (error : option string).

Record World : Type := mkWorld {
  clock : Z;
  sent : list Request;          (* requests issued so far, oldest first *)
  pushed : list Notice          (* notifications handed over, oldest first *)
}.

Class Env : Type := mkEnv {
  parseFloat : string -> float;
  numberToString : float -> string;            (* [x.toString ()] *)
  answer : World -> Request -> Reply;
  elapsed : World -> Request -> Z;
  pushTokens : World -> option (list string);  (* [None]: the lookup throws *)
  lookupElapsed : World -> Z;           (* time [getAllPushTokens ()] takes *)
  pushElapsed : World -> Notice -> Z    (* time [sendPushToAll] takes *)
}.

(** Computations that may throw an [Error] with a message. *)
Inductive Outcome (A : Type) : Type :=
| Returned (a : A)
| Thrown (message : string).

Arguments Returned {A} a.
Arguments Thrown {A} message.

Definition IO (A : Type) : Type := World -> Outcome A * World.

Definition ret {A : Type} (a : A) : IO A := fun w => (Returned a, w).

Definition throw {A : Type} (message : string) : IO A :=
  fun w => (Thrown message, w).

Definition bind {A B : Type} (m : IO A) (k : A -> IO B) : IO B :=
  fun w =>
    match m w with
    | (Returned a, w1) => k a w1
    | (Thrown e, w1) => (Thrown e, w1)
    end.

Definition tryCatch {A : Type} (m : IO A) (handler : string -> IO A) : IO A :=
  fun w =>
    match m w with
    | (Returned a, w1) => (Returned a, w1)
    | (Thrown e, w1) => handler e w1
    end.

Definition dateNow : IO Z := fun w => (Returned (clock w), w).

Definition fetch `{Env} (r : Request) : IO Reply :=
  fun w =>
    (Returned (answer w r),
     mkWorld (clock w + elapsed w r) (sent w ++ [r]) (pushed w)).

(** [await getAllPushTokens ()]. *)
Definition lookupTokens `{Env} : IO (option (list string)) :=
  fun w =>
    (Returned (pushTokens w),
     mkWorld (clock w + lookupElapsed w) (sent w) (pushed w)).

(** [await sendPushToAll (title, body)]. *)
Definition push `{Env} (n : Notice) : IO unit :=
  fun w =>
    (Returned tt,
     mkWorld (clock w + pushElapsed w n) (sent w) (pushed w ++ [n])).

End Host.

Declare Scope io_scope.
Delimit Scope io_scope with io.
Notation "'let*' x ':=' m 'in' k" :=
  (Host.bind m (fun x => k))
    (at level 10, x name, m at level 100, k at level 200) : io_scope.
Notation "m ';;' k" :=
  (Host.bind m (fun _ => k))
    (at level 100, k at level 200, right associativity) : io_scope.

(* ================================================================== *)
(** ** Binance executor (binance-executor.ts) *)

Module BinanceExecutor.

Import Host.
Local Open Scope string_scope.
Local Open Scope io_scope.

Record BinanceConfig : Type := mkConfig {
  apiKey : string;
  apiSecret : string;
  testnet : bool
}.

Record OrderResult : Type := mkResult {
  success : bool;
  orderId : option string;
  error : option string;
  executedQty : option float;
  avgPrice : option float
}.

Record State : Type := mkState {
  config : option BinanceConfig;
  baseUrl : string
}.

Definition initial : State := mkState None "".

Definition failure (message : string) : OrderResult :=
  mkResult false None (Some message) None None.

Definition configure (c : BinanceConfig) (st : State) : State :=
  mkState (Some c)
          (if testnet c then "https://testnet.binancefuture.com"
           else "https://fapi.binance.com").

Definition nonEmpty (s : string) : bool := negb (String.eqb s "").

Definition isConfigured (st : State) : bool :=
  match config st with
  | Some c => nonEmpty (apiKey c) && nonEmpty (apiSecret c)
  | None => false
  end.

Section WithHost.

Context `{Env}.

(** [request]: the call is stamped with the clock and sent with the key;
    its HMAC signature is a function of the same parameters and the secret. *)
Definition request (st : State) (m : Method) (endpoint : string)
    (ps : list (string * Value)) : IO Body :=
  match config st with
  | None => throw "Binance não configurada"
  | Some c =>
      let* timestamp := dateNow in
      let* reply :=
        fetch (mkRequest m (baseUrl st ++ endpoint)
                         (ps ++ [("timestamp", Int timestamp)]) (apiKey c)) in
      match reply with
      | Failed message => throw message
      | Replied ok status body =>
          if ok then ret body
          else
            match body with
            | Message msg =>
                throw (if nonEmpty msg then msg else "HTTP " ++ Js.showZ status)
            | _ => throw ("HTTP " ++ Js.showZ status)
            end
      end
  end.

Definition setLeverage (st : State) (symbol : string) (leverage : float)
  : IO bool :=
  tryCatch
    (request st POST "/fapi/v1/leverage"
             [("symbol", Str symbol); ("leverage", Num leverage)];;
     ret true)
    (fun message => ret (Js.includes "-4028" message)).

Definition setMarginType (st : State) (symbol marginType : string) : IO bool :=
  tryCatch
    (request st POST "/fapi/v1/marginType"
             [("symbol", Str symbol); ("marginType", Str marginType)];;
     ret true)
    (fun message => ret (Js.includes "-4046" message)).

Definition getBalance (st : State) : IO float :=
  tryCatch
    (let* data := request st GET "/fapi/v2/balance" [] in
     match data with
     | Balances bs =>
         let usdtBalance :=
           find (fun b => String.eqb (asset b) "USDT") bs in
         ret (parseFloat
                (match usdtBalance with
                 | Some b =>
                     match availableBalance b with
                     | Some s => if nonEmpty s then s else "0"
                     | None => "0"
                     end
                 | None => "0"
                 end))
     | _ => throw "data.find is not a function"
     end)
    (fun _ => ret 0%float).

Definition getOpenPositions (st : State) : IO (list Position) :=
  tryCatch
    (let* data := request st GET "/fapi/v2/positionRisk" [] in
     match data with
     | PositionRisk ps =>
         ret (filter
                (fun p => Js.strictNe (parseFloat (positionAmt p)) 0%float) ps)
     | _ => throw "data.filter is not a function"
     end)
    (fun _ => ret []).

Definition calculatePositionSize (st : State)
    (accountPercentage entryPrice leverage : float) : IO float :=
  let* balance := getBalance st in
  let positionValue := (balance * (accountPercentage / 100))%float in
  let leveragedValue := (positionValue * leverage)%float in
  let quantity := (leveragedValue / entryPrice)%float in
  ret (Js.floor (quantity * 1000) / 1000)%float.

Definition orderEndpoint : string := "/fapi/v1/order".

Definition openMarketOrder (st : State) (symbol side : string)
    (quantity : float) : IO OrderResult :=
  tryCatch
    (let* data :=
       request st POST orderEndpoint
               [("symbol", Str symbol); ("side", Str side);
                ("type", Str "MARKET"); ("quantity", Fixed3 quantity)] in
     match data with
     | Order id qty px =>
         ret (mkResult true (Some (numberToString id)) None
                       (Some (parseFloat qty)) (Some (parseFloat px)))
     | _ => throw "Cannot read properties of undefined (reading 'toString')"
     end)
    (fun message => ret (failure message)).

Definition closePosition (st : State) (symbol : string) : IO OrderResult :=
  tryCatch
    (let* positions := getOpenPositions st in
     match find (fun p => String.eqb (Host.symbol p) symbol) positions with
     | None => ret (failure "Posição não encontrada")
     | Some position =>
         let positionAmt := parseFloat (positionAmt position) in
         let side := if Js.gtb positionAmt 0%float then "SELL" else "BUY" in
         openMarketOrder st symbol side (PrimFloat.abs positionAmt)
     end)
    (fun message => ret (failure message)).

(** The argument of [executeSignal]. *)
Record Trade : Type := mkTrade {
  type : Signal.Direction;
  entryPrice : float;
  stopLoss : float;
  takeProfit : float;
  accountPercentage : float;
  leverage : float
}.

Definition executeSignal (st : State) (signal : Trade) : IO OrderResult :=
  tryCatch
    (let symbol := "BTCUSDT" in
     let* positions := getOpenPositions st in
     let existingPosition :=
       find (fun p => String.eqb (Host.symbol p) symbol) positions in
     match existingPosition with
     | Some _ => ret (failure "Posição já aberta")
     | None =>
         setLeverage st symbol (leverage signal);;
         setMarginType st symbol "ISOLATED";;
         let* quantity :=
           calculatePositionSize st (accountPercentage signal)
                                 (entryPrice signal) (leverage signal) in
         if PrimFloat.leb quantity 0%float then ret (failure "Quantidade inválida")
         else
           let side :=
             match type signal with
             | Signal.LONG => "BUY"
             | Signal.SHORT => "SELL"
             end in
           openMarketOrder st symbol side quantity
     end)
    (fun message => ret (failure message)).

End WithHost.

(** An order-placement request: a POST to the order endpoint. *)
Definition placesOrder (r : Request) : bool :=
  match method r with
  | POST => Js.includes orderEndpoint (url r)
  | _ => false
  end.

End BinanceExecutor.

(* ================================================================== *)
(** ** Trading bot (trading-bot.ts) *)

Module TradingBot.

Import Host.
Local Open Scope io_scope.

Record BotConfig : Type := mkConfig {
  enabled : bool;
  apiKey : string;
  apiSecret : string;
  testnet : bool;
  leverage : float;
  accountPercentage : float;
  minScore : float;
  marginType : string
}.

Inductive LogType : Type := info | signal | order | error.

(** The texts of the log lines. *)
Inductive LogMessage : Type :=
| RoboIniciadoMsg
| SinalDetectadoMsg (s : Signal.t)
| RoboDesabilitado
| ScoreAbaixoDoMinimo (score : Z) (minScore : float)
| AguardandoIntervalo
| BinanceNaoConfigurada
| Executando (s : Signal.t)
| ExecutadoMsg (s : Signal.t) (r : BinanceExecutor.OrderResult)
| ErroAoExecutarMsg (s : Signal.t) (error : option string).

Record BotLog : Type := mkLog {
  timestamp : Z;
  type : LogType;
  message : LogMessage
}.

Record State : Type := mkState {
  config : option BotConfig;
  isRunning : bool;
  lastOrderTime : Z;
  totalOrders : Z;
  logs : list BotLog;
  currentPrice : float
}.

Definition minOrderInterval : Z := 5 * 60 * 1000.
Definition maxLogs : nat := 100.

Definition initial : State := mkState None false 0 0 [] 0%float.

(** The bot together with the executor singleton it drives. *)
Definition Bot : Type := (State * BinanceExecutor.State)%type.

Definition configure (c : BotConfig) (b : Bot) : Bot :=
  let (st, ex) := b in
  (mkState (Some c) (isRunning st) (lastOrderTime st) (totalOrders st)
           (logs st) (currentPrice st),
   if BinanceExecutor.nonEmpty (apiKey c) && BinanceExecutor.nonEmpty (apiSecret c)
   then BinanceExecutor.configure
          (BinanceExecutor.mkConfig (apiKey c) (apiSecret c) (testnet c)) ex
   else ex).

(** [addLog]: newest first, at most [maxLogs] lines. *)
Definition addLog (ty : LogType) (m : LogMessage) (st : State) : IO State :=
  let* now := dateNow in
  let logs1 := mkLog now ty m :: logs st in
  let logs2 :=
    if (maxLogs <? List.length logs1)%nat then firstn maxLogs logs1 else logs1 in
  ret (mkState (config st) (isRunning st) (lastOrderTime st) (totalOrders st)
               logs2 (currentPrice st)).

Section WithHost.

Context `{Env}.

(** [sendNotification]: both awaits sit in one [try]; whatever is thrown
    is logged and swallowed. *)
Definition sendNotification (n : Notice) : IO unit :=
  let* tokens := lookupTokens in
  match tokens with
  | Some [] => ret tt
  | Some _ => push n
  | None => ret tt
  end.

Definition recordOrder (now : Z) (st : State) : State :=
  mkState (config st) (isRunning st) now (totalOrders st + 1) (logs st)
          (currentPrice st).

Definition handleSignal (s : Signal.t) (b : Bot) : IO State :=
  let (st, ex) := b in
  let* st1 := addLog signal (SinalDetectadoMsg s) st in
  match config st1 with
  | None => addLog info RoboDesabilitado st1
  | Some c =>
      if negb (enabled c) then addLog info RoboDesabilitado st1
      else if PrimFloat.ltb (Js.ofZ (Signal.score s))
                            (Js.orElse (minScore c) 60%float)
      then addLog info (ScoreAbaixoDoMinimo (Signal.score s) (minScore c)) st1
      else
        let* now := dateNow in
        if now - lastOrderTime st1 <? minOrderInterval then
          addLog info AguardandoIntervalo st1
        else if negb (BinanceExecutor.isConfigured ex) then
          let* st2 := addLog info BinanceNaoConfigurada st1 in
          sendNotification (SinalDetectado s);;
          ret st2
        else
          let* st2 := addLog order (Executando s) st1 in
          let* result :=
            BinanceExecutor.executeSignal
              ex
              (BinanceExecutor.mkTrade
                 (Signal.type s) (Signal.entryPrice s) (Signal.stopLoss s)
                 (Signal.takeProfit1 s)
                 (Js.orElse (accountPercentage c) 10%float)
                 (Js.orElse (leverage c) 15%float)) in
          if BinanceExecutor.success result then
            let st3 := recordOrder now st2 in
            let* st4 := addLog order (ExecutadoMsg s result) st3 in
            sendNotification
              (Executado s (BinanceExecutor.orderId result)
                         (BinanceExecutor.executedQty result)
                         (BinanceExecutor.avgPrice result));;
            ret st4
          else
            let* st3 :=
              addLog error
                     (ErroAoExecutarMsg s (BinanceExecutor.error result)) st2 in
            sendNotification (ErroAoExecutar s (BinanceExecutor.error result));;
            ret st3
  end.

(** *** [handleSignal] between its awaits

    [handleSignal] is an [async] function: it gives up control while it
    awaits [executeSignal (...)] or [sendNotification (...)], and another
    call can run meanwhile.  [handleSignal] above is one call run on its
    own, from its first line to its return.  The two halves below are what
    the call does before it enters [executeSignal] or [sendNotification],
    and what it does once the executor has answered; the second half works
    on the bot's fields as they are by then. *)





(** *** Life cycle of the whole server *)

Record Server : Type := mkServer {
  bot : State;
  executor : BinanceExecutor.State;
  monitor : PriceMonitor.State;
  detector : SignalDetector.State;
  timers : EventLoop.Timers
}.

(** The one handler the bot registers with [onSignal]. *)
Definition botHandleSignal : SignalDetector.SignalCallback := 0%nat.

Definition start (k : SignalDetector.Klines) (sv : Server) : IO Server :=
  if isRunning (bot sv) then ret sv
  else
    let st1 :=
      mkState (config (bot sv)) true (lastOrderTime (bot sv))
              (totalOrders (bot sv)) (logs (bot sv)) (currentPrice (bot sv)) in
    let (pm1, tm1) := PriceMonitor.start (monitor sv, timers sv) in
    let pm2 := PriceMonitor.onPrice PriceMonitor.BotCurrentPrice pm1 in
    let '(sd1, pm3, tm2) := SignalDetector.start k (detector sv, pm2, tm1) in
    let* st2 := addLog info RoboIniciadoMsg st1 in
    let sd2 := SignalDetector.onSignal botHandleSignal sd1 in
    sendNotification RoboIniciado;;
    ret (mkServer st2 (executor sv) pm3 sd2 tm2).

Definition stop (sv : Server) : IO Server :=
  if negb (isRunning (bot sv)) then ret sv
  else
    let st1 :=
      mkState (config (bot sv)) false (lastOrderTime (bot sv))
              (totalOrders (bot sv)) (logs (bot sv)) (currentPrice (bot sv)) in
    let (pm1, tm1) := PriceMonitor.stop (monitor sv, timers sv) in
    let (sd1, tm2) := SignalDetector.stop (detector sv, tm1) in
    sendNotification RoboParado;;
    ret (mkServer st1 (executor sv) pm1 sd1 tm2).

End WithHost.

(** *** Tickers, as the bot and the detector see them *)

(** The two handlers subscribed with [onPrice], run on one ticker: the
    detector's calls [processPrice], the bot's stores the price. *)
Definition priceCallback (cb : PriceMonitor.PriceCallback)
    (d : PriceMonitor.PriceData) (sv : Server) : Server :=
  match cb with
  | PriceMonitor.DetectorProcessPrice =>
      mkServer (bot sv) (executor sv) (monitor sv)
               (SignalDetector.processPrice (PriceMonitor.price d)
                                            (PriceMonitor.timestamp d)
                                            (detector sv))
               (timers sv)
  | PriceMonitor.BotCurrentPrice =>
      mkServer (mkState (config (bot sv)) (isRunning (bot sv))
                        (lastOrderTime (bot sv)) (totalOrders (bot sv))
                        (logs (bot sv)) (PriceMonitor.price d))
               (executor sv) (monitor sv) (detector sv) (timers sv)
  end.

(** A ticker arrives: the monitor remembers it and calls every subscribed
    handler, in subscription order. *)
Definition onTicker (d : PriceMonitor.PriceData) (sv : Server) : Server :=
  let (pm1, deliveries) := PriceMonitor.onTicker d (monitor sv) in
  fold_left (fun s x => priceCallback (fst x) (snd x) s) deliveries
            (mkServer (bot sv) (executor sv) pm1 (detector sv) (timers sv)).

End TradingBot.

(* ================================================================== *)
(** ** The bot's configuration route (routers.ts) *)

Module Routers.

Import Host TradingBot.
Local Open Scope io_scope.


End Routers.

(* ================================================================== *)
(** ** Fixtures: concrete inputs the properties below are run on *)

Module Fixture.

Local Open Scope string_scope.

(** A flat bar at price [p] opened at [t]. *)
Definition bar (p : float) (t : Z) : Candle.t :=
  Candle.mk p p p p 0%float t.

(** [n] consecutive five-minute bars at price [p], the first opened at
    [t0]. *)
Definition flatBars (n : nat) (p : float) (t0 : Z) : list Candle.t :=
  map (fun i => bar p (t0 + Z.of_nat i * SignalDetector.candleInterval))
      (seq 0 n).

(** A running detector with the given history and open bar, one
    subscriber, no signal emitted yet. *)
Definition detectorWith (history : list Candle.t) (current : option Candle.t)
  : SignalDetector.State :=
  SignalDetector.mkState
    history
    (match current with
     | Some c => Candle.timestamp c
     | None => Candle.timestamp (List.last history Candle.undefined)
     end)
    current [TradingBot.botHandleSignal] 0 true (Some 0%nat) true.

(** The opening time of the first fixture bar. *)
Definition t0 : Z := 1500000000000.

(** Bars closing at the given prices, five minutes apart from [t]. *)
Fixpoint barsAt (t : Z) (prices : list float) : list Candle.t :=
  match prices with
  | [] => []
  | p :: rest => bar p t :: barsAt (t + SignalDetector.candleInterval) rest
  end.

(** The scenario of the specification: 50 flat bars at 50000, then a rally
    to 51500 over 10 bars. *)
Definition rallyCloses : list float :=
  List.app
    (repeat 50000%float 50)
    [50150; 50300; 50450; 50600; 50750; 50900; 51050; 51200; 51350; 51500]%float.

Definition rally : SignalDetector.State :=
  detectorWith (barsAt t0 rallyCloses) None.

(** 50 flat bars at 50000 and an open bar that has moved to 51500. *)
Definition flatThenJump : SignalDetector.State :=
  detectorWith (flatBars 50 50000%float t0)
               (Some (bar 51500%float (t0 + 50 * SignalDetector.candleInterval))).

(** One closed bar at 100 and no open bar. *)
Definition oneBar : SignalDetector.State :=
  detectorWith [bar 100%float t0] None.

(** Eleven closes at the smallest positive double, then a close at 0. *)
Definition tinyCloses : list float :=
  List.app (repeat 5e-324%float 11) [0%float].

(** [parseFloat] on the plain decimal literals the fixtures use, an
    optional sign, digits and at most one point; [NaN] on anything else.
    The quotient of two exactly represented integers is correctly rounded,
    as the conversion of the literal is. *)
Fixpoint scanDecimal (s : string) (digits : Z) (scale : option Z)
  : option (Z * Z) :=
  match s with
  | EmptyString =>
      Some (digits, match scale with Some k => k | None => 1 end)
  | String c rest =>
      let n := Z.of_nat (nat_of_ascii c) in
      if (n =? 46)%Z then
        match scale with
        | None => scanDecimal rest digits (Some 1)
        | Some _ => None
        end
      else if ((48 <=? n) && (n <=? 57))%Z then
        scanDecimal rest (digits * 10 + (n - 48))%Z
                    (option_map (fun k => k * 10)%Z scale)
      else None
  end.

Definition parseUnsigned (s : string) : float :=
  match s with
  | EmptyString => PrimFloat.nan
  | _ =>
      match scanDecimal s 0 None with
      | Some (digits, scale) => (Js.ofZ digits / Js.ofZ scale)%float
      | None => PrimFloat.nan
      end
  end.

Definition parseFloat (s : string) : float :=
  match s with
  | String c rest =>
      if (Z.of_nat (nat_of_ascii c) =? 45)%Z then
        PrimFloat.opp (parseUnsigned rest)
      else parseUnsigned s
  | EmptyString => PrimFloat.nan
  end.

(** [x.toString ()] on a double that is an integer below 10^21 in
    magnitude: its decimal digits.  The scenarios print no other number;
    on one the fixture answers with the empty string. *)
Definition integerOf (x : float) : option Z :=
  match Prim2SF x with
  | S754_zero _ => Some 0%Z
  | S754_finite s m e =>
      let sign := if s then (-1)%Z else 1%Z in
      if (0 <=? e)%Z then Some (sign * (Z.pos m * 2 ^ e))%Z
      else if (Z.pos m mod 2 ^ (- e) =? 0)%Z
           then Some (sign * (Z.pos m / 2 ^ (- e)))%Z
           else None
  | _ => None
  end.

Definition numberToString (x : float) : string :=
  match integerOf x with
  | Some z => if (Z.abs z <? 10 ^ 21)%Z then Js.showZ z else ""
  | None => ""
  end.

Definition btcPosition (amount : string) : Host.Position :=
  Host.mkPosition "BTCUSDT" amount "50000" "0" "15" "isolated".

(** A venue holding the given positions and the given available USDT
    balance, which accepts every configuration call and fills every order
    ([fills]) or rejects it with a margin error; each round trip takes
    120 ms, one device is registered for push, looking the devices up takes
    5 ms and a push 80 ms. *)
Definition venue (positions : list Host.Position) (balance : string)
    (fills : bool) : Host.Env :=
  Host.mkEnv
    parseFloat
    numberToString
    (fun _ r =>
       if Js.includes "/fapi/v2/positionRisk" (Host.url r) then
         Host.Replied true 200 (Host.PositionRisk positions)
       else if Js.includes "/fapi/v2/balance" (Host.url r) then
         Host.Replied true 200
           (Host.Balances [Host.mkBalance "BNB" (Some "3");
                           Host.mkBalance "USDT" (Some balance)])
       else if Js.includes "/fapi/v1/order" (Host.url r) then
         if fills then Host.Replied true 200 (Host.Order 4711 "0.030" "50000")
         else Host.Replied false 400 (Host.Message "Margin is insufficient.")
       else Host.Replied true 200 Host.Other)
    (fun _ _ => 120)
    (fun _ => Some ["device-1"])
    (fun _ => 5)
    (fun _ _ => 80).

Definition executor : BinanceExecutor.State :=
  BinanceExecutor.configure (BinanceExecutor.mkConfig "key" "secret" true)
                            BinanceExecutor.initial.

Definition world : Host.World := Host.mkWorld (t0 + 18300000) [] [].

Definition longTrade : BinanceExecutor.Trade :=
  BinanceExecutor.mkTrade Signal.LONG 50000 49000 51500 10 15.

(** The bot as the configuration route leaves it: enabled, testnet keys,
    leverage 15, 10 percent of the account, minimum score 60. *)
Definition botConfig : TradingBot.BotConfig :=
  TradingBot.mkConfig true "key" "secret" true 15 10 60 "ISOLATED".

Definition bot : TradingBot.Bot :=
  TradingBot.configure
    botConfig
    (TradingBot.mkState None true 0 0 [] 50000, BinanceExecutor.initial).

(** The LONG signal the detector emits on the rally. *)
Definition rallySignal : Signal.t :=
  Signal.mk Signal.LONG 51500 51339.285714285717 51741.071428571428
            51901.785714285717 52142.857142857145 80
            [Signal.TendenciaDeAlta; Signal.MacdBullish;
             Signal.MomentumPositivo; Signal.TendenciaForte]
            (t0 + 18300000).

(** Eleven closes near the largest double, then a close at 0: their sum
    overflows. *)
Definition hugeCloses : list float :=
  List.app (repeat 1.7e308%float 11) [0%float].

(** The venue of the scenarios: no open position, 1000 USDT available,
    orders fill. *)
Definition fillingVenue : Host.Env := venue [] "1000" true.

(** The same venue holding a long BTCUSDT position of 0.5. *)
Definition holdingVenue : Host.Env := venue [btcPosition "0.5"] "1000" true.

(** A bot whose configuration says disabled, beside the configured
    executor. *)
Definition idleBot : TradingBot.Bot :=
  (TradingBot.mkState
     (Some (TradingBot.mkConfig false "key" "secret" true 15 10 60 "ISOLATED"))
     true 0 0 [] 50000,
   executor).

(** An enabled bot that was configured with blank credentials, beside the
    executor nobody configured. *)
Definition keylessBot : TradingBot.Bot :=
  TradingBot.configure
    (TradingBot.mkConfig true "" "" true 15 10 60 "ISOLATED")
    (TradingBot.mkState None true 0 0 [] 50000, BinanceExecutor.initial).

End Fixture.

(* ================================================================== *)
(** ** Terms of the properties

    The predicates and derived quantities the statements below are
    written with. *)

Section DetectorTerms.

Import SignalDetector.

(** The start of the five-minute bucket a tick falls in. *)
Definition bucketOf (timestamp : Z) : Z :=
  timestamp / candleInterval * candleInterval.

(** The bucket starts of the closed bars, oldest first. *)
Definition times (st : State) : list Z := map Candle.timestamp (candles st).

(** What [processPrice] maintains: the history is strictly increasing and
    bounded, the open bar sits at [lastCandleTime], after every closed bar. *)
Definition wellFormed (st : State) : Prop :=
  StronglySorted Z.lt (times st)
  /\ (List.length (candles st) <= maxCandles)%nat
  /\ match currentCandle st with
     | Some c =>
         Candle.timestamp c = lastCandleTime st
         /\ Forall (fun t => t < lastCandleTime st) (times st)
     | None => Forall (fun t => t <= lastCandleTime st) (times st)
     end.

(** The two directional orderings of price and moving averages. *)
Definition longOrdering (price ema20 ema50 : float) : bool :=
  Js.gtb price ema20 && Js.gtb ema20 ema50.

Definition shortOrdering (price ema20 ema50 : float) : bool :=
  PrimFloat.ltb price ema20 && PrimFloat.ltb ema20 ema50.

(** The tally of one analysis run over state [st]. *)
Definition tallyOf (st : State) : Tally :=
  let i := indicators st in
  tally (currentPrice st) (ema20 i) (ema50 i) (rsi i) (macdOf i).

Definition compositeScore (st : State) : Z := score (tallyOf st).

Definition noOrdering (st : State) : Prop :=
  let i := indicators st in
  longOrdering (currentPrice st) (ema20 i) (ema50 i) = false
  /\ shortOrdering (currentPrice st) (ema20 i) (ema50 i) = false.

(** In the specification's words: the closing-price series is the
    history's closes with the open bar's close appended. *)
Definition seriesWithOpenBar (st : State) : list float :=
  closes st
  ++ match currentCandle st with
     | Some c => [Candle.close c]
     | None => []
     end.

Definition withCurrentCandle (c : option Candle.t) (st : State) : State :=
  mkState (candles st) (lastCandleTime st) c (callbacks st)
          (lastSignalTime st) (isRunning st) (analysisInterval st)
          (historyLoaded st).

(** The true ranges of consecutive bars, each against the close of the bar
    before it. *)
Fixpoint trueRanges (previous : Candle.t) (bars : list Candle.t) : list float :=
  match bars with
  | [] => []
  | b :: rest => trueRange b previous :: trueRanges b rest
  end.

(** The price the fallback of [calculateATR] takes one percent of. *)
Definition fallbackPrice (st : State) : float :=
  match currentCandle st with
  | Some c => if Js.truthy (Candle.close c) then Candle.close c else 50000%float
  | None => 50000%float
  end.

End DetectorTerms.

Section RoundingTerms.

(** Mantissa and exponent after a right shift by [n] places, when [n] is
    positive. *)
Definition shiftm (m n : Z) : Z := if 0 <? n then m / 2 ^ n else m.

Definition shifte (e n : Z) : Z := if 0 <? n then e + n else e.

(** The outcome of rounding, from the mantissa and exponent left by the
    second normalisation. *)
Definition finish (s : bool) (m e : Z) : spec_float :=
  match m with
  | Z0 => S754_zero s
  | Zpos p => if e <=? emax - prec then S754_finite s p e else S754_infinity s
  | Zneg _ => S754_nan
  end.

(** The double 0.9 is [m9 * 2^-53]. *)
Definition m9 : positive := 8106479329266893.

(** A double the sign argument applies to: NaN, a zero, or finite with
    magnitude at least six times the smallest positive double. *)
Definition steady (d : float) : bool :=
  PrimFloat.is_nan d || PrimFloat.is_zero d
  || (PrimFloat.leb 3e-323 (PrimFloat.abs d)
      && PrimFloat.ltb (PrimFloat.abs d) PrimFloat.infinity).

End RoundingTerms.

Section GatewayTerms.

Import Host BinanceExecutor.

(** The requests a computation issues: what it appends to [sent]. *)
Definition issues {A : Type} (m : IO A) (w : World) (rs : list Request) : Prop :=
  sent (snd (m w)) = sent w ++ rs.

(** The quantity [calculatePositionSize] computes, every operation
    rounded to binary64 in the order the source performs them. *)
Definition sizedQuantity (balance accountPercentage leverage entryPrice : float)
  : float :=
  (Js.floor (balance * (accountPercentage / 100) * leverage / entryPrice * 1000)
   / 1000)%float.

(** In the specification's words, in exact arithmetic and in thousandths,
    for integer inputs:
    [floor (balance * accountPercentage/100 * leverage / entryPrice * 1000)]. *)
Definition exactThousandths (balance accountPercentage leverage entryPrice : Z)
  : Z :=
  balance * accountPercentage * leverage * 1000 / (100 * entryPrice).

(** In the specification's words, evaluated in binary64 from left to
    right, as JavaScript reads the expression the specification prints. *)
Definition leftToRightQuantity
    (balance accountPercentage leverage entryPrice : float) : float :=
  (Js.floor (balance * accountPercentage / 100 * leverage / entryPrice * 1000)
   / 1000)%float.

End GatewayTerms.

Section OrchestratorTerms.

Import Host TradingBot.

(** The policy gate of [handleSignal], read at clock [now]: the bot is
    enabled, the score reaches the minimum, the order interval has passed
    and the executor is configured. *)
Definition passesGate (s : Signal.t) (b : Bot) (now : Z) (c : BotConfig) : Prop :=
  config (fst b) = Some c
  /\ enabled c = true
  /\ PrimFloat.ltb (Js.ofZ (Signal.score s)) (Js.orElse (minScore c) 60%float)
     = false
  /\ minOrderInterval <= now - lastOrderTime (fst b)
  /\ BinanceExecutor.isConfigured (snd b) = true.

(** The trade [handleSignal] asks the executor for. *)
Definition tradeOf (s : Signal.t) (c : BotConfig) : BinanceExecutor.Trade :=
  BinanceExecutor.mkTrade
    (Signal.type s) (Signal.entryPrice s) (Signal.stopLoss s)
    (Signal.takeProfit1 s)
    (Js.orElse (accountPercentage c) 10%float)
    (Js.orElse (leverage c) 15%float).

End OrchestratorTerms.

Section ShutdownTerms.

Import EventLoop.

(** The timer a service holds the handle of. *)
Definition held (h : option nat) (x : Timer) : bool :=
  match h with
  | Some n => Nat.eqb (handle x) n
  | None => false
  end.



End ShutdownTerms.

Section BarTerms.

(** A bar whose low and high enclose its open and its close. *)
Definition barOrdered (c : Candle.t) : Prop :=
  PrimFloat.leb (Candle.low c) (Candle.open c) = true
  /\ PrimFloat.leb (Candle.open c) (Candle.high c) = true
  /\ PrimFloat.leb (Candle.low c) (Candle.close c) = true
  /\ PrimFloat.leb (Candle.close c) (Candle.high c) = true.

(** Every closed bar and the open bar are ordered. *)
Definition barsOrdered (st : SignalDetector.State) : Prop :=
  Forall barOrdered (SignalDetector.candles st)
  /\ match SignalDetector.currentCandle st with
     | Some c => barOrdered c
     | None => True
     end.

(** Ticks whose price is a number. *)
Definition numeric (ticks : list (float * Z)) : Prop :=
  Forall (fun tk => PrimFloat.is_nan (fst tk) = false) ticks.

End BarTerms.

Section ScoringTerms.

Import SignalDetector.

(** What a scoring block can do to the tally: nothing, or add its points
    and one reason at the end. *)
Definition blockStep (points : Z) (a b : Tally) : Prop :=
  (score b = score a /\ reasons b = reasons a)
  \/ (score b = score a + points /\ exists r, reasons b = reasons a ++ [r]).

(** Every change in the RSI window, a close minus the close before it, is
    [>= 0] in binary64.  Every change is then a number: no close of the
    window is NaN, and no two neighbours are the same infinity. *)
Definition gainsOnly (data : list float) (period : nat) : bool :=
  forallb
    (fun i =>
       Js.geb (nth i data PrimFloat.nan - nth (i - 1) data PrimFloat.nan)%float
              0%float)
    (seq (List.length data - period) period).

End ScoringTerms.

Section MonitorTerms.

Import EventLoop PriceMonitor.

(** What can happen to the price monitor: calls of its public methods and
    the events its sockets and its timers deliver.  A socket event comes
    from the socket the monitor holds ([held]) or from one it has dropped. *)
Inductive Event : Type :=
| Started
| Stopped
| Subscribed (cb : PriceCallback)
| SocketOpened (held : bool)
| SocketClosed (held : bool)
| Ticked (d : PriceData)
| BackoffFired (h : nat)
| CooldownFired (h : nat).

Definition react (e : Event) (w : World) : World :=
  match e with
  | Started => start w
  | Stopped => stop w
  | Subscribed cb => (onPrice cb (fst w), snd w)
  | SocketOpened held => onOpen held w
  | SocketClosed held => onClose held w
  | Ticked d => (fst (onTicker d (fst w)), snd w)
  | BackoffFired h => onBackoffTimeout h w
  | CooldownFired h => onCooldownTimeout h w
  end.

Definition run (events : list Event) (w : World) : World :=
  fold_left (fun w e => react e w) events w.

(** The delays the monitor's timers can have: 30 s for the heartbeat,
    60 s for the cooldown, and between 5 s and 5 s * 1.5^9 for a backoff. *)
Definition monitorDelay (t : Timer) : bool :=
  match purpose t with
  | Heartbeat => PrimFloat.eqb (delay t) 30000
  | ReconnectCooldown => PrimFloat.eqb (delay t) 60000
  | ReconnectBackoff =>
      PrimFloat.leb 5000 (delay t) && PrimFloat.leb (delay t) 192216.796875
  | _ => false
  end.

Definition monitorSound (w : World) : Prop :=
  (reconnectAttempts (fst w) <= maxReconnectAttempts)%nat
  /\ forallb monitorDelay (pending (snd w)) = true.

End MonitorTerms.

Section GatewayTraceTerms.

Import Host BinanceExecutor.
Local Open Scope string_scope.

(** The request [request] builds at world [w], and the world once it has
    been answered. *)
Definition requestOf (st : State) (c : BinanceConfig) (m : Method)
    (endpoint : string) (ps : list (string * Value)) (w : World) : Request :=
  mkRequest m (baseUrl st ++ endpoint)
            (ps ++ [("timestamp", Int (clock w))]) (apiKey c).

Definition afterRequest `{Env} (w : World) (r : Request) : World :=
  mkWorld (clock w + elapsed w r) (sent w ++ [r]) (pushed w).

(** What [request] makes of the venue's reply. *)
Definition outcomeOf (reply : Reply) : Outcome Body :=
  match reply with
  | Failed message => Thrown message
  | Replied ok status body =>
      if ok then Returned body
      else
        match body with
        | Message msg =>
            Thrown (if nonEmpty msg then msg else "HTTP " ++ Js.showZ status)
        | _ => Thrown ("HTTP " ++ Js.showZ status)
        end
  end.

(** Method and URL of a request. *)
Definition route (r : Request) : Method * string := (method r, url r).

(** The side of the order that opens a position in a direction, and the
    side that closes a position of a given amount. *)
Definition sideOf (d : Signal.Direction) : string :=
  match d with
  | Signal.LONG => "BUY"
  | Signal.SHORT => "SELL"
  end.

Definition closingSide (amount : float) : string :=
  if Js.gtb amount 0%float then "SELL" else "BUY".

(** The parameters of a market order, before the timestamp. *)
Definition orderParams (symbol side : string) (quantity : float)
  : list (string * Value) :=
  [("symbol", Str symbol); ("side", Str side); ("type", Str "MARKET");
   ("quantity", Fixed3 quantity)].

(** The result [openMarketOrder] makes of the venue's reply to the order
    request. *)
Definition orderResult `{Env} (reply : Reply) : OrderResult :=
  match outcomeOf reply with
  | Returned (Order id qty px) =>
      mkResult true (Some (numberToString id)) None
               (Some (parseFloat qty)) (Some (parseFloat px))
  | Returned _ =>
      failure "Cannot read properties of undefined (reading 'toString')"
  | Thrown message => failure message
  end.

(** A zero of either sign, on the side of the IEEE-754 specification. *)
Definition zeroSF (f : spec_float) : Prop :=
  match f with S754_zero _ => True | _ => False end.

End GatewayTraceTerms.

Section BookkeepingTerms.

Import Host TradingBot.

(** The log after one more line: newest first, cut at [maxLogs]. *)
Definition logged (now : Z) (ty : LogType) (m : LogMessage) (l : list BotLog)
  : list BotLog :=
  firstn maxLogs (mkLog now ty m :: l).

Definition withLogs (l : list BotLog) (st : State) : State :=
  mkState (config st) (isRunning st) (lastOrderTime st) (totalOrders st) l
          (currentPrice st).

(** The policy of [handleSignal] turns the signal away at clock reading
    [now]: there is no configuration, or the bot is disabled, or the score
    is below the minimum, or the last order is less than five minutes old. *)
Definition turnedAway (s : Signal.t) (st : State) (now : Z) : Prop :=
  match config st with
  | None => True
  | Some c =>
      enabled c = false
      \/ PrimFloat.ltb (Js.ofZ (Signal.score s)) (Js.orElse (minScore c) 60%float)
         = true
      \/ now - lastOrderTime st < minOrderInterval
  end.

(** A server on which nothing has been started yet. *)
Definition freshServer : Server :=
  mkServer initial BinanceExecutor.initial PriceMonitor.initial
           SignalDetector.initial EventLoop.empty.

End BookkeepingTerms.

Section TickTerms.

(** Whether the detector's or the bot's price handler is among some
    subscribers. *)
Definition hasDetectorHandler (cbs : list PriceMonitor.PriceCallback) : bool :=
  existsb (fun cb => match cb with
                     | PriceMonitor.DetectorProcessPrice => true
                     | _ => false
                     end) cbs.

Definition hasBotHandler (cbs : list PriceMonitor.PriceCallback) : bool :=
  existsb (fun cb => match cb with
                     | PriceMonitor.BotCurrentPrice => true
                     | _ => false
                     end) cbs.

(** The bot with a new current price. *)
Definition withCurrentPrice (p : float) (st : TradingBot.State)
  : TradingBot.State :=
  TradingBot.mkState (TradingBot.config st) (TradingBot.isRunning st)
                     (TradingBot.lastOrderTime st) (TradingBot.totalOrders st)
                     (TradingBot.logs st) p.

(** The monitor holds a socket only while it is running. *)
Definition socketOnlyWhileRunning (w : PriceMonitor.World) : Prop :=
  PriceMonitor.ws (fst w) = None \/ PriceMonitor.isRunning (fst w) = true.

End TickTerms.

(* ================================================================== *)
(** ** The number helpers on sample values *)

Section NumberHelpers.

Local Open Scope float_scope.

Example floor_samples :
  map Js.floor [30; 29.999999999999996; 0.5; -0.5; -3; -3.2; 1e300; 5e-324]
  = [30; 29; 0; -1; -3; -4; 1e300; 0].
Proof. vm_compute. reflexivity. Qed.

Example floor_keeps_special_values :
  Js.floor PrimFloat.nan = PrimFloat.nan
  /\ Js.floor PrimFloat.infinity = PrimFloat.infinity
  /\ Js.floor PrimFloat.neg_zero = PrimFloat.neg_zero.
Proof. repeat split. Qed.

Example max_min_samples :
  Js.max2 1 2 = 2 /\ Js.min2 1 2 = 1
  /\ Js.max2 PrimFloat.neg_zero 0 = 0
  /\ Js.min2 0 PrimFloat.neg_zero = PrimFloat.neg_zero
  /\ Js.max2 PrimFloat.nan 1 = PrimFloat.nan
  /\ Js.max3 3 (PrimFloat.abs (-5)) 4 = 5.
Proof. repeat split. Qed.

Example truthy_samples :
  map Js.truthy [0; PrimFloat.neg_zero; PrimFloat.nan; 1; -2.5]
  = [false; false; false; true; true].
Proof. vm_compute. reflexivity. Qed.

(** The reconnection delays of the first three failures: 5 s, 7.5 s and
    11.25 s. *)
Example backoff_delays :
  map (fun n => PriceMonitor.reconnectDelay * Js.pow 1.5 n) [0; 1; 2]%nat
  = [5000; 7500; 11250].
Proof. vm_compute. reflexivity. Qed.

End NumberHelpers.

(* ================================================================== *)
(** ** Bar aggregation: the history invariant *)

Section Aggregation.

Import SignalDetector.

Lemma sorted_snoc (l : list Z) (x : Z) :
  StronglySorted Z.lt l -> Forall (fun t => t < x) l ->
  StronglySorted Z.lt (l ++ [x]).
Proof.
  induction l as [|a l IH]; simpl; intros Hs Hf.
  - repeat constructor.
  - inversion Hs; subst. inversion Hf; subst.
    constructor; [now apply IH|].
    apply Forall_app; split; [assumption|]. now repeat constructor.
Qed.

Lemma sorted_tl (l : list Z) :
  StronglySorted Z.lt l -> StronglySorted Z.lt (List.tl l).
Proof.
  destruct l; simpl; [trivial|]. now inversion 1.
Qed.

Lemma Forall_tl {A : Type} (P : A -> Prop) (l : list A) :
  Forall P l -> Forall P (List.tl l).
Proof.
  destruct l; simpl; [trivial|]. now inversion 1.
Qed.

Lemma Forall_lt_weaken (l : list Z) (a b : Z) :
  a < b -> Forall (fun t => t <= a) l -> Forall (fun t => t < b) l.
Proof.
  intros Hab. apply Forall_impl. intros; lia.
Qed.

Lemma map_tl {A B : Type} (f : A -> B) (l : list A) :
  map f (List.tl l) = List.tl (map f l).
Proof. now destruct l. Qed.

Lemma length_tl {A : Type} (l : list A) :
  List.length (List.tl l) = (List.length l - 1)%nat.
Proof. destruct l; simpl; lia. Qed.

Lemma initial_wellFormed : wellFormed initial.
Proof.
  unfold wellFormed, times; simpl. repeat split; try constructor.
  unfold maxCandles; lia.
Qed.

Lemma processPrice_wellFormed (price : float) (timestamp : Z) (st : State) :
  wellFormed st -> wellFormed (processPrice price timestamp st).
Proof.
  unfold wellFormed, processPrice, times.
  intros (Hs & Hl & Hc).
  destruct (Z.gtb_spec (timestamp / candleInterval * candleInterval)
                       (lastCandleTime st)) as [Hgt|Hle].
  - destruct (currentCandle st) as [c|]; simpl.
    + destruct Hc as [Hts Hf].
      assert (Hs1 : StronglySorted Z.lt
                      (map Candle.timestamp (candles st ++ [c]))).
      { rewrite map_app; simpl. apply sorted_snoc; [assumption|].
        now rewrite Hts. }
      assert (Hf1 : Forall (fun t => t < timestamp / candleInterval * candleInterval)
                           (map Candle.timestamp (candles st ++ [c]))).
      { rewrite map_app; simpl. apply Forall_app; split.
        - eapply Forall_impl; [|exact Hf]. simpl; intros; lia.
        - repeat constructor. lia. }
      destruct (Nat.ltb_spec maxCandles (List.length (candles st ++ [c])))
        as [Hfull|Hroom].
      * rewrite map_tl. repeat split.
        -- now apply sorted_tl.
        -- rewrite length_tl. rewrite length_app in *; simpl in *. lia.
        -- now apply Forall_tl.
      * repeat split; assumption.
    + repeat split; try assumption.
      eapply Forall_lt_weaken; eassumption.
  - destruct (currentCandle st) as [c|] eqn:E; simpl.
    + destruct Hc as [Hts Hf]. repeat split; assumption.
    + rewrite E. repeat split; assumption.
Qed.

Lemma processTicks_wellFormed (ticks : list (float * Z)) (st : State) :
  wellFormed st -> wellFormed (processTicks ticks st).
Proof.
  unfold processTicks. revert st.
  induction ticks as [|tk ticks IH]; simpl; intros st Hwf; [assumption|].
  apply IH. now apply processPrice_wellFormed.
Qed.

(** C5. For every sequence of ticks processed from the empty aggregator
    state, the history of closed bars has strictly increasing bucket starts
    and at most 200 entries.  A further tick changes the history exactly as
    follows: when a bar is open and the tick's bucket starts after
    [lastCandleTime], the open bar is stored at the end, and the oldest
    bar, the one at the front, leaves exactly when the history already
    holds 200; in every other case the history stays as it is. *)
Theorem C5_history_increasing_and_bounded :
  forall (ticks : list (float * Z)),
    let st := processTicks ticks initial in
    StronglySorted Z.lt (times st)
    /\ (List.length (candles st) <= 200)%nat
    /\ forall price timestamp,
         let st1 := processPrice price timestamp st in
         candles st1
         = match currentCandle st with
           | Some c =>
               if lastCandleTime st <? bucketOf timestamp then
                 if (List.length (candles st) <? 200)%nat
                 then candles st ++ [c]
                 else List.tl (candles st) ++ [c]
               else candles st
           | None => candles st
           end.
Proof.
  intros ticks st.
  destruct (processTicks_wellFormed ticks initial initial_wellFormed)
    as (Hs & Hl & _).
  fold st in Hs, Hl. change maxCandles with 200%nat in Hl.
  repeat split; try assumption.
  intros price timestamp st1. unfold st1, processPrice, bucketOf.
  destruct (Z.gtb_spec (timestamp / candleInterval * candleInterval)
                       (lastCandleTime st)) as [Hgt|Hle];
    destruct (Z.ltb_spec (lastCandleTime st)
                         (timestamp / candleInterval * candleInterval));
    try lia.
  - destruct (currentCandle st) as [c|]; simpl; [|reflexivity].
    change maxCandles with 200%nat.
    destruct (Nat.ltb_spec 200 (List.length (candles st ++ [c])))
      as [Hfull|Hroom];
      destruct (Nat.ltb_spec (List.length (candles st)) 200);
      rewrite length_app in *; simpl in *; try lia; [|reflexivity].
    destruct (candles st) as [|c0 l]; simpl in *; [lia|reflexivity].
  - destruct (currentCandle st); reflexivity.
Qed.

(** C10. A tick whose bucket start does not exceed [lastCandleTime] while
    no bar is open leaves the whole aggregator state as it is; this is the
    state historical seeding produces, where [lastCandleTime] is the start
    of the last seeded bar. *)
Theorem C10_tick_dropped_without_open_bar :
  forall (st : State) (price : float) (timestamp : Z),
    currentCandle st = None ->
    bucketOf timestamp <= lastCandleTime st ->
    processPrice price timestamp st = st
    /\ forall (data : list Candle.t) (b : Candle.t),
         let seeded := loadHistoricalCandles (KlinesLoaded (data ++ [b])) st in
         currentCandle seeded = None
         /\ lastCandleTime seeded = Candle.timestamp b
         /\ (bucketOf timestamp <= Candle.timestamp b ->
             processPrice price timestamp seeded = seeded).
Proof.
  intros st price timestamp Hnone Hle.
  assert (Hdrop : forall s, currentCandle s = None ->
                            bucketOf timestamp <= lastCandleTime s ->
                            processPrice price timestamp s = s).
  { intros s Hn Hb. unfold processPrice. unfold bucketOf in Hb.
    destruct (Z.gtb_spec (timestamp / candleInterval * candleInterval)
                         (lastCandleTime s)); [lia|].
    now rewrite Hn. }
  split; [now apply Hdrop|].
  intros data b seeded.
  assert (Hlast : lastCandleTime seeded = Candle.timestamp b).
  { unfold seeded; simpl. rewrite last_last.
    destruct (data ++ [b]) eqn:E; [|reflexivity].
    now destruct data. }
  repeat split; [exact Hnone|exact Hlast|].
  intros Hb. apply Hdrop; [exact Hnone|]. now rewrite Hlast.
Qed.

Lemma C10_witness :
  let st := Fixture.detectorWith (Fixture.flatBars 100 50000%float 1500000000000) None in
  processPrice 50010%float 1500029700123 st = st.
Proof.
  intros st.
  apply (C10_tick_dropped_without_open_bar st 50010%float 1500029700123).
  - reflexivity.
  - vm_compute. discriminate.
Defined.

End Aggregation.

(* ================================================================== *)
(** ** Periodic analysis: when a signal can be delivered *)

Section Analysis.

Import SignalDetector.

Lemma type_add (points : Z) (r : Signal.Reason) (a : Tally) :
  type (add points r a) = type a.
Proof. reflexivity. Qed.

Lemma type_scoreRSI (r : float) (a : Tally) : type (scoreRSI r a) = type a.
Proof. unfold scoreRSI. repeat destruct (_ && _)%bool; reflexivity. Qed.

Lemma type_scoreMACD (m : Macd) (a : Tally) : type (scoreMACD m a) = type a.
Proof. unfold scoreMACD. repeat destruct (_ && _)%bool; reflexivity. Qed.

Lemma type_scoreMomentum (p e : float) (a : Tally) :
  type (scoreMomentum p e a) = type a.
Proof. unfold scoreMomentum. repeat destruct (_ && _)%bool; reflexivity. Qed.

Lemma type_scoreStrength (e20 e50 : float) (a : Tally) :
  type (scoreStrength e20 e50 a) = type a.
Proof. unfold scoreStrength. destruct (Js.gtb _ _); reflexivity. Qed.

(** The direction is settled by the trend block alone. *)
Lemma type_tally (p e20 e50 r : float) (m : Macd) :
  type (tally p e20 e50 r m)
  = if longOrdering p e20 e50 then Some Signal.LONG
    else if shortOrdering p e20 e50 then Some Signal.SHORT
    else None.
Proof.
  unfold tally.
  rewrite type_scoreStrength, type_scoreMomentum, type_scoreMACD, type_scoreRSI.
  unfold scoreTrend, longOrdering, shortOrdering.
  destruct (Js.gtb p e20 && Js.gtb e20 e50); [reflexivity|].
  destruct (PrimFloat.ltb p e20 && PrimFloat.ltb e20 e50); reflexivity.
Qed.

Lemma detectSignal_no_direction (st : State) (clock : Z)
    (p e20 e50 r : float) (m : Macd) :
  longOrdering p e20 e50 = false -> shortOrdering p e20 e50 = false ->
  detectSignal st clock p e20 e50 r m = None.
Proof.
  intros Hl Hs. unfold detectSignal.
  rewrite type_tally, Hl, Hs. reflexivity.
Qed.

Lemma detectSignal_low_score (st : State) (clock : Z)
    (p e20 e50 r : float) (m : Macd) :
  score (tally p e20 e50 r m) < 60 ->
  detectSignal st clock p e20 e50 r m = None.
Proof.
  intros Hlow. unfold detectSignal.
  destruct (type (tally p e20 e50 r m)); [|reflexivity].
  destruct (Z.geb_spec (score (tally p e20 e50 r m)) 60); [lia|reflexivity].
Qed.

(** C1. An analysis run delivers no signal to any subscriber, and leaves
    the engine state as it is, when the history holds fewer than 50 bars, or
    less than the five-minute minimum interval has passed since the last
    signal, or neither directional ordering of price, EMA20 and EMA50
    holds, or the composite score is below 60. *)
Theorem C1_no_signal_delivered :
  forall (st : State) (now : Z),
    (List.length (candles st) < 50)%nat
    \/ now - lastSignalTime st < 5 * 60 * 1000
    \/ noOrdering st
    \/ compositeScore st < 60 ->
    analyzeMarket now st = (st, []).
Proof.
  intros st now H. unfold analyzeMarket.
  destruct (Nat.ltb_spec (List.length (candles st)) 50) as [|Hlen];
    [reflexivity|].
  destruct (Z.ltb_spec (now - lastSignalTime st) minSignalInterval) as [|Hint];
    [reflexivity|].
  change minSignalInterval with (5 * 60 * 1000) in Hint.
  destruct H as [H|[H|[[Hl Hs]|H]]]; try lia.
  - rewrite detectSignal_no_direction; [reflexivity|exact Hl|exact Hs].
  - rewrite detectSignal_low_score; [reflexivity|exact H].
Qed.

End Analysis.

(* ================================================================== *)
(** ** Indicators: the series they read, ATR and MACD *)

Section IndicatorFacts.

Import SignalDetector.

(** The rally of the specification's scenario is detected: one LONG signal
    at 51500 with score 80, delivered to the subscriber. *)
Example analyzeMarket_rally_emits :
  map (fun d => (Signal.type (snd d), Signal.entryPrice (snd d),
                 Signal.score (snd d)))
      (snd (analyzeMarket (Fixture.t0 + 18300000) Fixture.rally))
  = [(Signal.LONG, 51500%float, 80)].
Proof. vm_compute. reflexivity. Qed.

Lemma C1_witness :
  analyzeMarket (Fixture.t0 + 15300000) Fixture.flatThenJump
  = (Fixture.flatThenJump, []).
Proof.
  apply (C1_no_signal_delivered Fixture.flatThenJump (Fixture.t0 + 15300000)).
  right. right. left. split; vm_compute; reflexivity.
Defined.

(** C6, as stated, fails: with 50 closed bars at 50000 and an open bar at
    51500 the analysis computes EMA20 = 50000, while over the series with
    the open bar's close appended it would be above 50142. *)
Lemma C6_counterexample :
  currentCandle Fixture.flatThenJump
  = Some (Fixture.bar 51500%float (Fixture.t0 + 15000000))
  /\ ema20 (indicators Fixture.flatThenJump) = 50000%float
  /\ PrimFloat.ltb 50142%float
       (ema20 (indicatorsOver (seriesWithOpenBar Fixture.flatThenJump))) = true
  /\ indicators Fixture.flatThenJump
     <> indicatorsOver (seriesWithOpenBar Fixture.flatThenJump).
Proof.
  repeat split; try (vm_compute; reflexivity).
  intros E. apply (f_equal (fun i => Prim2SF (ema20 i))) in E.
  vm_compute in E. discriminate E.
Qed.

(** C6, amended. Every analysis run computes EMA20, EMA50, RSI and MACD
    over the closes of the history alone: the open bar is no element of the
    series, and replacing or removing it changes no indicator.  The open
    bar's close only serves as the current price (when there is an open bar
    and its close is neither zero nor NaN; the last closed bar's close
    otherwise) that [detectSignal] compares with the indicators. *)
Theorem C6_indicators_read_history_only :
  forall (st : State),
    indicators st
    = mkIndicators (calculateEMA (map Candle.close (candles st)) 20)
                   (calculateEMA (map Candle.close (candles st)) 50)
                   (calculateRSI (map Candle.close (candles st)) 14)
                   (calculateMACD (map Candle.close (candles st)))
    /\ (forall c, indicators (withCurrentCandle c st) = indicators st)
    /\ currentPrice st
       = match currentCandle st with
         | Some c =>
             if Js.truthy (Candle.close c) then Candle.close c
             else Js.lastNum (map Candle.close (candles st))
         | None => Js.lastNum (map Candle.close (candles st))
         end
    /\ forall now,
         analyzeMarket now st = (st, [])
         \/ exists s,
              detectSignal st now (currentPrice st) (ema20 (indicators st))
                           (ema50 (indicators st)) (rsi (indicators st))
                           (macdOf (indicators st)) = Some s
              /\ snd (analyzeMarket now st)
                 = map (fun cb => (cb, Signal.withTimestamp now s))
                       (callbacks st).
Proof.
  intros st. repeat split.
  - unfold currentPrice, Js.optOrElse, Js.orElse, closes.
    destruct (currentCandle st); reflexivity.
  - intros now. unfold analyzeMarket.
    destruct (_ <? _)%nat; [now left|].
    destruct (_ <? _); [now left|].
    destruct (detectSignal _ _ _ _ _ _ _) as [s|]; [right|now left].
    exists s. split; reflexivity.
Qed.

End IndicatorFacts.

Section AverageTrueRange.

Import SignalDetector.

Lemma fold_left_seq_shift {A : Type} (f : A -> nat -> A) (n start : nat) (a : A) :
  fold_left f (seq (S start) n) a
  = fold_left (fun acc i => f acc (S i)) (seq start n) a.
Proof.
  revert start a. induction n as [|n IH]; intros start a; simpl; [reflexivity|].
  apply IH.
Qed.

Lemma fold_left_ext_seq {A : Type} (f g : A -> nat -> A) (n start : nat) (a : A) :
  (forall acc i, (start <= i)%nat -> f acc i = g acc i) ->
  fold_left f (seq start n) a = fold_left g (seq start n) a.
Proof.
  revert start a. induction n as [|n IH]; intros start a Hfg; simpl;
    [reflexivity|].
  rewrite Hfg by lia. apply IH. intros acc i Hi. apply Hfg. lia.
Qed.

(** The index loop of [calculateATR] adds up the true ranges in order. *)
Lemma atr_loop (previous : Candle.t) (bars : list Candle.t) (acc : float) :
  fold_left
    (fun acc i =>
       (acc + trueRange (nth i (previous :: bars) Candle.undefined)
                        (nth (i - 1) (previous :: bars) Candle.undefined))%float)
    (seq 1 (List.length bars)) acc
  = fold_left PrimFloat.add (trueRanges previous bars) acc.
Proof.
  revert previous acc.
  induction bars as [|b bars IH]; intros previous acc; [reflexivity|].
  cbn [List.length seq fold_left trueRanges].
  change (nth 1 (previous :: b :: bars) Candle.undefined) with b.
  change (nth (1 - 1) (previous :: b :: bars) Candle.undefined) with previous.
  rewrite <- IH. rewrite fold_left_seq_shift.
  apply fold_left_ext_seq. intros a i Hi.
  destruct i as [|i]; [lia|].
  replace (S (S i) - 1)%nat with (S (S i - 1)) by lia.
  reflexivity.
Qed.

Lemma lastn_length {A : Type} (n : nat) (l : list A) :
  (n <= List.length l)%nat -> List.length (Js.lastn n l) = n.
Proof. intros Hn. unfold Js.lastn. rewrite length_skipn. lia. Qed.

Lemma skipn_cons {A : Type} (k : nat) (l : list A) :
  (k < List.length l)%nat -> exists x, skipn k l = x :: skipn (S k) l.
Proof.
  revert l. induction k as [|k IH]; intros l Hk.
  - destruct l as [|x l]; [simpl in Hk; lia|]. now exists x.
  - destruct l as [|y l]; [simpl in Hk; lia|].
    simpl in Hk. apply (IH l). lia.
Qed.

Lemma lastn_succ {A : Type} (n : nat) (l : list A) :
  (S n <= List.length l)%nat ->
  exists x, Js.lastn (S n) l = x :: Js.lastn n l.
Proof.
  intros Hn. unfold Js.lastn.
  replace (List.length l - n)%nat with (S (List.length l - S n)) by lia.
  apply skipn_cons. lia.
Qed.

(** C8, as stated, fails in its fallback: with one closed bar at 100 and
    no open bar the current price is 100 and one percent of it is 1, but
    [calculateATR] returns 500, one percent of the constant 50000. *)
Lemma C8_counterexample :
  (List.length (candles Fixture.oneBar) < 15)%nat
  /\ currentPrice Fixture.oneBar = 100%float
  /\ (currentPrice Fixture.oneBar * 0.01)%float = 1%float
  /\ calculateATR Fixture.oneBar 14 = 500%float
  /\ calculateATR Fixture.oneBar 14 <> (currentPrice Fixture.oneBar * 0.01)%float.
Proof.
  repeat split; try (vm_compute; reflexivity).
  - vm_compute. lia.
  - intros E. apply (f_equal Prim2SF) in E. vm_compute in E. discriminate E.
Qed.

(** C8, amended. With at least 15 closed bars [calculateATR] returns the
    mean, over the last 14 closed bars, of the true range
    [max (high - low, |high - prevClose|, |low - prevClose|)], each bar
    taken against the close of the bar before it.  With fewer closed bars
    it returns one percent of the open bar's close when there is an open bar
    whose close is neither zero nor NaN, and 500 (one percent of the
    constant 50000) otherwise. *)
Theorem C8_average_true_range :
  forall (st : State),
    ((15 <= List.length (candles st))%nat ->
     exists previous,
       Js.lastn 15 (candles st) = previous :: Js.lastn 14 (candles st)
       /\ List.length (Js.lastn 14 (candles st)) = 14%nat
       /\ calculateATR st 14
          = (Js.sum (trueRanges previous (Js.lastn 14 (candles st))) / 14)%float)
    /\ ((List.length (candles st) < 15)%nat ->
        calculateATR st 14 = (fallbackPrice st * 0.01)%float
        /\ (currentCandle st = None -> calculateATR st 14 = 500%float)).
Proof.
  intros st. unfold calculateATR. split.
  - intros Hlen.
    destruct (Nat.ltb_spec (List.length (candles st)) (14 + 1)) as [Hlt|_];
      [lia|].
    destruct (lastn_succ 14 (candles st) Hlen) as [previous Hrecent].
    exists previous. split; [exact Hrecent|].
    assert (Hbars : List.length (Js.lastn 14 (candles st)) = 14%nat)
      by (apply lastn_length; lia).
    split; [exact Hbars|].
    change (14 + 1)%nat with 15%nat. rewrite Hrecent.
    cbn [List.length]. rewrite Nat.sub_succ, Nat.sub_0_r.
    rewrite atr_loop. reflexivity.
  - intros Hlen.
    destruct (Nat.ltb_spec (List.length (candles st)) (14 + 1)) as [_|Hge];
      [|lia].
    unfold fallbackPrice, Js.optOrElse, Js.orElse.
    destruct (currentCandle st) as [c|]; simpl.
    + split; [reflexivity|discriminate].
    + split; [reflexivity|]. intros _. vm_compute. reflexivity.
Qed.

Lemma C8_witness :
  ((15 <= List.length (candles Fixture.rally))%nat
   /\ exists previous,
        Js.lastn 15 (candles Fixture.rally)
        = previous :: Js.lastn 14 (candles Fixture.rally)
        /\ List.length (Js.lastn 14 (candles Fixture.rally)) = 14%nat
        /\ calculateATR Fixture.rally 14
           = (Js.sum (trueRanges previous (Js.lastn 14 (candles Fixture.rally)))
              / 14)%float)
  /\ ((List.length (candles Fixture.oneBar) < 15)%nat
      /\ calculateATR Fixture.oneBar 14
         = (fallbackPrice Fixture.oneBar * 0.01)%float).
Proof.
  assert (H : (15 <= List.length (candles Fixture.rally))%nat)
    by (vm_compute; lia).
  assert (H1 : (List.length (candles Fixture.oneBar) < 15)%nat)
    by (vm_compute; lia).
  split; split; try assumption.
  - exact (proj1 (C8_average_true_range Fixture.rally) H).
  - exact (proj1 (proj2 (C8_average_true_range Fixture.oneBar) H1)).
Defined.

End AverageTrueRange.

(* ================================================================== *)
(** ** Binary64 arithmetic: the sign of a damped difference

    [signal = macd * 0.9] and [histogram = macd - signal] are two rounded
    operations.  This part derives, from the specification of the primitive
    operations ([SpecFloat]), when the sign of [d - d * 0.9] and the
    comparison of [d] with [d * 0.9] agree with the sign of [d]. *)

Section Rounding.

(** Binary64: precision 53, least exponent -1074. *)
Lemma fexp_eq (k : Z) : SpecFloat.fexp prec emax k = Z.max (k - 53) (-1074).
Proof. reflexivity. Qed.

(** A positive number of [k] binary digits lies in [[2^(k-1), 2^k)]. *)
Lemma digits2_pos_bounds (p : positive) :
  2 ^ (Zpos (digits2_pos p) - 1) <= Zpos p < 2 ^ Zpos (digits2_pos p).
Proof.
  induction p as [p IH|p IH|]; cbn [digits2_pos].
  - rewrite Pos2Z.inj_succ.
    replace (Z.succ (Zpos (digits2_pos p)) - 1)
      with (Z.succ (Zpos (digits2_pos p) - 1)) by lia.
    rewrite !Z.pow_succ_r by lia. lia.
  - rewrite Pos2Z.inj_succ.
    replace (Z.succ (Zpos (digits2_pos p)) - 1)
      with (Z.succ (Zpos (digits2_pos p) - 1)) by lia.
    rewrite !Z.pow_succ_r by lia. lia.
  - simpl. lia.
Qed.

Lemma Zdigits2_unique (x k : Z) :
  0 < x -> 2 ^ (k - 1) <= x < 2 ^ k -> Zdigits2 x = k.
Proof.
  intros Hx [Hlo Hhi]. destruct x as [|p|p]; try lia.
  cbn [Zdigits2]. pose proof (digits2_pos_bounds p) as [Blo Bhi].
  assert (0 <= k).
  { destruct (Z.le_gt_cases 0 k); [assumption|].
    rewrite Z.pow_neg_r in Hhi by lia. lia. }
  assert (Zpos (digits2_pos p) - 1 < k).
  { apply (Z.pow_lt_mono_r_iff 2); lia. }
  assert (k - 1 < Zpos (digits2_pos p)).
  { destruct (Z.eq_dec k 0) as [->|]; [lia|].
    apply (Z.pow_lt_mono_r_iff 2); lia. }
  lia.
Qed.

(** Shifting right by [n] places divides the mantissa by [2^n]. *)
Lemma shr_1_m (r : shr_record) :
  0 <= shr_m r -> shr_m (shr_1 r) = shr_m r / 2.
Proof.
  destruct r as [m r s]; cbn [shr_m shr_1]. intros Hm.
  destruct m as [|[p|p|]|p]; cbn [shr_m]; try lia.
  - reflexivity.
  - apply Z.div_unique with 1; lia.
  - apply Z.div_unique with 0; lia.
  - reflexivity.
Qed.

Lemma pow2_xO (p : positive) : 2 ^ Zpos p~0 = 2 ^ Zpos p * 2 ^ Zpos p.
Proof. rewrite <- Z.pow_add_r by lia. f_equal. lia. Qed.

Lemma pow2_xI (p : positive) : 2 ^ Zpos p~1 = 2 * (2 ^ Zpos p * 2 ^ Zpos p).
Proof.
  rewrite <- Z.pow_add_r by lia. rewrite <- Z.pow_succ_r by lia. f_equal. lia.
Qed.

Lemma iter_shr_1_m (p : positive) (r : shr_record) :
  0 <= shr_m r -> shr_m (iter_pos shr_1 p r) = shr_m r / 2 ^ Zpos p.
Proof.
  revert r. induction p as [p IH|p IH|]; intros r Hr; cbn [iter_pos].
  - assert (Hp : 0 < 2 ^ Zpos p) by (apply Z.pow_pos_nonneg; lia).
    assert (H1 : 0 <= shr_m (shr_1 r))
      by (rewrite shr_1_m by lia; apply Z.div_pos; lia).
    assert (H2 : 0 <= shr_m (iter_pos shr_1 p (shr_1 r)))
      by (rewrite IH by lia; apply Z.div_pos; lia).
    rewrite IH by lia. rewrite IH by lia. rewrite shr_1_m by lia.
    rewrite !Z.div_div by lia. rewrite pow2_xI. f_equal; lia.
  - assert (Hp : 0 < 2 ^ Zpos p) by (apply Z.pow_pos_nonneg; lia).
    assert (H2 : 0 <= shr_m (iter_pos shr_1 p r))
      by (rewrite IH by lia; apply Z.div_pos; lia).
    rewrite IH by lia. rewrite IH by lia.
    rewrite !Z.div_div by lia. rewrite pow2_xO. reflexivity.
  - rewrite shr_1_m by lia. reflexivity.
Qed.

Lemma shr_m_of_loc (m : Z) (l : location) : shr_m (shr_record_of_loc m l) = m.
Proof. destruct l as [|[| |]]; reflexivity. Qed.

Lemma shr_spec (m e n : Z) (l : location) :
  0 <= m ->
  shr_m (fst (shr (shr_record_of_loc m l) e n)) = shiftm m n
  /\ snd (shr (shr_record_of_loc m l) e n) = shifte e n.
Proof.
  intros Hm. unfold shr, shiftm, shifte.
  destruct n as [|p|p]; cbn [fst snd Z.ltb Z.compare].
  - now rewrite shr_m_of_loc.
  - rewrite iter_shr_1_m by (rewrite shr_m_of_loc; exact Hm).
    now rewrite shr_m_of_loc.
  - now rewrite shr_m_of_loc.
Qed.

Lemma rne_bounds (m : Z) (l : location) :
  m <= round_nearest_even m l <= m + 1.
Proof.
  unfold round_nearest_even. destruct l as [|[| |]]; try lia.
  destruct (Z.even m); lia.
Qed.

Lemma shiftm_pos (m n : Z) : 0 < n -> shiftm m n = m / 2 ^ n.
Proof. unfold shiftm. destruct (Z.ltb_spec 0 n); [reflexivity|lia]. Qed.

Lemma shiftm_nonpos (m n : Z) : n <= 0 -> shiftm m n = m.
Proof. unfold shiftm. destruct (Z.ltb_spec 0 n); [lia|reflexivity]. Qed.

Lemma shifte_pos (e n : Z) : 0 < n -> shifte e n = e + n.
Proof. unfold shifte. destruct (Z.ltb_spec 0 n); [reflexivity|lia]. Qed.

Lemma shifte_nonpos (e n : Z) : n <= 0 -> shifte e n = e.
Proof. unfold shifte. destruct (Z.ltb_spec 0 n); [lia|reflexivity]. Qed.

(** Rounding an exact value: shift by [n1], round to nearest even (at most
    one above the truncation), renormalise by [n2]. *)
Lemma binary_round_aux_exact (s : bool) (M E n1 : Z) :
  0 <= M ->
  n1 = SpecFloat.fexp prec emax (Zdigits2 M + E) - E ->
  exists m1r,
    shiftm M n1 <= m1r <= shiftm M n1 + 1
    /\ (n1 <= 0 -> m1r = M)
    /\ forall n2,
         n2 = SpecFloat.fexp prec emax (Zdigits2 m1r + shifte E n1) - shifte E n1 ->
         binary_round_aux prec emax s M E loc_Exact
         = finish s (shiftm m1r n2) (shifte (shifte E n1) n2).
Proof.
  intros HM ->. unfold binary_round_aux, shr_fexp.
  destruct (shr_spec M E (SpecFloat.fexp prec emax (Zdigits2 M + E) - E)
                     loc_Exact HM) as [Hm1 He1].
  destruct (shr (shr_record_of_loc M loc_Exact) E
                (SpecFloat.fexp prec emax (Zdigits2 M + E) - E))
    as [mrs1 e1] eqn:E1.
  cbn [fst snd] in Hm1, He1.
  exists (round_nearest_even (shr_m mrs1) (loc_of_shr_record mrs1)).
  rewrite <- Hm1, <- He1.
  split; [apply rne_bounds|].
  split.
  { intros Hn. unfold shr in E1.
    destruct (SpecFloat.fexp prec emax (Zdigits2 M + E) - E) as [|p|p]; try lia;
      injection E1 as <- <-; reflexivity. }
  set (m1r := round_nearest_even (shr_m mrs1) (loc_of_shr_record mrs1)).
  assert (Hm1r : 0 <= m1r).
  { pose proof (rne_bounds (shr_m mrs1) (loc_of_shr_record mrs1)).
    assert (0 <= shr_m mrs1).
    { rewrite Hm1. unfold shiftm.
      destruct (Z.ltb_spec 0 (SpecFloat.fexp prec emax (Zdigits2 M + E) - E)); [|lia].
      apply Z.div_pos; [lia|]. apply Z.pow_pos_nonneg; lia. }
    unfold m1r. lia. }
  intros n2 ->.
  destruct (shr_spec m1r e1
                     (SpecFloat.fexp prec emax (Zdigits2 m1r + e1) - e1)
                     loc_Exact Hm1r) as [Hm2 He2].
  destruct (shr (shr_record_of_loc m1r loc_Exact) e1
                (SpecFloat.fexp prec emax (Zdigits2 m1r + e1) - e1)) as [mrs2 e2].
  cbn [fst snd] in Hm2, He2. rewrite Hm2, He2. reflexivity.
Qed.

Lemma Zdigits2_bounds (x : Z) :
  0 < x -> 2 ^ (Zdigits2 x - 1) <= x < 2 ^ Zdigits2 x.
Proof.
  destruct x as [|p|p]; try lia. intros _. apply digits2_pos_bounds.
Qed.

Lemma Zdigits2_le (x k : Z) : 0 < x -> 0 <= k -> x < 2 ^ k -> Zdigits2 x <= k.
Proof.
  intros Hx Hk Hlt. pose proof (Zdigits2_bounds x Hx) as [Hlo _].
  destruct (Z.le_gt_cases (Zdigits2 x) k) as [|Hgt]; [assumption|].
  assert (2 ^ k <= 2 ^ (Zdigits2 x - 1)) by (apply Z.pow_le_mono_r; lia).
  lia.
Qed.

Lemma finish_pos (s : bool) (m e : Z) :
  0 < m -> e <= 971 ->
  exists p, Zpos p = m /\ finish s m e = S754_finite s p e.
Proof.
  intros Hm He. destruct m as [|p|p]; try lia. exists p. split; [reflexivity|].
  unfold finish. change (emax - prec) with 971.
  destruct (Z.leb_spec e 971); [reflexivity|lia].
Qed.

Lemma bounded_inv (m : positive) (e : Z) :
  bounded prec emax m e = true ->
  Z.max (Zpos (digits2_pos m) + e - 53) (-1074) = e /\ e <= 971.
Proof.
  unfold bounded, canonical_mantissa. intros H.
  apply andb_prop in H as [Hc He].
  apply Z.eqb_eq in Hc. apply Z.leb_le in He.
  rewrite fexp_eq in Hc. change (emax - prec) with 971 in He. lia.
Qed.

(** The product of a finite double of mantissa at least 11 with 0.9 is a
    finite double of the same sign and strictly smaller magnitude: same
    exponent and smaller mantissa, or one exponent below. *)
Lemma mul09_finite (s : bool) (m : positive) (e : Z) :
  bounded prec emax m e = true -> 11 <= Zpos m ->
  exists m' e',
    SFmul prec emax (S754_finite s m e) (S754_finite false m9 (-53))
    = S754_finite s m' e'
    /\ -1074 <= e'
    /\ (e' = e /\ Zpos m' < Zpos m
        \/ e' = e - 1 /\ Zpos m' < 2 * Zpos m).
Proof.
  intros Hb Hm. apply bounded_inv in Hb as [Hcan Hmax].
  cbn [SFmul]. rewrite xorb_false_r.
  pose proof (digits2_pos_bounds m) as [Hlo Hhi].
  set (d := Zpos (digits2_pos m)) in *.
  assert (Hd : 1 <= d) by (unfold d; lia).
  set (P := 2 ^ (d - 1)) in *.
  assert (HP : 0 < P) by (apply Z.pow_pos_nonneg; lia).
  assert (H2P : 2 ^ d = 2 * P).
  { unfold P. rewrite <- Z.pow_succ_r by lia. f_equal. lia. }
  rewrite H2P in Hhi.
  set (M := Zpos (m * m9)).
  assert (HM : M = Zpos m * 8106479329266893) by reflexivity.
  assert (Hp52 : 2 ^ (d + 52 - 1) = P * 4503599627370496).
  { replace (d + 52 - 1) with ((d - 1) + 52) by lia.
    rewrite Z.pow_add_r by lia. reflexivity. }
  assert (Hp53 : 2 ^ (d + 53 - 1) = P * 9007199254740992).
  { replace (d + 53 - 1) with ((d - 1) + 53) by lia.
    rewrite Z.pow_add_r by lia. reflexivity. }
  assert (Hp54 : 2 ^ (d + 53) = P * 18014398509481984).
  { replace (d + 53) with ((d - 1) + 54) by lia.
    rewrite Z.pow_add_r by lia. reflexivity. }
  destruct (Z.le_gt_cases (P * 9007199254740992) M) as [Hbig|Hsmall].
  - (* the product has [d + 53] digits *)
    assert (HdM : Zdigits2 M = d + 53).
    { apply Zdigits2_unique; [lia|]. rewrite Hp53, Hp54. lia. }
    destruct (binary_round_aux_exact s M (e + -53) 53) as (m1r & Hr & _ & Hres);
      [lia|rewrite fexp_eq, HdM; lia|].
    rewrite shiftm_pos in Hr by lia.
    change (2 ^ 53) with 9007199254740992 in Hr.
    assert (Hm1r : P <= m1r <= Zpos m - 1).
    { Z.div_mod_to_equations. lia. }
    assert (Hdr : Zdigits2 m1r = d).
    { apply Zdigits2_unique; [lia|]. fold P. rewrite H2P. lia. }
    rewrite (Hres 0) by (rewrite fexp_eq, Hdr, shifte_pos; lia).
    rewrite shiftm_nonpos, shifte_nonpos, shifte_pos by lia.
    destruct (finish_pos s m1r (e + -53 + 53)) as (p & Hp & ->); [lia|lia|].
    exists p, (e + -53 + 53). split; [reflexivity|]. split; [lia|]. left. split; lia.
  - (* the product has [d + 52] digits *)
    assert (HdM : Zdigits2 M = d + 52).
    { apply Zdigits2_unique; [lia|]. rewrite Hp52.
      replace (d + 52) with (d + 53 - 1) by lia. rewrite Hp53. lia. }
    destruct (Z.eq_dec e (-1074)) as [He|He].
    + (* subnormal range: the exponent stays at the minimum *)
      assert (Hd53 : d <= 53) by lia.
      destruct (binary_round_aux_exact s M (e + -53) 53) as (m1r & Hr & _ & Hres);
        [lia|rewrite fexp_eq, HdM; lia|].
      rewrite shiftm_pos in Hr by lia.
      change (2 ^ 53) with 9007199254740992 in Hr.
      assert (Hm1r : 9 <= m1r <= Zpos m - 1).
      { Z.div_mod_to_equations. lia. }
      assert (Hk : Zdigits2 m1r <= 53).
      { apply Zdigits2_le; [lia|lia|].
        assert (2 ^ d <= 2 ^ 53) by (apply Z.pow_le_mono_r; lia). lia. }
      assert (Hk1 : 1 <= Zdigits2 m1r).
      { destruct m1r as [|p|p]; try lia. cbn [Zdigits2]. lia. }
      rewrite (Hres 0) by (rewrite fexp_eq, shifte_pos; lia).
      rewrite shiftm_nonpos, shifte_nonpos, shifte_pos by lia.
      destruct (finish_pos s m1r (e + -53 + 53)) as (p & Hp & ->); [lia|lia|].
      exists p, (e + -53 + 53). split; [reflexivity|]. split; [lia|]. left. split; lia.
    + (* normal range: one binade down, or back up after the carry *)
      assert (Hd53 : d = 53) by lia.
      assert (HP52 : P = 4503599627370496).
      { unfold P. rewrite Hd53. reflexivity. }
      destruct (binary_round_aux_exact s M (e + -53) 52) as (m1r & Hr & _ & Hres);
        [lia|rewrite fexp_eq, HdM; lia|].
      rewrite shiftm_pos in Hr by lia.
      change (2 ^ 52) with 4503599627370496 in Hr.
      assert (Hm1r : 4503599627370496 <= m1r <= 9007199254740992).
      { Z.div_mod_to_equations. lia. }
      destruct (Z.eq_dec m1r 9007199254740992) as [Hcarry|Hnocarry].
      * assert (Hdr : Zdigits2 m1r = 54).
        { apply Zdigits2_unique; [lia|]. rewrite Hcarry.
          change (2 ^ (54 - 1)) with 9007199254740992.
          change (2 ^ 54) with 18014398509481984. lia. }
        rewrite (Hres 1) by (rewrite fexp_eq, Hdr, shifte_pos; lia).
        rewrite shiftm_pos, !shifte_pos by lia. rewrite Hcarry.
        change (9007199254740992 / 2 ^ 1) with 4503599627370496.
        destruct (finish_pos s 4503599627370496 (e + -53 + 52 + 1))
          as (p & Hp & ->); [lia|lia|].
        exists p, (e + -53 + 52 + 1). split; [reflexivity|].
        split; [lia|]. left. split; [lia|].
        assert (9007199254740991 <= M / 4503599627370496) by lia.
        Z.div_mod_to_equations. lia.
      * assert (Hdr : Zdigits2 m1r = 53).
        { apply Zdigits2_unique; [lia|].
          change (2 ^ (53 - 1)) with 4503599627370496.
          change (2 ^ 53) with 9007199254740992. lia. }
        rewrite (Hres 0) by (rewrite fexp_eq, Hdr, shifte_pos; lia).
        rewrite shiftm_nonpos, shifte_nonpos, shifte_pos by lia.
        destruct (finish_pos s m1r (e + -53 + 52)) as (p & Hp & ->); [lia|lia|].
        exists p, (e + -53 + 52). split; [reflexivity|]. split; [lia|]. right. split; lia.
Qed.

Lemma shiftm_positive (m n : Z) :
  0 < m -> n <= Zdigits2 m - 1 -> 0 < shiftm m n.
Proof.
  intros Hm Hn. unfold shiftm. destruct (Z.ltb_spec 0 n) as [Hpos|]; [|lia].
  pose proof (Zdigits2_bounds m Hm) as [Hlo _].
  assert (2 ^ n <= 2 ^ (Zdigits2 m - 1)) by (apply Z.pow_le_mono_r; lia).
  apply Z.div_str_pos. split; [apply Z.pow_pos_nonneg; lia|lia].
Qed.

Lemma Zdigits2_pos (m : Z) : 0 < m -> 1 <= Zdigits2 m.
Proof. destruct m as [|p|p]; try lia. intros _. cbn [Zdigits2]. lia. Qed.

(** Rounding a positive integer at an exponent in range keeps the sign:
    the outcome is finite or infinite, never zero. *)
Lemma binary_round_aux_sign (s : bool) (M E : Z) :
  0 < M -> -1074 <= E ->
  (exists p e, binary_round_aux prec emax s M E loc_Exact = S754_finite s p e)
  \/ binary_round_aux prec emax s M E loc_Exact = S754_infinity s.
Proof.
  intros HM HE.
  destruct (binary_round_aux_exact s M E (SpecFloat.fexp prec emax (Zdigits2 M + E) - E))
    as (m1r & Hr & _ & Hres); [lia|reflexivity|].
  rewrite (Hres _ eq_refl). clear Hres.
  pose proof (Zdigits2_pos M HM) as HdM.
  set (n1 := SpecFloat.fexp prec emax (Zdigits2 M + E) - E) in *.
  assert (Hn1 : n1 <= Zdigits2 M - 1) by (unfold n1; rewrite fexp_eq; lia).
  pose proof (shiftm_positive M n1 HM Hn1) as Hm1.
  assert (Hm1r : 0 < m1r) by lia.
  assert (He1 : -1074 <= shifte E n1).
  { unfold shifte. destruct (Z.ltb_spec 0 n1); lia. }
  pose proof (Zdigits2_pos m1r Hm1r) as Hdr.
  set (e1 := shifte E n1) in *.
  set (n2 := SpecFloat.fexp prec emax (Zdigits2 m1r + e1) - e1).
  assert (Hn2 : n2 <= Zdigits2 m1r - 1) by (unfold n2; rewrite fexp_eq; lia).
  pose proof (shiftm_positive m1r n2 Hm1r Hn2) as Hm2.
  destruct (shiftm m1r n2) as [|p|p]; try lia.
  unfold finish. destruct (shifte e1 n2 <=? emax - prec).
  - left. now exists p, (shifte e1 n2).
  - now right.
Qed.

Lemma binary_round_sign (s : bool) (m : positive) (e : Z) :
  -1074 <= e ->
  (exists p e', binary_round prec emax s m e = S754_finite s p e')
  \/ binary_round prec emax s m e = S754_infinity s.
Proof.
  intros He. unfold binary_round.
  destruct (shl_align m e (SpecFloat.fexp prec emax (Zpos (digits2_pos m) + e)))
    as [mz ez] eqn:Ea.
  apply binary_round_aux_sign; [lia|].
  unfold shl_align in Ea. rewrite fexp_eq in Ea.
  destruct (Z.max (Zpos (digits2_pos m) + e - 53) (-1074) - e) eqn:Ed;
    injection Ea as <- <-; lia.
Qed.

Lemma binary_normalize_sign (s : bool) (D ez : Z) :
  -1074 <= ez -> 0 < D ->
  (exists p e', binary_normalize prec emax (cond_Zopp s D) ez false
                = S754_finite s p e')
  \/ binary_normalize prec emax (cond_Zopp s D) ez false = S754_infinity s.
Proof.
  intros Hez HD. destruct D as [|p|p]; try lia.
  destruct s; cbn [cond_Zopp Z.opp binary_normalize];
    now apply binary_round_sign.
Qed.

(** The difference of a double and a smaller double of the same sign has
    that sign. *)
Lemma sub_sign (s : bool) (m m' : positive) (e e' : Z) :
  -1074 <= e' ->
  (e' = e /\ Zpos m' < Zpos m \/ e' = e - 1 /\ Zpos m' < 2 * Zpos m) ->
  (exists p e2, SFsub prec emax (S754_finite s m e) (S754_finite s m' e')
                = S754_finite s p e2)
  \/ SFsub prec emax (S754_finite s m e) (S754_finite s m' e')
     = S754_infinity s.
Proof.
  intros He' H. cbn [SFsub].
  destruct H as [[-> Hlt]|[-> Hlt]].
  - rewrite Z.min_id. unfold shl_align. rewrite Z.sub_diag. cbn [fst].
    replace (cond_Zopp s (Zpos m) - cond_Zopp s (Zpos m'))
      with (cond_Zopp s (Zpos m - Zpos m')) by (destruct s; cbn [cond_Zopp]; lia).
    apply binary_normalize_sign; lia.
  - rewrite Z.min_r by lia. unfold shl_align.
    replace (e - 1 - e) with (-1) by lia. rewrite Z.sub_diag.
    cbn [fst Pos.iter].
    replace (cond_Zopp s (Zpos m~0) - cond_Zopp s (Zpos m'))
      with (cond_Zopp s (Zpos m~0 - Zpos m')) by (destruct s; cbn [cond_Zopp]; lia).
    apply binary_normalize_sign; lia.
Qed.

Lemma SFltb_same_sign (s : bool) (m m' : positive) (e e' : Z) :
  (e' = e /\ Zpos m' < Zpos m \/ e' = e - 1 /\ Zpos m' < 2 * Zpos m) ->
  SFltb (S754_finite s m' e') (S754_finite s m e) = negb s
  /\ SFltb (S754_finite s m e) (S754_finite s m' e') = s.
Proof.
  intros H. unfold SFltb, SFcompare.
  destruct H as [[-> Hlt]|[-> Hlt]].
  - rewrite Z.compare_refl.
    assert (H1 : Pos.compare_cont Eq m' m = Lt) by (apply Pos.compare_lt_iff; lia).
    assert (H2 : Pos.compare_cont Eq m m' = Gt) by (apply Pos.compare_gt_iff; lia).
    rewrite H1, H2. destruct s; split; reflexivity.
  - assert (H1 : (e - 1 ?= e) = Lt) by (apply Z.compare_lt_iff; lia).
    assert (H2 : (e ?= e - 1) = Gt) by (apply Z.compare_gt_iff; lia).
    rewrite H1, H2. destruct s; split; reflexivity.
Qed.

Lemma SFltb_zero (s : bool) (r : spec_float) :
  (exists p e, r = S754_finite s p e) \/ r = S754_infinity s ->
  SFltb (S754_zero false) r = negb s /\ SFltb r (S754_zero false) = s.
Proof.
  intros [(p & e & ->)| ->]; destruct s; split; reflexivity.
Qed.

End Rounding.

Lemma steady_finite (d : float) (s : bool) (m : positive) (e : Z) :
  steady d = true -> Prim2SF d = S754_finite s m e ->
  bounded prec emax m e = true /\ 6 <= Zpos m
  /\ (Zpos m < 11 -> e = -1074).
Proof.
  intros Hs HX.
  pose proof (Prim2SF_valid d) as Hv. rewrite HX in Hv. cbn [valid_binary] in Hv.
  split; [exact Hv|].
  assert (Hnormal : -1074 < e -> 4503599627370496 <= Zpos m).
  { intros He. apply bounded_inv in Hv as [Hcan _].
    pose proof (digits2_pos_bounds m) as [Hlo _].
    replace (Zpos (digits2_pos m) - 1) with 52 in Hlo by lia.
    exact Hlo. }
  assert (Hmin : -1074 <= e) by (apply bounded_inv in Hv as [Hcan _]; lia).
  split; [|lia].
  unfold steady, PrimFloat.is_nan, PrimFloat.is_zero in Hs.
  rewrite !FloatAxioms.eqb_spec, FloatAxioms.leb_spec, FloatAxioms.ltb_spec,
    FloatAxioms.abs_spec, HX in Hs.
  change (Prim2SF PrimFloat.zero) with (S754_zero false) in Hs.
  change (Prim2SF 3e-323) with (S754_finite false 6 (-1074)) in Hs.
  cbn [SFabs] in Hs.
  assert (Hnn : SFeqb (S754_finite s m e) (S754_finite s m e) = true).
  { unfold SFeqb, SFcompare. rewrite Z.compare_refl.
    assert (Pos.compare_cont Eq m m = Eq) by apply Pos.compare_refl.
    destruct s; rewrite H; reflexivity. }
  rewrite Hnn in Hs.
  assert (Hnz : SFeqb (S754_finite s m e) (S754_zero false) = false)
    by (destruct s; reflexivity).
  rewrite Hnz in Hs. cbn [negb orb] in Hs.
  apply andb_prop in Hs as [Hle _].
  unfold SFleb, SFcompare in Hle.
  destruct (Z.compare_spec (-1074) e) as [He|He|He].
  - destruct (Pos.compare_cont Eq 6 m) eqn:Hc; try discriminate Hle.
    + apply Pos.compare_eq in Hc. lia.
    + assert (6 < m)%positive by (apply Pos.compare_lt_iff; exact Hc). lia.
  - lia.
  - lia.
Qed.

Lemma steady_not_infinite (d : float) (s : bool) :
  steady d = true -> Prim2SF d <> S754_infinity s.
Proof.
  intros Hs HX.
  unfold steady, PrimFloat.is_nan, PrimFloat.is_zero in Hs.
  rewrite !FloatAxioms.eqb_spec, FloatAxioms.leb_spec, FloatAxioms.ltb_spec,
    FloatAxioms.abs_spec, HX in Hs.
  change (Prim2SF PrimFloat.zero) with (S754_zero false) in Hs.
  change (Prim2SF PrimFloat.infinity) with (S754_infinity false) in Hs.
  destruct s; discriminate Hs.
Qed.

(** For a steady [d], the sign of [d - d * 0.9], the comparison of [d]
    with [d * 0.9] and the sign of [d] agree. *)
Theorem damped_difference_sign (d : float) :
  steady d = true ->
  PrimFloat.ltb 0 (d - d * 0.9) = PrimFloat.ltb 0 d
  /\ PrimFloat.ltb (d * 0.9) d = PrimFloat.ltb 0 d
  /\ PrimFloat.ltb (d - d * 0.9) 0 = PrimFloat.ltb d 0
  /\ PrimFloat.ltb d (d * 0.9) = PrimFloat.ltb d 0.
Proof.
  intros Hs.
  rewrite !FloatAxioms.ltb_spec, !FloatAxioms.sub_spec, !FloatAxioms.mul_spec.
  change (Prim2SF 0) with (S754_zero false).
  change (Prim2SF 0.9) with (S754_finite false m9 (-53)).
  destruct (Prim2SF d) as [s|s| |s m e] eqn:HX.
  - destruct s; repeat split; reflexivity.
  - now destruct (steady_not_infinite d s Hs).
  - repeat split; reflexivity.
  - destruct (steady_finite d s m e Hs HX) as (Hb & Hm & Hsub).
    unfold SF64mul, SF64sub.
    destruct (Z.le_gt_cases 11 (Zpos m)) as [Hbig|Hsmall].
    2:{ (* the five subnormal mantissas from 6 to 10, by evaluation *)
        rewrite (Hsub Hsmall).
        assert (Hcases : m = 6%positive \/ m = 7%positive \/ m = 8%positive
                         \/ m = 9%positive \/ m = 10%positive)
          by lia.
        destruct Hcases as [->|[->|[->|[->| ->]]]];
          destruct s; vm_compute; repeat split. }
    destruct (mul09_finite s m e Hb Hbig) as (m' & e' & -> & He' & Hrel).
    destruct (SFltb_same_sign s m m' e e' Hrel) as [L1 L2].
    destruct (SFltb_zero s _ (sub_sign s m m' e e' He' Hrel)) as [Z1 Z2].
    rewrite L1, L2, Z1, Z2.
    destruct s; repeat split; reflexivity.
Qed.

Section MacdFacts.

Import SignalDetector.

(** C9, as stated, fails.  On the rally of the specification's scenario the
    histogram is 33.67320661505579 while [macd * 0.1] is 33.673206615055825:
    the difference [macd - macd * 0.9] and the product [macd * 0.1] are
    rounded separately.  On a series at the smallest positive double [macd]
    is positive while [macd * 0.9] rounds back to [macd], so the histogram
    is 0 and the bullish condition false; on a series whose EMA12 overflows
    [macd] is infinite, the histogram NaN and the bullish condition false. *)
Lemma C9_counterexample :
  (let m := calculateMACD Fixture.rallyCloses in
   histogram m = 33.67320661505579%float
   /\ (macd m * 0.1)%float = 33.673206615055825%float
   /\ histogram m <> (macd m * 0.1)%float)
  /\ (let m := calculateMACD Fixture.tinyCloses in
      Js.gtb (macd m) 0%float = true
      /\ Js.gtb (histogram m) 0%float = false
      /\ Js.gtb (macd m) (signal m) = false
      /\ macdBullish m = false)
  /\ (let m := calculateMACD Fixture.hugeCloses in
      Js.gtb (macd m) 0%float = true
      /\ Js.gtb (histogram m) 0%float = false
      /\ macdBullish m = false).
Proof.
  repeat split; try (vm_compute; reflexivity).
  intros E. apply (f_equal Prim2SF) in E. vm_compute in E. discriminate E.
Qed.

(** C9, amended.  For every closing-price series the MACD triple is
    [macd = EMA12 - EMA26], [signal = macd * 0.9] (one binary64 product) and
    [histogram = macd - signal] (one binary64 difference).  Whenever [macd]
    is NaN, zero, or finite of magnitude at least 3e-323 (six times the
    smallest positive double), [histogram > 0], [macd > signal] and
    [macd > 0] are equivalent, and so are [histogram < 0], [macd < signal]
    and [macd < 0]: the MACD-alignment condition of a direction is then the
    sign of [EMA12 - EMA26], and the MACD block scores 25 exactly when the
    direction is LONG and [macd > 0] or SHORT and [macd < 0]. *)
Theorem C9_macd_alignment_is_sign_of_ema_difference :
  forall (data : list float),
    let m := calculateMACD data in
    (macd m = (calculateEMA data 12 - calculateEMA data 26)%float
     /\ signal m = (macd m * 0.9)%float
     /\ histogram m = (macd m - signal m)%float)
    /\ (steady (macd m) = true ->
        Js.gtb (histogram m) 0%float = Js.gtb (macd m) 0%float
        /\ Js.gtb (macd m) (signal m) = Js.gtb (macd m) 0%float
        /\ PrimFloat.ltb (histogram m) 0%float = PrimFloat.ltb (macd m) 0%float
        /\ PrimFloat.ltb (macd m) (signal m) = PrimFloat.ltb (macd m) 0%float
        /\ macdBullish m = Js.gtb (macd m) 0%float
        /\ macdBearish m = PrimFloat.ltb (macd m) 0%float
        /\ forall (a : Tally),
             score (scoreMACD m a)
             = if isLong a && Js.gtb (macd m) 0%float then score a + 25
               else if isShort a && PrimFloat.ltb (macd m) 0%float
                    then score a + 25
                    else score a).
Proof.
  intros data m. split; [repeat split|].
  set (d := macd m).
  assert (Hsig : signal m = (d * 0.9)%float) by reflexivity.
  assert (Hhis : histogram m = (d - d * 0.9)%float) by reflexivity.
  intros Hsteady.
  destruct (damped_difference_sign d Hsteady) as (Hh & Hs & Hh' & Hs').
  assert (Hbull : macdBullish m = Js.gtb d 0%float).
  { unfold macdBullish, Js.gtb. fold d. rewrite Hhis, Hsig, Hh, Hs.
    apply andb_diag. }
  assert (Hbear : macdBearish m = PrimFloat.ltb d 0%float).
  { unfold macdBearish. fold d. rewrite Hhis, Hsig, Hh', Hs'.
    apply andb_diag. }
  unfold Js.gtb in *. rewrite Hhis, Hsig.
  repeat split; try assumption.
  intros a. unfold scoreMACD. rewrite Hbull, Hbear.
  destruct (isLong a && PrimFloat.ltb 0 d); [reflexivity|].
  destruct (isShort a && PrimFloat.ltb d 0); reflexivity.
Qed.

Lemma C9_witness :
  steady (macd (calculateMACD Fixture.rallyCloses)) = true
  /\ macdBullish (calculateMACD Fixture.rallyCloses)
     = Js.gtb (macd (calculateMACD Fixture.rallyCloses)) 0%float
  /\ macdBearish (calculateMACD Fixture.rallyCloses)
     = PrimFloat.ltb (macd (calculateMACD Fixture.rallyCloses)) 0%float.
Proof.
  assert (H : steady (macd (calculateMACD Fixture.rallyCloses)) = true)
    by (vm_compute; reflexivity).
  split; [exact H|].
  pose proof (proj2 (C9_macd_alignment_is_sign_of_ema_difference
                       Fixture.rallyCloses) H) as P.
  split; apply P.
Defined.

End MacdFacts.

(* ================================================================== *)
(** ** Execution gateway: the position guard and position sizing *)

Section Gateway.

Import Host BinanceExecutor.
Context `{Env}.

(** [request] sends at most one request, with the method it is asked for. *)
Lemma request_issues (st : State) (m : Method) (endpoint : string)
    (ps : list (string * Value)) (w : World) :
  issues (request st m endpoint ps) w []
  \/ exists r, issues (request st m endpoint ps) w [r] /\ method r = m.
Proof.
  unfold issues, request.
  destruct (config st) as [c|]; simpl.
  - right. unfold bind, dateNow, fetch; simpl.
    exists (mkRequest m (baseUrl st ++ endpoint)
                      (ps ++ [("timestamp"%string, Int (clock w))]) (apiKey c)).
    split; [|reflexivity].
    destruct (answer w _) as [msg|ok status body]; simpl; [reflexivity|].
    destruct ok; simpl; [reflexivity|].
    destruct body; reflexivity.
  - left. now rewrite app_nil_r.
Qed.

(** The position lookup never throws and only ever sends a GET. *)
Lemma getOpenPositions_issues (st : State) (w : World) :
  exists positions rs,
    getOpenPositions st w = (Returned positions, snd (getOpenPositions st w))
    /\ issues (getOpenPositions st) w rs
    /\ Forall (fun r => method r = GET) rs.
Proof.
  unfold getOpenPositions, issues, tryCatch, bind.
  destruct (request_issues st GET "/fapi/v2/positionRisk" [] w)
    as [Hnone|(r & Hone & Hm)]; unfold issues in *.
  - destruct (request st GET "/fapi/v2/positionRisk" [] w) as [[body|msg] w1];
      simpl in *.
    + destruct body; simpl; eexists; exists []; (split; [reflexivity|]);
        (split; [exact Hnone|constructor]).
    + eexists; exists []. split; [reflexivity|]. split; [exact Hnone|constructor].
  - destruct (request st GET "/fapi/v2/positionRisk" [] w) as [[body|msg] w1];
      simpl in *.
    + destruct body; simpl; eexists; exists [r]; (split; [reflexivity|]);
        (split; [exact Hone|now repeat constructor]).
    + eexists; exists [r]. split; [reflexivity|].
      split; [exact Hone|now repeat constructor].
Qed.

Lemma get_is_no_order (r : Request) : method r = GET -> placesOrder r = false.
Proof. unfold placesOrder. now intros ->. Qed.

(** C2. When the open-positions list holds a position for BTCUSDT,
    [executeSignal] returns a failure whose reason is 'Posição já aberta'
    (position already open), and the only requests it issues are those of
    the position lookup: no order-placement request. *)
Theorem C2_open_position_blocks_order :
  forall (st : State) (trade : Trade) (w w1 : World)
         (positions : list Position) (p : Position),
    getOpenPositions st w = (Returned positions, w1) ->
    find (fun q => String.eqb (symbol q) "BTCUSDT") positions = Some p ->
    exists result issued,
      executeSignal st trade w = (Returned result, w1)
      /\ success result = false
      /\ error result = Some "Posição já aberta"%string
      /\ sent w1 = sent w ++ issued
      /\ Forall (fun r => placesOrder r = false) issued.
Proof.
  intros st trade w w1 positions p Hlookup Hfind.
  destruct (getOpenPositions_issues st w) as (ps & rs & _ & Hsent & Hget).
  unfold issues in Hsent. rewrite Hlookup in Hsent. simpl in Hsent.
  exists (failure "Posição já aberta"), rs.
  repeat split; try assumption.
  - unfold executeSignal, tryCatch, bind.
    rewrite Hlookup, Hfind. reflexivity.
  - eapply Forall_impl; [|exact Hget]. apply get_is_no_order.
Qed.

Lemma calculatePositionSize_formula (st : State) (w w1 : World)
    (balance accountPercentage leverage entryPrice : float) :
  getBalance st w = (Returned balance, w1) ->
  calculatePositionSize st accountPercentage entryPrice leverage w
  = (Returned (sizedQuantity balance accountPercentage leverage entryPrice), w1).
Proof.
  intros Hbalance. unfold calculatePositionSize, bind.
  rewrite Hbalance. reflexivity.
Qed.

End Gateway.

Lemma C2_witness :
  exists result issued,
    @BinanceExecutor.executeSignal
      (Fixture.venue [Fixture.btcPosition "0.5"] "1000" true)
      Fixture.executor Fixture.longTrade Fixture.world
    = (Host.Returned result,
       snd (@BinanceExecutor.getOpenPositions
              (Fixture.venue [Fixture.btcPosition "0.5"] "1000" true)
              Fixture.executor Fixture.world))
    /\ BinanceExecutor.success result = false
    /\ BinanceExecutor.error result = Some "Posição já aberta"%string
    /\ Host.sent
         (snd (@BinanceExecutor.getOpenPositions
                 (Fixture.venue [Fixture.btcPosition "0.5"] "1000" true)
                 Fixture.executor Fixture.world))
       = Host.sent Fixture.world ++ issued
    /\ Forall (fun r => BinanceExecutor.placesOrder r = false) issued.
Proof.
  apply (@C2_open_position_blocks_order
           (Fixture.venue [Fixture.btcPosition "0.5"] "1000" true)
           Fixture.executor Fixture.longTrade Fixture.world _
           [Fixture.btcPosition "0.5"] (Fixture.btcPosition "0.5")).
  - vm_compute. reflexivity.
  - vm_compute. reflexivity.
Defined.

(** C4, at a failing input.  With a balance of 100, 29 percent, leverage 50
    and entry price 50000 the formula of the specification gives 29
    thousandths, exactly and also in binary64 read from left to right; the
    code returns 0.028, because [100 * (29 / 100)] is 28.999999999999996 in
    binary64 and the product reaches [Math.floor] as 28.999999999999993.
    On the scenario of the specification (1000, 10, 15, 50000) the code
    returns 0.03 as stated. *)
Theorem C4_quantity_one_step_below :
  fst (@BinanceExecutor.calculatePositionSize
         (Fixture.venue [] "100" true) Fixture.executor 29 50000 50
         Fixture.world)
  = Host.Returned 0.028%float
  /\ (100 * (29 / 100))%float = 28.999999999999996%float
  /\ (100 * (29 / 100) * 50 / 50000 * 1000)%float = 28.999999999999993%float
  /\ exactThousandths 100 29 50 50000 = 29
  /\ leftToRightQuantity 100 29 50 50000 = 0.029%float
  /\ fst (@BinanceExecutor.calculatePositionSize
            (Fixture.venue [] "1000" true) Fixture.executor 10 50000 15
            Fixture.world)
     = Host.Returned 0.03%float.
Proof. repeat split; vm_compute; reflexivity. Qed.

(* ================================================================== *)
(** ** Orchestrator: what an execution attempt does to the bot *)

Section Orchestrator.

Import Host TradingBot.
Context `{Env}.

Lemma bind_returned {A B : Type} (m : IO A) (k : A -> IO B) (w w1 : World) (a : A) :
  m w = (Returned a, w1) -> bind m k w = k a w1.
Proof. unfold bind. now intros ->. Qed.

Lemma bind_dateNow {B : Type} (k : Z -> IO B) (w : World) :
  bind dateNow k w = k (clock w) w.
Proof. reflexivity. Qed.

(** Logging touches the log alone and nothing outside the bot. *)
Lemma addLog_spec (ty : LogType) (m : LogMessage) (st : State) (w : World) :
  exists st1,
    addLog ty m st w = (Returned st1, w)
    /\ config st1 = config st
    /\ isRunning st1 = isRunning st
    /\ lastOrderTime st1 = lastOrderTime st
    /\ totalOrders st1 = totalOrders st.
Proof.
  unfold addLog, bind, dateNow, ret; simpl.
  eexists. split; [reflexivity|]. simpl. repeat split.
Qed.

Lemma sendNotification_returns (n : Notice) (w : World) :
  exists w1, sendNotification n w = (Returned tt, w1).
Proof.
  unfold sendNotification, bind, lookupTokens, push, ret.
  destruct (pushTokens w) as [[|t ts]|]; eexists; reflexivity.
Qed.

(** Whatever the venue does, [executeSignal] returns a result: every
    failure inside it is turned into a failure result. *)
Lemma executeSignal_returns (ex : BinanceExecutor.State)
    (t : BinanceExecutor.Trade) (w : World) :
  exists result w1, BinanceExecutor.executeSignal ex t w = (Returned result, w1).
Proof.
  unfold BinanceExecutor.executeSignal, tryCatch.
  match goal with
  | |- context [match ?m w with _ => _ end] => destruct (m w) as [[r|e] w1]
  end.
  - now exists r, w1.
  - now eexists; eexists.
Qed.

(** C3. For a signal the bot takes past its policy gate, [handleSignal]
    completes; when the execution attempt fails, [lastOrderTime] and
    [totalOrders] are as before; when it succeeds, [lastOrderTime] is the
    clock reading taken at the gate and [totalOrders] is one more.  In both
    cases the running flag is as before. *)
Theorem C3_order_bookkeeping :
  forall (s : Signal.t) (st : State) (ex : BinanceExecutor.State)
         (w : World) (c : BotConfig),
    passesGate s (st, ex) (clock w) c ->
    exists st1 w1 result,
      handleSignal s (st, ex) w = (Returned st1, w1)
      /\ fst (BinanceExecutor.executeSignal ex (tradeOf s c) w) = Returned result
      /\ isRunning st1 = isRunning st
      /\ (BinanceExecutor.success result = false ->
          lastOrderTime st1 = lastOrderTime st
          /\ totalOrders st1 = totalOrders st)
      /\ (BinanceExecutor.success result = true ->
          lastOrderTime st1 = clock w
          /\ totalOrders st1 = totalOrders st + 1).
Proof.
  intros s st ex w c (Hcfg & Hen & Hscore & Hint & Hconf). simpl in *.
  unfold handleSignal.
  destruct (addLog_spec signal (SinalDetectadoMsg s) st w)
    as (sa & Ea & Ca & Ra & La & Ta).
  rewrite (bind_returned _ _ _ _ _ Ea).
  rewrite Ca, Hcfg, Hen. cbn [negb]. rewrite Hscore.
  rewrite bind_dateNow. rewrite La.
  rewrite (proj2 (Z.ltb_ge _ _) Hint), Hconf. cbn [negb].
  destruct (addLog_spec order (Executando s) sa w)
    as (sb & Eb & Cb & Rb & Lb & Tb).
  rewrite (bind_returned _ _ _ _ _ Eb).
  fold (tradeOf s c).
  destruct (executeSignal_returns ex (tradeOf s c) w) as (result & w1 & Ex).
  rewrite (bind_returned _ _ _ _ _ Ex). rewrite Ex. cbn [fst].
  destruct (BinanceExecutor.success result) eqn:Hok.
  - destruct (addLog_spec order (ExecutadoMsg s result)
                          (recordOrder (clock w) sb) w1)
      as (sc & Ec & Cc & Rc & Lc & Tc).
    rewrite (bind_returned _ _ _ _ _ Ec).
    destruct (sendNotification_returns
                (Executado s (BinanceExecutor.orderId result)
                           (BinanceExecutor.executedQty result)
                           (BinanceExecutor.avgPrice result)) w1) as (w2 & En).
    rewrite (bind_returned _ _ _ _ _ En).
    exists sc, w2, result. simpl in *.
    repeat split; try congruence.
  - destruct (addLog_spec error
                          (ErroAoExecutarMsg s (BinanceExecutor.error result))
                          sb w1)
      as (sc & Ec & Cc & Rc & Lc & Tc).
    rewrite (bind_returned _ _ _ _ _ Ec).
    destruct (sendNotification_returns
                (ErroAoExecutar s (BinanceExecutor.error result)) w1) as (w2 & En).
    rewrite (bind_returned _ _ _ _ _ En).
    exists sc, w2, result. simpl in *.
    repeat split; try congruence.
Qed.

End Orchestrator.

Lemma C3_witness :
  exists st1 w1 result,
    @TradingBot.handleSignal (Fixture.venue [] "1000" true) Fixture.rallySignal
                             Fixture.bot Fixture.world
    = (Host.Returned st1, w1)
    /\ fst (@BinanceExecutor.executeSignal
              (Fixture.venue [] "1000" true) (snd Fixture.bot)
              (tradeOf Fixture.rallySignal Fixture.botConfig) Fixture.world)
       = Host.Returned result
    /\ TradingBot.isRunning st1 = TradingBot.isRunning (fst Fixture.bot)
    /\ (BinanceExecutor.success result = false ->
        TradingBot.lastOrderTime st1 = TradingBot.lastOrderTime (fst Fixture.bot)
        /\ TradingBot.totalOrders st1 = TradingBot.totalOrders (fst Fixture.bot))
    /\ (BinanceExecutor.success result = true ->
        TradingBot.lastOrderTime st1 = Host.clock Fixture.world
        /\ TradingBot.totalOrders st1
           = TradingBot.totalOrders (fst Fixture.bot) + 1).
Proof.
  apply (@C3_order_bookkeeping (Fixture.venue [] "1000" true) Fixture.rallySignal
                               (fst Fixture.bot) (snd Fixture.bot)
                               Fixture.world Fixture.botConfig).
  unfold passesGate. repeat split; try (vm_compute; reflexivity).
  vm_compute. intros E. discriminate E.
Defined.

(** On the fixtures: the order fills, the bot records it at the gate's
    clock reading although the venue took 600 ms; rejected, it records
    nothing. *)
Example handleSignal_fill_and_rejection :
  (let st1 := fst (@TradingBot.handleSignal (Fixture.venue [] "1000" true)
                     Fixture.rallySignal Fixture.bot Fixture.world) in
   match st1 with
   | Host.Returned b =>
       TradingBot.lastOrderTime b = Host.clock Fixture.world
       /\ TradingBot.totalOrders b = 1
   | Host.Thrown _ => False
   end)
  /\ (let st1 := fst (@TradingBot.handleSignal (Fixture.venue [] "1000" false)
                        Fixture.rallySignal Fixture.bot Fixture.world) in
      match st1 with
      | Host.Returned b =>
          TradingBot.lastOrderTime b = 0 /\ TradingBot.totalOrders b = 0
      | Host.Thrown _ => False
      end).
Proof. vm_compute. repeat split. Qed.

(* ================================================================== *)
(** ** Shutdown: which timers [stop ()] cancels *)

Section Shutdown.

Import EventLoop.



End Shutdown.

(* ================================================================== *)
(** ** Further properties of the code

    Order facts on binary64 numbers, as far as [Math.max], [Math.min] and
    the comparisons of the bar aggregator need them. *)

Section FloatOrder.

Lemma SFcompare_refl (x : spec_float) :
  SFcompare x x = None \/ SFcompare x x = Some Eq.
Proof.
  destruct x as [s|s| |s m e]; simpl; try (destruct s); auto;
    rewrite Z.compare_refl; right; f_equal;
    change (PosDef.Pos.compare_cont Eq m m) with (Pos.compare m m);
    rewrite Pos.compare_refl; reflexivity.
Qed.

Lemma float_ltb_irrefl (x : float) : PrimFloat.ltb x x = false.
Proof.
  rewrite FloatAxioms.ltb_spec. unfold SFltb.
  destruct (SFcompare_refl (Prim2SF x)) as [E|E]; rewrite E; reflexivity.
Qed.

Lemma float_is_nan_eq (x : float) : PrimFloat.is_nan x = true -> x = PrimFloat.nan.
Proof.
  unfold PrimFloat.is_nan. rewrite FloatAxioms.eqb_spec. unfold SFeqb.
  intros E. apply Prim2SF_inj.
  destruct (SFcompare_refl (Prim2SF x)) as [E1|E1]; rewrite E1 in E;
    [|discriminate E].
  destruct (Prim2SF x) as [s|s| |s m e]; try discriminate E1;
    try (destruct s; discriminate E1). reflexivity.
Qed.

Lemma max2_same (p : float) : Js.max2 p p = p.
Proof.
  unfold Js.max2. rewrite orb_diag, float_ltb_irrefl.
  destruct (PrimFloat.is_nan p) eqn:E.
  - symmetry. now apply float_is_nan_eq.
  - now destruct (PrimFloat.get_sign p).
Qed.

Lemma min2_same (p : float) : Js.min2 p p = p.
Proof.
  unfold Js.min2. rewrite orb_diag, float_ltb_irrefl.
  destruct (PrimFloat.is_nan p) eqn:E.
  - symmetry. now apply float_is_nan_eq.
  - now destruct (PrimFloat.get_sign p).
Qed.

Lemma max2_absorbs (h p : float) : Js.max2 (Js.max2 h p) p = Js.max2 h p.
Proof.
  remember (Js.max2 h p) as m eqn:Em. unfold Js.max2 in Em.
  destruct (PrimFloat.is_nan h || PrimFloat.is_nan p) eqn:En.
  - now subst m.
  - destruct (PrimFloat.ltb h p) eqn:E1; [subst m; apply max2_same|].
    destruct (PrimFloat.ltb p h) eqn:E2.
    + subst m. unfold Js.max2. now rewrite En, E1, E2.
    + destruct (PrimFloat.get_sign h) eqn:E3; subst m; [apply max2_same|].
      unfold Js.max2. now rewrite En, E1, E2, E3.
Qed.

Lemma min2_absorbs (l p : float) : Js.min2 (Js.min2 l p) p = Js.min2 l p.
Proof.
  remember (Js.min2 l p) as m eqn:Em. unfold Js.min2 in Em.
  destruct (PrimFloat.is_nan l || PrimFloat.is_nan p) eqn:En.
  - now subst m.
  - destruct (PrimFloat.ltb l p) eqn:E1.
    + subst m. unfold Js.min2. now rewrite En, E1.
    + destruct (PrimFloat.ltb p l) eqn:E2; [subst m; apply min2_same|].
      destruct (PrimFloat.get_sign l) eqn:E3; subst m; [|apply min2_same].
      unfold Js.min2. now rewrite En, E1, E2, E3.
Qed.

Lemma SFcompare_antisym (x y : spec_float) :
  SFcompare y x = option_map CompOpp (SFcompare x y).
Proof.
  destruct x as [s|s| |s m e], y as [s'|s'| |s' m' e']; simpl;
    try reflexivity; try (destruct s; reflexivity);
    try (destruct s'; reflexivity);
    try (destruct s, s'; reflexivity).
  destruct s, s'; try reflexivity; f_equal;
    rewrite (Z.compare_antisym e' e);
    change (PosDef.Pos.compare_cont Eq m' m) with (Pos.compare m' m);
    change (PosDef.Pos.compare_cont Eq m m') with (Pos.compare m m');
    rewrite (Pos.compare_antisym m' m);
    destruct (e' ?= e); simpl; try reflexivity;
    destruct (m' ?= m)%positive; reflexivity.
Qed.

Lemma SFleb_trans (x y z : spec_float) :
  SFleb x y = true -> SFleb y z = true -> SFleb x z = true.
Proof.
  unfold SFleb.
  destruct x as [s1|s1| |s1 m1 e1], y as [s2|s2| |s2 m2 e2],
           z as [s3|s3| |s3 m3 e3]; simpl;
    try discriminate; try reflexivity;
    try (destruct s1; simpl; try discriminate; try reflexivity);
    try (destruct s2; simpl; try discriminate; try reflexivity);
    try (destruct s3; simpl; try discriminate; try reflexivity).
  all: change (PosDef.Pos.compare_cont Eq) with Pos.compare.
  all: destruct (Z.compare_spec e1 e2); destruct (Z.compare_spec e2 e3);
    destruct (Z.compare_spec e1 e3); simpl; try discriminate; try reflexivity;
    try lia.
  all: subst.
  all: destruct (Pos.compare_spec m1 m2); destruct (Pos.compare_spec m2 m3);
    destruct (Pos.compare_spec m1 m3); simpl; try discriminate;
    try reflexivity; try lia.
Qed.

Lemma float_not_nan_spec (a : float) :
  PrimFloat.is_nan a = false -> Prim2SF a <> S754_nan.
Proof.
  unfold PrimFloat.is_nan. rewrite FloatAxioms.eqb_spec. unfold SFeqb.
  intros E N. rewrite N in E. discriminate E.
Qed.

Lemma float_leb_not_nan (a b : float) :
  PrimFloat.leb a b = true ->
  PrimFloat.is_nan a = false /\ PrimFloat.is_nan b = false.
Proof.
  rewrite FloatAxioms.leb_spec. unfold PrimFloat.is_nan.
  rewrite !FloatAxioms.eqb_spec. unfold SFleb, SFeqb. intros E.
  destruct (SFcompare_refl (Prim2SF a)) as [Ea|Ea];
    destruct (SFcompare_refl (Prim2SF b)) as [Eb|Eb]; rewrite Ea, Eb;
    try (split; reflexivity); exfalso;
    destruct (Prim2SF a) as [s|s| |s m e], (Prim2SF b) as [s'|s'| |s' m' e'];
    simpl in *; try discriminate;
    try (destruct s; discriminate); try (destruct s'; discriminate).
Qed.

Lemma float_leb_refl (a : float) :
  PrimFloat.is_nan a = false -> PrimFloat.leb a a = true.
Proof.
  intros E. pose proof (float_not_nan_spec a E) as N.
  rewrite FloatAxioms.leb_spec. unfold SFleb.
  destruct (SFcompare_refl (Prim2SF a)) as [Ea|Ea]; rewrite Ea; [|reflexivity].
  destruct (Prim2SF a) as [s|s| |s m e]; simpl in *; try discriminate;
    try congruence; destruct s; discriminate.
Qed.

Lemma float_leb_trans (a b c : float) :
  PrimFloat.leb a b = true -> PrimFloat.leb b c = true ->
  PrimFloat.leb a c = true.
Proof. rewrite !FloatAxioms.leb_spec. apply SFleb_trans. Qed.

Lemma float_ltb_leb (a b : float) :
  PrimFloat.ltb a b = true -> PrimFloat.leb a b = true.
Proof.
  rewrite FloatAxioms.ltb_spec, FloatAxioms.leb_spec. unfold SFltb, SFleb.
  destruct (SFcompare _ _) as [[| |]|]; congruence.
Qed.

(** Two numbers neither of which is below the other compare equal. *)
Lemma float_not_ltb_leb (a b : float) :
  PrimFloat.is_nan a = false -> PrimFloat.is_nan b = false ->
  PrimFloat.ltb a b = false -> PrimFloat.ltb b a = false ->
  PrimFloat.leb a b = true /\ PrimFloat.leb b a = true.
Proof.
  intros Na Nb. apply float_not_nan_spec in Na, Nb.
  rewrite !FloatAxioms.ltb_spec, !FloatAxioms.leb_spec. unfold SFltb, SFleb.
  rewrite (SFcompare_antisym (Prim2SF a) (Prim2SF b)).
  destruct (SFcompare (Prim2SF a) (Prim2SF b)) as [[| |]|] eqn:E; simpl;
    try discriminate; auto.
  exfalso.
  destruct (Prim2SF a) as [s|s| |s m e], (Prim2SF b) as [s'|s'| |s' m' e'];
    simpl in E; congruence.
Qed.

Lemma max2_bounds (h p : float) :
  PrimFloat.is_nan h = false -> PrimFloat.is_nan p = false ->
  PrimFloat.leb h (Js.max2 h p) = true /\ PrimFloat.leb p (Js.max2 h p) = true.
Proof.
  intros Nh Np. unfold Js.max2. rewrite Nh, Np. simpl.
  destruct (PrimFloat.ltb h p) eqn:E1.
  - split; [now apply float_ltb_leb|now apply float_leb_refl].
  - destruct (PrimFloat.ltb p h) eqn:E2.
    + split; [now apply float_leb_refl|now apply float_ltb_leb].
    + destruct (float_not_ltb_leb h p Nh Np E1 E2) as [L1 L2].
      destruct (PrimFloat.get_sign h); split;
        auto using float_leb_refl.
Qed.

Lemma min2_bounds (l p : float) :
  PrimFloat.is_nan l = false -> PrimFloat.is_nan p = false ->
  PrimFloat.leb (Js.min2 l p) l = true /\ PrimFloat.leb (Js.min2 l p) p = true.
Proof.
  intros Nl Np. unfold Js.min2. rewrite Nl, Np. simpl.
  destruct (PrimFloat.ltb l p) eqn:E1.
  - split; [now apply float_leb_refl|now apply float_ltb_leb].
  - destruct (PrimFloat.ltb p l) eqn:E2.
    + split; [now apply float_ltb_leb|now apply float_leb_refl].
    + destruct (float_not_ltb_leb l p Nl Np E1 E2) as [L1 L2].
      destruct (PrimFloat.get_sign l); split;
        auto using float_leb_refl.
Qed.

End FloatOrder.

(* ================================================================== *)
(** ** Bar aggregation: the shape of the bars and seeding *)

Section Bars.

Import SignalDetector.

Lemma flat_barOrdered (p : float) (t : Z) :
  PrimFloat.is_nan p = false -> barOrdered (Candle.mk p p p p 0%float t).
Proof. intros N. unfold barOrdered; simpl. auto using float_leb_refl. Qed.

Lemma processPrice_barsOrdered (price : float) (timestamp : Z) (st : State) :
  PrimFloat.is_nan price = false ->
  barsOrdered st -> barsOrdered (processPrice price timestamp st).
Proof.
  intros N [Hh Hc]. unfold barsOrdered, processPrice.
  destruct (_ >? _).
  - simpl. split; [|now apply flat_barOrdered].
    destruct (currentCandle st) as [c|]; [|assumption].
    assert (Hp : Forall barOrdered (candles st ++ [c])).
    { apply Forall_app; split; [assumption|]. constructor; [exact Hc|constructor]. }
    destruct (_ <? _)%nat; [|assumption].
    destruct (candles st ++ [c]); simpl; [constructor|now inversion Hp].
  - destruct (currentCandle st) as [c|] eqn:E; simpl; [|now rewrite E].
    split; [assumption|].
    destruct Hc as (Hlo & Hoh & Hlc & Hch).
    destruct (float_leb_not_nan _ _ Hlo) as [Nl _].
    destruct (float_leb_not_nan _ _ Hoh) as [_ Nh].
    destruct (max2_bounds (Candle.high c) price Nh N) as [M1 M2].
    destruct (min2_bounds (Candle.low c) price Nl N) as [L1 L2].
    unfold barOrdered; simpl. repeat split.
    + exact (float_leb_trans _ _ _ L1 Hlo).
    + exact (float_leb_trans _ _ _ Hoh M1).
    + exact L2.
    + exact M2.
Qed.

(** X1. When no tick carries NaN as its price, [processPrice] keeps every
    bar ordered: in the open bar and in every closed bar of the history,
    low <= open <= high and low <= close <= high.  This holds from any
    state whose bars are ordered, the empty state among them. *)
Theorem X1_bars_enclose_open_and_close :
  forall (ticks : list (float * Z)) (st : State),
    numeric ticks -> barsOrdered st ->
    barsOrdered (processTicks ticks st).
Proof.
  unfold processTicks, numeric.
  induction ticks as [|tk ticks IH]; simpl; intros st Hn Ho; [assumption|].
  inversion Hn; subst. apply IH; [assumption|].
  now apply processPrice_barsOrdered.
Qed.

Lemma X1_witness :
  barsOrdered
    (processTicks [(50000%float, 1500000000000); (50010%float, 1500000001000);
                   (49990%float, 1500000002000); (50020%float, 1500000300000)]
                  initial).
Proof.
  apply (X1_bars_enclose_open_and_close
           [(50000%float, 1500000000000); (50010%float, 1500000001000);
            (49990%float, 1500000002000); (50020%float, 1500000300000)]
           initial).
  - repeat constructor.
  - split; [constructor|exact I].
Defined.

(** X2. A tick that repeats the price of the tick before it, within the
    same five-minute bucket, changes nothing: the aggregator state after
    both ticks is the state after the first.  So a tick delivered twice,
    as after a second subscription of [processPrice], does no harm to the
    bars. *)
Theorem X2_repeated_price_in_bucket_changes_nothing :
  forall (price : float) (t1 t2 : Z) (st : State),
    bucketOf t2 = bucketOf t1 ->
    processPrice price t2 (processPrice price t1 st)
    = processPrice price t1 st.
Proof.
  intros price t1 t2 st Hb. unfold bucketOf in Hb. unfold processPrice.
  rewrite Hb.
  destruct (t1 / candleInterval * candleInterval >? lastCandleTime st)
    eqn:Hgt.
  - simpl. rewrite Z.gtb_ltb, Z.ltb_irrefl, max2_same, min2_same.
    reflexivity.
  - destruct (currentCandle st) as [c|] eqn:E; simpl.
    + rewrite Hgt. now rewrite max2_absorbs, min2_absorbs.
    + now rewrite Hgt, E.
Qed.

Lemma X2_witness :
  let st := processPrice 50000%float 1500000000000 initial in
  processPrice 50010%float 1500000007000 (processPrice 50010%float 1500000003000 st)
  = processPrice 50010%float 1500000003000 st.
Proof.
  intros st.
  apply (X2_repeated_price_in_bucket_changes_nothing
           50010%float 1500000003000 1500000007000 st).
  reflexivity.
Defined.

Lemma sorted_last_bound (l : list Z) (d : Z) :
  StronglySorted Z.lt l -> Forall (fun t => t <= List.last l d) l.
Proof.
  induction l as [|a l IH]; intros Hs; [constructor|].
  inversion Hs as [|? ? Hs' Hf]; subst.
  destruct l as [|b l'].
  - simpl. repeat constructor. lia.
  - change (List.last (a :: b :: l') d) with (List.last (b :: l') d).
    specialize (IH Hs').
    constructor; [|exact IH].
    inversion Hf; subst. inversion IH; subst. lia.
Qed.

Lemma last_map_timestamp (data : list Candle.t) :
  Candle.timestamp (List.last data Candle.undefined)
  = List.last (map Candle.timestamp data) 0.
Proof.
  induction data as [|c data IH]; [reflexivity|].
  destruct data; [reflexivity|]. exact IH.
Qed.

Lemma loadHistoricalCandles_wellFormed (data : list Candle.t) (st : State) :
  StronglySorted Z.lt (map Candle.timestamp data) ->
  (List.length data <= maxCandles)%nat ->
  currentCandle st = None ->
  wellFormed (loadHistoricalCandles (KlinesLoaded data) st).
Proof.
  intros Hs Hl Hn. unfold wellFormed, times; simpl. rewrite Hn.
  repeat split; try assumption.
  destruct data as [|c data]; [constructor|].
  rewrite last_map_timestamp. now apply sorted_last_bound.
Qed.

(** X3. When the klines the history endpoint returns have strictly
    increasing open times and are at most 200, then after seeding the empty
    detector with them and processing any sequence of ticks, the history
    still has strictly increasing bucket starts and at most 200 bars, and
    the history stays marked as loaded. *)
Theorem X3_seeded_history_stays_increasing_and_bounded :
  forall (data : list Candle.t) (ticks : list (float * Z)),
    StronglySorted Z.lt (map Candle.timestamp data) ->
    (List.length data <= 200)%nat ->
    let st := processTicks ticks
                (loadHistoricalCandles (KlinesLoaded data) initial) in
    StronglySorted Z.lt (times st)
    /\ (List.length (candles st) <= 200)%nat
    /\ historyLoaded st = true.
Proof.
  intros data ticks Hs Hl st.
  destruct (processTicks_wellFormed
              ticks (loadHistoricalCandles (KlinesLoaded data) initial))
    as (H1 & H2 & _).
  { now apply loadHistoricalCandles_wellFormed. }
  repeat split; try assumption.
  unfold st, processTicks.
  assert (G : forall l s, historyLoaded s = true ->
            historyLoaded
              (fold_left (fun s tk => processPrice (fst tk) (snd tk) s) l s)
            = true).
  { induction l as [|tk l IH]; simpl; intros s E; [assumption|].
    apply IH. unfold processPrice.
    destruct (_ >? _); [assumption|]. now destruct (currentCandle s). }
  now apply G.
Qed.

Lemma X3_witness :
  let st := processTicks
              [(50010%float, 1500000900005); (50020%float, 1500001200000)]
              (loadHistoricalCandles
                 (KlinesLoaded (Fixture.flatBars 3 50000%float 1500000000000))
                 initial) in
  StronglySorted Z.lt (times st)
  /\ (List.length (candles st) <= 200)%nat
  /\ historyLoaded st = true.
Proof.
  apply (X3_seeded_history_stays_increasing_and_bounded
           (Fixture.flatBars 3 50000%float 1500000000000)
           [(50010%float, 1500000900005); (50020%float, 1500001200000)]).
  - vm_compute. repeat constructor.
  - simpl. lia.
Defined.

End Bars.

(* ================================================================== *)
(** ** Emission: what a delivered signal looks like, and the cooldown *)

Section Emission.

Import SignalDetector.

Lemma blockStep_scoreTrend (p e20 e50 : float) (a : Tally) :
  blockStep 25 a (scoreTrend p e20 e50 a).
Proof.
  unfold blockStep, scoreTrend.
  destruct (_ && _); [right; simpl; eauto|].
  destruct (_ && _); [right; simpl; eauto|now left].
Qed.

Lemma blockStep_scoreRSI (r : float) (a : Tally) :
  blockStep 20 a (scoreRSI r a).
Proof.
  unfold blockStep, scoreRSI, add.
  destruct (_ && _); [right; simpl; eauto|].
  destruct (_ && _); [right; simpl; eauto|now left].
Qed.

Lemma blockStep_scoreMACD (m : Macd) (a : Tally) :
  blockStep 25 a (scoreMACD m a).
Proof.
  unfold blockStep, scoreMACD, add.
  destruct (_ && _); [right; simpl; eauto|].
  destruct (_ && _); [right; simpl; eauto|now left].
Qed.

Lemma blockStep_scoreMomentum (p e20 : float) (a : Tally) :
  blockStep 15 a (scoreMomentum p e20 a).
Proof.
  unfold blockStep, scoreMomentum, add.
  destruct (_ && _); [right; simpl; eauto|].
  destruct (_ && _); [right; simpl; eauto|now left].
Qed.

Lemma blockStep_scoreStrength (e20 e50 : float) (a : Tally) :
  blockStep 15 a (scoreStrength e20 e50 a).
Proof.
  unfold blockStep, scoreStrength, add.
  destruct (Js.gtb _ _); [right; simpl; eauto|now left].
Qed.

Lemma blockStep_length (points : Z) (a b : Tally) :
  blockStep points a b ->
  (score b = score a /\ List.length (reasons b) = List.length (reasons a))
  \/ (score b = score a + points
      /\ List.length (reasons b) = S (List.length (reasons a))).
Proof.
  intros [[Hs Hr]|[Hs [r Hr]]]; [left|right]; split; try assumption.
  - now rewrite Hr.
  - rewrite Hr, length_app. simpl. lia.
Qed.

(** The score is at most 100, and at most 25 for each reason given. *)
Lemma tally_bounds (p e20 e50 r : float) (m : Macd) :
  let a := tally p e20 e50 r m in
  0 <= score a <= 100
  /\ score a <= 25 * Z.of_nat (List.length (reasons a))
  /\ (List.length (reasons a) <= 5)%nat.
Proof.
  unfold tally.
  set (a0 := mkTally 0 None []).
  set (a1 := scoreTrend p e20 e50 a0).
  set (a2 := scoreRSI r a1).
  set (a3 := scoreMACD m a2).
  set (a4 := scoreMomentum p e20 a3).
  set (a5 := scoreStrength e20 e50 a4).
  pose proof (blockStep_length _ _ _ (blockStep_scoreTrend p e20 e50 a0)) as H1.
  pose proof (blockStep_length _ _ _ (blockStep_scoreRSI r a1)) as H2.
  pose proof (blockStep_length _ _ _ (blockStep_scoreMACD m a2)) as H3.
  pose proof (blockStep_length _ _ _ (blockStep_scoreMomentum p e20 a3)) as H4.
  pose proof (blockStep_length _ _ _ (blockStep_scoreStrength e20 e50 a4)) as H5.
  fold a1 in H1, H2. fold a2 in H2, H3. fold a3 in H3, H4.
  fold a4 in H4, H5. fold a5 in H5.
  change (score a0) with 0 in H1.
  change (List.length (reasons a0)) with 0%nat in H1.
  cbv zeta. lia.
Qed.

(** The trend block is the only one that gives a direction, and its
    reason comes first. *)
Lemma reasons_head_preserved (points : Z) (a b : Tally) (r0 : Signal.Reason) :
  blockStep points a b ->
  List.hd_error (reasons a) = Some r0 -> List.hd_error (reasons b) = Some r0.
Proof.
  intros [[_ Hr]|[_ [r Hr]]] H0; rewrite Hr; [assumption|].
  destruct (reasons a); [discriminate H0|exact H0].
Qed.

Lemma tally_head (p e20 e50 r : float) (m : Macd) :
  match type (tally p e20 e50 r m) with
  | Some Signal.LONG =>
      longOrdering p e20 e50 = true
      /\ List.hd_error (reasons (tally p e20 e50 r m))
         = Some Signal.TendenciaDeAlta
  | Some Signal.SHORT =>
      longOrdering p e20 e50 = false /\ shortOrdering p e20 e50 = true
      /\ List.hd_error (reasons (tally p e20 e50 r m))
         = Some Signal.TendenciaDeBaixa
  | None => True
  end.
Proof.
  rewrite type_tally. unfold tally.
  set (a1 := scoreTrend p e20 e50 (mkTally 0 None [])).
  assert (Hpres : forall r0, List.hd_error (reasons a1) = Some r0 ->
            List.hd_error
              (reasons
                 (scoreStrength e20 e50
                    (scoreMomentum p e20 (scoreMACD m (scoreRSI r a1)))))
            = Some r0).
  { intros r0 H0.
    eapply reasons_head_preserved; [apply blockStep_scoreStrength|].
    eapply reasons_head_preserved; [apply blockStep_scoreMomentum|].
    eapply reasons_head_preserved; [apply blockStep_scoreMACD|].
    eapply reasons_head_preserved; [apply blockStep_scoreRSI|].
    exact H0. }
  unfold longOrdering, shortOrdering.
  destruct (Js.gtb p e20 && Js.gtb e20 e50) eqn:El.
  - split; [reflexivity|]. apply Hpres.
    unfold a1, scoreTrend. now rewrite El.
  - destruct (PrimFloat.ltb p e20 && PrimFloat.ltb e20 e50) eqn:Es;
      [|exact I].
    repeat split. apply Hpres.
    unfold a1, scoreTrend. now rewrite El, Es.
Qed.

Lemma detectSignal_shape (st : State) (clock : Z)
    (p e20 e50 r : float) (m : Macd) (s : Signal.t) :
  detectSignal st clock p e20 e50 r m = Some s ->
  Signal.entryPrice s = p
  /\ 60 <= Signal.score s <= 100
  /\ (3 <= List.length (Signal.reason s) <= 5)%nat
  /\ match Signal.type s with
     | Signal.LONG =>
         longOrdering p e20 e50 = true
         /\ List.hd_error (Signal.reason s) = Some Signal.TendenciaDeAlta
     | Signal.SHORT =>
         longOrdering p e20 e50 = false /\ shortOrdering p e20 e50 = true
         /\ List.hd_error (Signal.reason s) = Some Signal.TendenciaDeBaixa
     end.
Proof.
  unfold detectSignal. intros E.
  pose proof (tally_bounds p e20 e50 r m) as (Hb & Hr & Hn).
  pose proof (tally_head p e20 e50 r m) as Hh.
  destruct (type (tally p e20 e50 r m)) as [ty|]; [|discriminate E].
  destruct (Z.geb_spec (score (tally p e20 e50 r m)) 60) as [Hge|];
    [|discriminate E].
  injection E as <-. simpl.
  repeat split; try lia.
  destruct ty; exact Hh.
Qed.

Lemma processTicks_keeps_signal_time (ticks : list (float * Z)) (st : State) :
  lastSignalTime (processTicks ticks st) = lastSignalTime st.
Proof.
  unfold processTicks. revert st.
  induction ticks as [|tk ticks IH]; simpl; intros st; [reflexivity|].
  rewrite IH. unfold processPrice.
  destruct (_ >? _); [reflexivity|]. now destruct (currentCandle st).
Qed.

(** X4. Every signal an analysis run delivers goes to a subscriber, and
    the run delivers that same signal to every subscriber in subscription
    order and records the run's clock reading as the time of the last
    signal.  The signal carries that reading as its timestamp and the
    current price as its entry price; its score is between 60 and 100; it
    gives between three and five reasons, the first of them the trend
    reason of its direction; and a LONG signal has price > EMA20 > EMA50,
    a SHORT signal price < EMA20 < EMA50. *)
Theorem X4_delivered_signal_shape :
  forall (st : State) (now : Z) (cb : SignalCallback) (s : Signal.t),
    In (cb, s) (snd (analyzeMarket now st)) ->
    In cb (callbacks st)
    /\ snd (analyzeMarket now st) = map (fun c => (c, s)) (callbacks st)
    /\ lastSignalTime (fst (analyzeMarket now st)) = now
    /\ Signal.timestamp s = now
    /\ Signal.entryPrice s = currentPrice st
    /\ 60 <= Signal.score s <= 100
    /\ (3 <= List.length (Signal.reason s) <= 5)%nat
    /\ match Signal.type s with
       | Signal.LONG =>
           longOrdering (currentPrice st) (ema20 (indicators st))
                        (ema50 (indicators st)) = true
           /\ List.hd_error (Signal.reason s) = Some Signal.TendenciaDeAlta
       | Signal.SHORT =>
           longOrdering (currentPrice st) (ema20 (indicators st))
                        (ema50 (indicators st)) = false
           /\ shortOrdering (currentPrice st) (ema20 (indicators st))
                            (ema50 (indicators st)) = true
           /\ List.hd_error (Signal.reason s) = Some Signal.TendenciaDeBaixa
       end.
Proof.
  intros st now cb s. unfold analyzeMarket.
  destruct (_ <? _)%nat; [intros []|].
  destruct (_ <? _); [intros []|].
  destruct (detectSignal _ _ _ _ _ _ _) as [s0|] eqn:E; [|intros []].
  cbn [fst snd lastSignalTime]. intros Hin.
  apply in_map_iff in Hin. destruct Hin as (c & Hc & Hin).
  injection Hc as -> <-.
  destruct (detectSignal_shape _ _ _ _ _ _ _ _ E) as (Hp & Hs & Hr & Ht).
  repeat split; try assumption; try (simpl; lia).
Qed.

Lemma X4_witness :
  In TradingBot.botHandleSignal (callbacks Fixture.rally)
  /\ snd (analyzeMarket (Fixture.t0 + 18300000) Fixture.rally)
     = map (fun c => (c, Fixture.rallySignal)) (callbacks Fixture.rally)
  /\ lastSignalTime (fst (analyzeMarket (Fixture.t0 + 18300000) Fixture.rally))
     = Fixture.t0 + 18300000
  /\ Signal.timestamp Fixture.rallySignal = Fixture.t0 + 18300000
  /\ Signal.entryPrice Fixture.rallySignal = currentPrice Fixture.rally
  /\ 60 <= Signal.score Fixture.rallySignal <= 100
  /\ (3 <= List.length (Signal.reason Fixture.rallySignal) <= 5)%nat
  /\ match Signal.type Fixture.rallySignal with
     | Signal.LONG =>
         longOrdering (currentPrice Fixture.rally)
                      (ema20 (indicators Fixture.rally))
                      (ema50 (indicators Fixture.rally)) = true
         /\ List.hd_error (Signal.reason Fixture.rallySignal)
            = Some Signal.TendenciaDeAlta
     | Signal.SHORT =>
         longOrdering (currentPrice Fixture.rally)
                      (ema20 (indicators Fixture.rally))
                      (ema50 (indicators Fixture.rally)) = false
         /\ shortOrdering (currentPrice Fixture.rally)
                          (ema20 (indicators Fixture.rally))
                          (ema50 (indicators Fixture.rally)) = true
         /\ List.hd_error (Signal.reason Fixture.rallySignal)
            = Some Signal.TendenciaDeBaixa
     end.
Proof.
  apply (X4_delivered_signal_shape Fixture.rally (Fixture.t0 + 18300000)
                                   TradingBot.botHandleSignal
                                   Fixture.rallySignal).
  vm_compute. left. reflexivity.
Defined.

(** X5. Once an analysis run has delivered a signal, no run whose clock
    reading is less than five minutes after it delivers anything or
    changes the detector, whatever ticks were processed in between. *)
Theorem X5_emission_starts_cooldown :
  forall (st : State) (now : Z),
    snd (analyzeMarket now st) <> [] ->
    forall (ticks : list (float * Z)) (later : Z),
      later - now < 5 * 60 * 1000 ->
      let st1 := processTicks ticks (fst (analyzeMarket now st)) in
      analyzeMarket later st1 = (st1, []).
Proof.
  intros st now Hd ticks later Hl st1.
  assert (Hlast : lastSignalTime st1 = now).
  { unfold st1. rewrite processTicks_keeps_signal_time.
    revert Hd. unfold analyzeMarket.
    destruct (_ <? _)%nat; [now intros []|].
    destruct (_ <? _); [now intros []|].
    destruct (detectSignal _ _ _ _ _ _ _); [reflexivity|now intros []]. }
  unfold analyzeMarket. rewrite Hlast.
  destruct (_ <? _)%nat; [reflexivity|].
  destruct (Z.ltb_spec (later - now) minSignalInterval) as [|Hge];
    [reflexivity|].
  change minSignalInterval with (5 * 60 * 1000) in Hge. lia.
Qed.

Lemma X5_witness :
  let st1 := processTicks
               [(51510%float, Fixture.t0 + 18300500)]
               (fst (analyzeMarket (Fixture.t0 + 18300000) Fixture.rally)) in
  analyzeMarket (Fixture.t0 + 18360000) st1 = (st1, []).
Proof.
  apply (X5_emission_starts_cooldown
           Fixture.rally (Fixture.t0 + 18300000)).
  - vm_compute. discriminate.
  - vm_compute. reflexivity.
Defined.

End Emission.

(* ================================================================== *)
(** ** RSI on a window without a falling close *)

Section RelativeStrength.

Import SignalDetector.

(** A change that is not below zero and not above it is a zero, and
    subtracting it from [+0] leaves [+0]. *)
Lemma zero_minus_zero (c : float) :
  PrimFloat.leb 0 c = true -> PrimFloat.ltb 0 c = false ->
  (0 - c)%float = 0%float.
Proof.
  rewrite FloatAxioms.leb_spec, FloatAxioms.ltb_spec.
  unfold SFleb, SFltb.
  change (Prim2SF 0) with (S754_zero false).
  intros Hle Hlt.
  assert (Hz : exists s, Prim2SF c = S754_zero s).
  { destruct (Prim2SF c) as [s|s| |s m e]; simpl in *;
      try discriminate; [now exists s| |]; destruct s; discriminate. }
  destruct Hz as [s Hz].
  rewrite <- (SF2Prim_Prim2SF c), Hz.
  destruct s; vm_compute; reflexivity.
Qed.

Lemma losses_stay_zero (data : list float) (idx : list nat) (acc : float * float) :
  snd acc = 0%float ->
  forallb
    (fun i =>
       Js.geb (nth i data PrimFloat.nan - nth (i - 1) data PrimFloat.nan)%float
              0%float) idx = true ->
  snd (fold_left
         (fun (acc : float * float) (i : nat) =>
            let change :=
              (nth i data PrimFloat.nan - nth (i - 1) data PrimFloat.nan)%float in
            if Js.gtb change 0%float then ((fst acc + change)%float, snd acc)
            else (fst acc, (snd acc - change)%float))
         idx acc) = 0%float.
Proof.
  revert acc. induction idx as [|i idx IH]; simpl; intros acc H0 Hall;
    [assumption|].
  apply andb_prop in Hall. destruct Hall as [Hi Hall].
  apply IH; [|assumption].
  unfold Js.gtb, Js.geb in *.
  destruct (PrimFloat.ltb 0 _) eqn:Hgt; simpl; [assumption|].
  rewrite H0. now apply zero_minus_zero.
Qed.

Lemma rsi_without_losses (data : list float) :
  (15 <= List.length data)%nat ->
  gainsOnly data 14 = true ->
  calculateRSI data 14 = 100%float.
Proof.
  intros Hlen Hnf. unfold calculateRSI.
  destruct (Nat.ltb_spec (List.length data) (14 + 1)) as [|_]; [lia|].
  pose proof (losses_stay_zero data (seq (List.length data - 14) 14)
                               (0%float, 0%float) eq_refl Hnf) as Hl.
  destruct (fold_left _ _ _) as [gains losses]. simpl in Hl. subst losses.
  reflexivity.
Qed.

(** X6. On a series of at least 15 closes in which each of the last 14
    changes, a close minus the close before it computed in binary64, is
    [>= 0] (a rising window of finite closes, and a flat one as well; a
    window with a NaN close, or with two neighbouring closes at the same
    infinity, is not such a series), the 14-period RSI is exactly 100, and
    the RSI block of the scoring then adds nothing to the tally, for either
    direction. *)
Theorem X6_rsi_is_100_when_every_change_is_a_gain :
  forall (data : list float),
    (15 <= List.length data)%nat ->
    gainsOnly data 14 = true ->
    calculateRSI data 14 = 100%float
    /\ forall a, scoreRSI (calculateRSI data 14) a = a.
Proof.
  intros data Hlen Hnf.
  rewrite (rsi_without_losses data Hlen Hnf).
  split; [reflexivity|].
  intros a. unfold scoreRSI, Js.gtb.
  change (PrimFloat.ltb 100 70) with false.
  change (PrimFloat.ltb 100 60) with false.
  now rewrite !andb_false_r.
Qed.

Lemma X6_witness :
  calculateRSI (repeat 50000%float 60) 14 = 100%float
  /\ forall a, scoreRSI (calculateRSI (repeat 50000%float 60) 14) a = a.
Proof.
  apply (X6_rsi_is_100_when_every_change_is_a_gain (repeat 50000%float 60)).
  - simpl. lia.
  - vm_compute. reflexivity.
Defined.

End RelativeStrength.

(* ================================================================== *)
(** ** Price monitor: the reconnection backoff over any course of events *)

Section Reconnection.

Import EventLoop PriceMonitor.

Lemma forallb_filter_keeps {A : Type} (p q : A -> bool) (l : list A) :
  forallb p l = true -> forallb p (filter q l) = true.
Proof.
  induction l as [|a l IH]; simpl; [trivial|].
  intros H. apply andb_prop in H. destruct H as [Ha Hl].
  destruct (q a); simpl; [rewrite Ha|]; auto.
Qed.

Lemma backoff_delay_bounds (n : nat) :
  (n < 10)%nat ->
  PrimFloat.leb 5000 (reconnectDelay * Js.pow 1.5 n)%float
  && PrimFloat.leb (reconnectDelay * Js.pow 1.5 n)%float 192216.796875 = true.
Proof.
  intros Hn.
  do 10 (destruct n as [|n]; [vm_compute; reflexivity|]). lia.
Qed.

Lemma monitorSound_register (p : Purpose) (d : float) (rep : bool)
    (st st1 : State) (tm : Timers) :
  monitorSound (st, tm) ->
  (reconnectAttempts st1 <= maxReconnectAttempts)%nat ->
  monitorDelay (mkTimer (nextHandle tm) p d rep) = true ->
  monitorSound (st1, snd (register p d rep tm)).
Proof.
  intros (_ & Hd) Ha Hnew. unfold monitorSound; simpl in *.
  split; [assumption|].
  rewrite forallb_app, Hd. simpl. now rewrite Hnew.
Qed.

Lemma monitorSound_timers (st st1 : State) (tm : Timers) (q : Timer -> bool) :
  monitorSound (st, tm) ->
  (reconnectAttempts st1 <= maxReconnectAttempts)%nat ->
  monitorSound (st1, mkTimers (nextHandle tm) (filter q (pending tm))).
Proof.
  intros (_ & Hd) Ha. unfold monitorSound; simpl in *.
  split; [assumption|]. now apply forallb_filter_keeps.
Qed.

Lemma monitorSound_state (st st1 : State) (tm : Timers) :
  monitorSound (st, tm) ->
  (reconnectAttempts st1 <= maxReconnectAttempts)%nat ->
  monitorSound (st1, tm).
Proof. intros (_ & Hd) Ha. now split. Qed.

Lemma monitorSound_connect (w : World) :
  monitorSound w -> monitorSound (connect w).
Proof.
  destruct w as [st tm]. intros Hs. unfold connect.
  destruct (negb (isRunning st)); [assumption|].
  eapply monitorSound_state; [exact Hs|]. apply Hs.
Qed.

Lemma monitorSound_scheduleReconnect (w : World) :
  monitorSound w -> monitorSound (scheduleReconnect w).
Proof.
  destruct w as [st tm]. intros Hs. unfold scheduleReconnect.
  destruct (Nat.leb_spec maxReconnectAttempts (reconnectAttempts st))
    as [Hmax|Hless].
  - apply (monitorSound_register ReconnectCooldown 60000 false st st tm Hs);
      [apply Hs|reflexivity].
  - apply (monitorSound_register ReconnectBackoff _ false st _ tm Hs).
    + simpl. unfold maxReconnectAttempts in *. lia.
    + apply backoff_delay_bounds. exact Hless.
Qed.

Lemma monitorSound_clear (st : State) (tm : Timers) (h : option nat) :
  monitorSound (st, tm) ->
  monitorSound (st, match h with
                    | Some n => clearInterval n tm
                    | None => tm
                    end).
Proof.
  intros Hs. destruct h as [n|]; [|assumption].
  apply (monitorSound_timers st st tm _ Hs). apply Hs.
Qed.

Lemma monitorSound_react (e : Event) (w : World) :
  monitorSound w -> monitorSound (react e w).
Proof.
  destruct w as [st tm]. intros Hs.
  destruct e as [| |cb| | |d|h|h]; cbn [react fst snd].
  - unfold start. destruct (isRunning st); [assumption|].
    apply monitorSound_connect.
    eapply monitorSound_state; [exact Hs|]. apply Hs.
  - unfold stop.
    eapply monitorSound_state; [apply monitorSound_clear; exact Hs|].
    apply Hs.
  - eapply monitorSound_state; [exact Hs|]. apply Hs.
  - unfold onOpen.
    apply (monitorSound_register Heartbeat 30000 true st _ tm Hs);
      [cbn; lia|reflexivity].
  - unfold onClose.
    pose proof (monitorSound_clear st tm (pingInterval st) Hs) as Hc.
    match goal with
    | |- monitorSound (if _ then scheduleReconnect (?s, ?t) else _) =>
        assert (H1 : monitorSound (s, t))
          by (eapply monitorSound_state; [exact Hc|]; apply Hs)
    end.
    destruct (isRunning _); [now apply monitorSound_scheduleReconnect|exact H1].
  - eapply monitorSound_state; [exact Hs|]. apply Hs.
  - unfold onBackoffTimeout. apply monitorSound_connect.
    apply (monitorSound_timers st st tm _ Hs). apply Hs.
  - unfold onCooldownTimeout. apply monitorSound_connect.
    apply (monitorSound_timers st _ tm _ Hs). cbn. lia.
Qed.

Lemma monitorSound_run (events : list Event) (w : World) :
  monitorSound w -> monitorSound (run events w).
Proof.
  unfold run. revert w.
  induction events as [|e events IH]; simpl; intros w Hs; [assumption|].
  apply IH. now apply monitorSound_react.
Qed.

(** X7. Over every course of events of the price monitor, from its initial
    state (calls of [start], [stop] and [onPrice], a socket opening or
    closing, be it the one the monitor holds or one it has dropped,
    tickers, reconnection timers firing, in any order), the count
    of reconnection attempts never exceeds 10, and every timer the monitor
    has pending is a 30 s heartbeat, a 60 s cooldown, or a backoff of at
    least 5 s and at most 5 s * 1.5^9 = 192216.796875 ms. *)
Theorem X7_reconnection_stays_bounded :
  forall (events : list Event),
    let w := run events (initial, empty) in
    (reconnectAttempts (fst w) <= 10)%nat
    /\ forallb monitorDelay (pending (snd w)) = true.
Proof.
  intros events w.
  destruct (monitorSound_run events (initial, empty)) as (Ha & Hd).
  { split; [cbn; lia|reflexivity]. }
  split; assumption.
Qed.

End Reconnection.

(* ================================================================== *)
(** ** Execution gateway: the requests of one call, and its edges *)

Section GatewayTrace.

Import Host BinanceExecutor.
Local Open Scope string_scope.
Context `{Env}.

Lemma request_configured (st : State) (c : BinanceConfig) (m : Method)
    (endpoint : string) (ps : list (string * Value)) (w : World) :
  config st = Some c ->
  request st m endpoint ps w
  = (outcomeOf (answer w (requestOf st c m endpoint ps w)),
     afterRequest w (requestOf st c m endpoint ps w)).
Proof.
  intros Hc. unfold request. rewrite Hc.
  unfold bind, dateNow, fetch, requestOf, afterRequest, outcomeOf; simpl.
  destruct (answer w _) as [msg|ok status body]; [reflexivity|].
  destruct ok; [reflexivity|]. destruct body; reflexivity.
Qed.

Lemma request_unconfigured (st : State) (m : Method)
    (endpoint : string) (ps : list (string * Value)) (w : World) :
  config st = None ->
  request st m endpoint ps w = (Thrown "Binance não configurada", w).
Proof. intros Hc. unfold request. now rewrite Hc. Qed.

Lemma getOpenPositions_configured (st : State) (c : BinanceConfig) (w : World) :
  config st = Some c ->
  exists positions,
    getOpenPositions st w
    = (Returned positions,
       afterRequest w (requestOf st c GET "/fapi/v2/positionRisk" [] w)).
Proof.
  intros Hc. unfold getOpenPositions, tryCatch, bind.
  rewrite (request_configured st c _ _ _ _ Hc).
  destruct (outcomeOf _) as [[ps|bs|id q p|msg|]|msg]; eexists; reflexivity.
Qed.

Lemma setLeverage_configured (st : State) (c : BinanceConfig)
    (symbol : string) (leverage : float) (w : World) :
  config st = Some c ->
  exists b,
    setLeverage st symbol leverage w
    = (Returned b,
       afterRequest w
         (requestOf st c POST "/fapi/v1/leverage"
                    [("symbol", Str symbol); ("leverage", Num leverage)] w)).
Proof.
  intros Hc. unfold setLeverage, tryCatch, bind.
  rewrite (request_configured st c _ _ _ _ Hc).
  destruct (outcomeOf _) as [body|msg]; eexists; reflexivity.
Qed.

Lemma setMarginType_configured (st : State) (c : BinanceConfig)
    (symbol marginType : string) (w : World) :
  config st = Some c ->
  exists b,
    setMarginType st symbol marginType w
    = (Returned b,
       afterRequest w
         (requestOf st c POST "/fapi/v1/marginType"
                    [("symbol", Str symbol); ("marginType", Str marginType)] w)).
Proof.
  intros Hc. unfold setMarginType, tryCatch, bind.
  rewrite (request_configured st c _ _ _ _ Hc).
  destruct (outcomeOf _) as [body|msg]; eexists; reflexivity.
Qed.

Lemma getBalance_configured (st : State) (c : BinanceConfig) (w : World) :
  config st = Some c ->
  exists balance,
    getBalance st w
    = (Returned balance,
       afterRequest w (requestOf st c GET "/fapi/v2/balance" [] w)).
Proof.
  intros Hc. unfold getBalance, tryCatch, bind.
  rewrite (request_configured st c _ _ _ _ Hc).
  destruct (outcomeOf _) as [[ps|bs|id q p|msg|]|msg]; eexists; reflexivity.
Qed.

Lemma openMarketOrder_configured (st : State) (c : BinanceConfig)
    (symbol side : string) (quantity : float) (w : World) :
  config st = Some c ->
  let r := requestOf st c POST orderEndpoint
                     (orderParams symbol side quantity) w in
  openMarketOrder st symbol side quantity w
  = (Returned (orderResult (answer w r)), afterRequest w r).
Proof.
  intros Hc r. unfold openMarketOrder, tryCatch, bind.
  unfold orderParams in r.
  rewrite (request_configured st c _ _ _ _ Hc). fold r.
  unfold orderResult.
  destruct (outcomeOf _) as [[ps|bs|id q p|msg|]|msg]; reflexivity.
Qed.

(** The whole course of [executeSignal] on a configured executor. *)
Lemma executeSignal_trace (st : State) (c : BinanceConfig) (t : Trade)
    (w : World) :
  config st = Some c ->
  let r1 := requestOf st c GET "/fapi/v2/positionRisk" [] w in
  let w1 := afterRequest w r1 in
  let r2 := requestOf st c POST "/fapi/v1/leverage"
                      [("symbol", Str "BTCUSDT"); ("leverage", Num (leverage t))]
                      w1 in
  let w2 := afterRequest w1 r2 in
  let r3 := requestOf st c POST "/fapi/v1/marginType"
                      [("symbol", Str "BTCUSDT"); ("marginType", Str "ISOLATED")]
                      w2 in
  let w3 := afterRequest w2 r3 in
  let r4 := requestOf st c GET "/fapi/v2/balance" [] w3 in
  let w4 := afterRequest w3 r4 in
  exists positions balance,
    getOpenPositions st w = (Returned positions, w1)
    /\ getBalance st w3 = (Returned balance, w4)
    /\ let q := sizedQuantity balance (accountPercentage t) (leverage t)
                              (entryPrice t) in
       let r5 := requestOf st c POST orderEndpoint
                           (orderParams "BTCUSDT" (sideOf (type t)) q) w4 in
       executeSignal st t w
       = match find (fun p => String.eqb (symbol p) "BTCUSDT") positions with
         | Some _ => (Returned (failure "Posição já aberta"), w1)
         | None =>
             if PrimFloat.leb q 0%float
             then (Returned (failure "Quantidade inválida"), w4)
             else (Returned (orderResult (answer w4 r5)), afterRequest w4 r5)
         end.
Proof.
  intros Hc r1 w1 r2 w2 r3 w3 r4 w4.
  destruct (getOpenPositions_configured st c w Hc) as [positions Hp].
  destruct (setLeverage_configured st c "BTCUSDT" (leverage t) w1 Hc)
    as [b2 H2].
  destruct (setMarginType_configured st c "BTCUSDT" "ISOLATED" w2 Hc)
    as [b3 H3].
  destruct (getBalance_configured st c w3 Hc) as [balance H4].
  fold r1 w1 in Hp. fold r2 w2 in H2. fold r3 w3 in H3. fold r4 w4 in H4.
  exists positions, balance. repeat split; try assumption.
  intros q r5.
  unfold executeSignal, tryCatch.
  rewrite (bind_returned _ _ _ _ _ Hp).
  destruct (find _ positions) as [p|]; [reflexivity|].
  rewrite (bind_returned _ _ _ _ _ H2).
  rewrite (bind_returned _ _ _ _ _ H3).
  rewrite (bind_returned _ _ _ _ _
             (calculatePositionSize_formula st w3 w4 balance _ _ _ H4)).
  fold q.
  destruct (PrimFloat.leb q 0); [reflexivity|].
  pose proof (openMarketOrder_configured st c "BTCUSDT" (sideOf (type t)) q w4 Hc)
    as H5.
  cbv zeta in H5. fold r5 in H5.
  change (match type t with Signal.LONG => "BUY" | Signal.SHORT => "SELL" end)
    with (sideOf (type t)).
  rewrite H5. reflexivity.
Qed.

End GatewayTrace.

Section GatewayFacts.

Import Host BinanceExecutor.
Local Open Scope string_scope.
Context `{Env}.

Lemma sent_afterRequest (w : World) (r : Request) :
  sent (afterRequest w r) = (sent w ++ [r])%list.
Proof. reflexivity. Qed.

Lemma pushed_afterRequest (w : World) (r : Request) :
  pushed (afterRequest w r) = pushed w.
Proof. reflexivity. Qed.

Lemma orderResult_success (reply : Reply) :
  success (orderResult reply) = true ->
  exists status id qty px,
    reply = Replied true status (Order id qty px)
    /\ orderResult reply
       = mkResult true (Some (numberToString id)) None
                  (Some (parseFloat qty)) (Some (parseFloat px)).
Proof.
  unfold orderResult, outcomeOf.
  destruct reply as [msg|ok status body]; [discriminate|].
  destruct ok; [|destruct body; discriminate].
  destruct body; try discriminate. intros _.
  do 4 eexists. split; reflexivity.
Qed.

Lemma getOpenPositions_unconfigured (st : State) (w : World) :
  config st = None -> getOpenPositions st w = (Returned [], w).
Proof.
  intros Hc. unfold getOpenPositions, tryCatch, bind.
  now rewrite (request_unconfigured st _ _ _ _ Hc).
Qed.

Lemma setLeverage_unconfigured (st : State) (symbol : string)
    (leverage : float) (w : World) :
  config st = None -> setLeverage st symbol leverage w = (Returned false, w).
Proof.
  intros Hc. unfold setLeverage, tryCatch, bind.
  now rewrite (request_unconfigured st _ _ _ _ Hc).
Qed.

Lemma setMarginType_unconfigured (st : State) (symbol marginType : string)
    (w : World) :
  config st = None ->
  setMarginType st symbol marginType w = (Returned false, w).
Proof.
  intros Hc. unfold setMarginType, tryCatch, bind.
  now rewrite (request_unconfigured st _ _ _ _ Hc).
Qed.

Lemma getBalance_unconfigured (st : State) (w : World) :
  config st = None -> getBalance st w = (Returned 0%float, w).
Proof.
  intros Hc. unfold getBalance, tryCatch, bind.
  now rewrite (request_unconfigured st _ _ _ _ Hc).
Qed.

Lemma openMarketOrder_unconfigured (st : State) (symbol side : string)
    (quantity : float) (w : World) :
  config st = None ->
  openMarketOrder st symbol side quantity w
  = (Returned (failure "Binance não configurada"), w).
Proof.
  intros Hc. unfold openMarketOrder, tryCatch, bind.
  now rewrite (request_unconfigured st _ _ _ _ Hc).
Qed.

Lemma executeSignal_unconfigured (st : State) (t : Trade) (w : World) :
  config st = None ->
  executeSignal st t w
  = (Returned
       (failure
          (if PrimFloat.leb
                (sizedQuantity 0 (accountPercentage t) (leverage t)
                               (entryPrice t)) 0
           then "Quantidade inválida" else "Binance não configurada")), w).
Proof.
  intros Hc. unfold executeSignal, tryCatch.
  rewrite (bind_returned _ _ _ _ _ (getOpenPositions_unconfigured st w Hc)).
  cbn [find].
  rewrite (bind_returned _ _ _ _ _ (setLeverage_unconfigured st _ _ w Hc)).
  rewrite (bind_returned _ _ _ _ _ (setMarginType_unconfigured st _ _ w Hc)).
  rewrite (bind_returned _ _ _ _ _
             (calculatePositionSize_formula
                st w w 0%float _ _ _ (getBalance_unconfigured st w Hc))).
  destruct (PrimFloat.leb _ _); [reflexivity|].
  now rewrite (openMarketOrder_unconfigured st _ _ _ w Hc).
Qed.

(** X8. On an executor that holds credentials, one [executeSignal] never
    throws, pushes no notification, sends every request with the configured
    API key, and sends exactly one of three sequences of requests: the
    position lookup alone (a BTCUSDT position is open, the result is
    'Posição já aberta'); the lookup, the leverage call, the margin-type
    call and the balance lookup (the sized quantity is not above zero, the
    result is 'Quantidade inválida'); or these four followed by one order.
    So at most one order is placed, always last and after the position
    lookup, and whatever the leverage and margin-type calls answer. *)
Theorem X8_executeSignal_request_sequence :
  forall (st : State) (c : BinanceConfig) (t : Trade) (w : World),
    config st = Some c ->
    exists result w1 rs,
      executeSignal st t w = (Returned result, w1)
      /\ sent w1 = (sent w ++ rs)%list
      /\ pushed w1 = pushed w
      /\ Forall (fun r => apiKeyHeader r = apiKey c) rs
      /\ (map route rs = [(GET, baseUrl st ++ "/fapi/v2/positionRisk")]
          /\ result = failure "Posição já aberta"
          \/ map route rs
             = [(GET, baseUrl st ++ "/fapi/v2/positionRisk");
                (POST, baseUrl st ++ "/fapi/v1/leverage");
                (POST, baseUrl st ++ "/fapi/v1/marginType");
                (GET, baseUrl st ++ "/fapi/v2/balance")]
             /\ result = failure "Quantidade inválida"
          \/ map route rs
             = [(GET, baseUrl st ++ "/fapi/v2/positionRisk");
                (POST, baseUrl st ++ "/fapi/v1/leverage");
                (POST, baseUrl st ++ "/fapi/v1/marginType");
                (GET, baseUrl st ++ "/fapi/v2/balance");
                (POST, baseUrl st ++ "/fapi/v1/order")]).
Proof.
  intros st c t w Hc.
  destruct (executeSignal_trace st c t w Hc)
    as (positions & balance & _ & _ & He).
  cbv zeta in He. rewrite He. clear He.
  destruct (find _ positions) as [p|]; [|destruct (PrimFloat.leb _ _)];
    do 3 eexists;
    (split; [reflexivity|]);
    (split; [rewrite !sent_afterRequest, <- ?app_assoc; reflexivity|]);
    (split; [reflexivity|]);
    (split; [now repeat constructor|]).
  - left. now split.
  - right; left. now split.
  - right; right. reflexivity.
Qed.

(** X9. A result of [executeSignal] with [success = true] always comes
    from an order the venue accepted: the executor holds credentials, the
    last request it sent is a MARKET order for BTCUSDT on the side of the
    signal's direction (BUY for LONG, SELL for SHORT) with the quantity
    sized from the balance it had just read, that quantity is not [<= 0],
    the venue answered that request with an order object, and the result
    carries the order's id as [toString] prints that number, and
    [parseFloat] of its executed quantity and of its average price. *)
Theorem X9_success_means_an_accepted_order :
  forall (st : State) (t : Trade) (w w1 : World) (result : OrderResult),
    executeSignal st t w = (Returned result, w1) ->
    success result = true ->
    exists c earlier w3 w4 balance status id qty px,
      config st = Some c
      /\ getBalance st w3 = (Returned balance, w4)
      /\ let q := sizedQuantity balance (accountPercentage t) (leverage t)
                                (entryPrice t) in
         let r := requestOf st c POST orderEndpoint
                            (orderParams "BTCUSDT" (sideOf (type t)) q) w4 in
         PrimFloat.leb q 0 = false
         /\ sent w1 = (sent w ++ earlier ++ [r])%list
         /\ answer w4 r = Replied true status (Order id qty px)
         /\ result = mkResult true (Some (numberToString id)) None
                              (Some (parseFloat qty)) (Some (parseFloat px)).
Proof.
  intros st t w w1 result He Hok.
  destruct (config st) as [c|] eqn:Hc.
  - destruct (executeSignal_trace st c t w Hc)
      as (positions & balance & _ & Hb & Ht).
    cbv zeta in Ht. rewrite Ht in He. clear Ht.
    destruct (find _ positions) as [p|].
    { injection He as <- _. discriminate Hok. }
    destruct (PrimFloat.leb _ _) eqn:Hq.
    { injection He as <- _. discriminate Hok. }
    injection He as <- <-.
    destruct (orderResult_success _ Hok) as (status & id & qty & px & Ha & Hr).
    exists c. eexists [_; _; _; _]. do 2 eexists.
    exists balance, status, id, qty, px.
    split; [reflexivity|]. split; [exact Hb|].
    cbv zeta. split; [exact Hq|].
    split; [|split; [exact Ha|exact Hr]].
    rewrite !sent_afterRequest, <- !app_assoc. reflexivity.
  - rewrite (executeSignal_unconfigured st t w Hc) in He.
    injection He as <- _. discriminate Hok.
Qed.

End GatewayFacts.

Section GatewayWitnesses.

Import Host BinanceExecutor.
Local Open Scope string_scope.
#[local] Existing Instance Fixture.fillingVenue.

Lemma X8_witness :
  exists result w1 rs,
    executeSignal Fixture.executor Fixture.longTrade Fixture.world
    = (Returned result, w1)
    /\ sent w1 = (sent Fixture.world ++ rs)%list
    /\ pushed w1 = pushed Fixture.world
    /\ Forall (fun r => apiKeyHeader r = "key") rs
    /\ (map route rs
        = [(GET, baseUrl Fixture.executor ++ "/fapi/v2/positionRisk")]
        /\ result = failure "Posição já aberta"
        \/ map route rs
           = [(GET, baseUrl Fixture.executor ++ "/fapi/v2/positionRisk");
              (POST, baseUrl Fixture.executor ++ "/fapi/v1/leverage");
              (POST, baseUrl Fixture.executor ++ "/fapi/v1/marginType");
              (GET, baseUrl Fixture.executor ++ "/fapi/v2/balance")]
           /\ result = failure "Quantidade inválida"
        \/ map route rs
           = [(GET, baseUrl Fixture.executor ++ "/fapi/v2/positionRisk");
              (POST, baseUrl Fixture.executor ++ "/fapi/v1/leverage");
              (POST, baseUrl Fixture.executor ++ "/fapi/v1/marginType");
              (GET, baseUrl Fixture.executor ++ "/fapi/v2/balance");
              (POST, baseUrl Fixture.executor ++ "/fapi/v1/order")]).
Proof.
  apply (X8_executeSignal_request_sequence
           Fixture.executor (mkConfig "key" "secret" true)
           Fixture.longTrade Fixture.world).
  reflexivity.
Defined.

Lemma X9_witness :
  let result := mkResult true (Some "4711") None (Some 0.03%float)
                         (Some 50000%float) in
  let w1 := snd (executeSignal Fixture.executor Fixture.longTrade
                               Fixture.world) in
  exists c earlier w3 w4 balance status id qty px,
    config Fixture.executor = Some c
    /\ getBalance Fixture.executor w3 = (Returned balance, w4)
    /\ let q := sizedQuantity balance (accountPercentage Fixture.longTrade)
                              (leverage Fixture.longTrade)
                              (entryPrice Fixture.longTrade) in
       let r := requestOf Fixture.executor c POST orderEndpoint
                          (orderParams "BTCUSDT"
                                       (sideOf (type Fixture.longTrade)) q)
                          w4 in
       PrimFloat.leb q 0 = false
       /\ sent w1 = (sent Fixture.world ++ earlier ++ [r])%list
       /\ answer w4 r = Replied true status (Order id qty px)
       /\ result = mkResult true (Some (numberToString id)) None
                            (Some (parseFloat qty)) (Some (parseFloat px)).
Proof.
  intros result w1.
  apply (X9_success_means_an_accepted_order
           Fixture.executor Fixture.longTrade Fixture.world w1 result).
  - vm_compute. reflexivity.
  - reflexivity.
Defined.

End GatewayWitnesses.

Section ZeroArithmetic.

Lemma is_zero_spec (x : float) :
  PrimFloat.is_zero x = true -> zeroSF (Prim2SF x).
Proof.
  unfold PrimFloat.is_zero. rewrite FloatAxioms.eqb_spec. unfold SFeqb.
  change (Prim2SF PrimFloat.zero) with (S754_zero false).
  destruct (Prim2SF x) as [s|s| |s m e]; simpl; try discriminate;
    try exact (fun _ => I); destruct s; discriminate.
Qed.

Lemma zeroSF_is_zero (x : float) :
  zeroSF (Prim2SF x) -> PrimFloat.is_zero x = true.
Proof.
  unfold PrimFloat.is_zero. rewrite FloatAxioms.eqb_spec. unfold SFeqb.
  change (Prim2SF PrimFloat.zero) with (S754_zero false).
  destruct (Prim2SF x) as [s|s| |s m e]; simpl; intros []; reflexivity.
Qed.

Lemma is_finite_spec (x : float) :
  PrimFloat.is_finite x = true ->
  match Prim2SF x with
  | S754_zero _ | S754_finite _ _ _ => True
  | _ => False
  end.
Proof.
  unfold PrimFloat.is_finite, PrimFloat.is_nan, PrimFloat.is_infinity.
  rewrite !FloatAxioms.eqb_spec, FloatAxioms.abs_spec. unfold SFeqb.
  change (Prim2SF PrimFloat.infinity) with (S754_infinity false).
  destruct (Prim2SF x) as [s|s| |s m e]; simpl; try discriminate;
    try exact (fun _ => I).
  destruct s; discriminate.
Qed.

Lemma truthy_spec (x : float) :
  Js.truthy x = true ->
  match Prim2SF x with
  | S754_infinity _ | S754_finite _ _ _ => True
  | _ => False
  end.
Proof.
  unfold Js.truthy, PrimFloat.is_nan, PrimFloat.is_zero.
  rewrite !FloatAxioms.eqb_spec. unfold SFeqb.
  change (Prim2SF PrimFloat.zero) with (S754_zero false).
  destruct (Prim2SF x) as [s|s| |s m e]; simpl; try discriminate;
    try exact (fun _ => I).
Qed.

Lemma zero_mul_finite (x y : float) :
  zeroSF (Prim2SF x) -> PrimFloat.is_finite y = true ->
  zeroSF (Prim2SF (x * y)).
Proof.
  intros Hx Hy. apply is_finite_spec in Hy.
  rewrite FloatAxioms.mul_spec. unfold SF64mul.
  destruct (Prim2SF x); try contradiction.
  destruct (Prim2SF y); try contradiction; exact I.
Qed.

Lemma zero_div_truthy (x y : float) :
  zeroSF (Prim2SF x) -> Js.truthy y = true -> zeroSF (Prim2SF (x / y)).
Proof.
  intros Hx Hy. apply truthy_spec in Hy.
  rewrite FloatAxioms.div_spec. unfold SF64div.
  destruct (Prim2SF x); try contradiction.
  destruct (Prim2SF y); try contradiction; exact I.
Qed.

Lemma floor_zero (x : float) : zeroSF (Prim2SF x) -> Js.floor x = x.
Proof.
  unfold Js.floor. destruct (Prim2SF x); try contradiction. reflexivity.
Qed.

Lemma zero_leb_zero (x : float) :
  zeroSF (Prim2SF x) -> PrimFloat.leb x 0 = true.
Proof.
  rewrite FloatAxioms.leb_spec. unfold SFleb.
  change (Prim2SF 0) with (S754_zero false).
  destruct (Prim2SF x); try contradiction. reflexivity.
Qed.

(** A zero balance sizes to a zero quantity. *)
Lemma sizedQuantity_zero (balance accountPercentage leverage entryPrice : float) :
  PrimFloat.is_zero balance = true ->
  PrimFloat.is_finite (accountPercentage / 100) = true ->
  PrimFloat.is_finite leverage = true ->
  Js.truthy entryPrice = true ->
  zeroSF (Prim2SF (sizedQuantity balance accountPercentage leverage entryPrice)).
Proof.
  intros Hb Hp Hl He. unfold sizedQuantity.
  assert (H1 : zeroSF (Prim2SF (balance * (accountPercentage / 100)
                                * leverage / entryPrice * 1000))).
  { apply zero_mul_finite; [|reflexivity].
    apply zero_div_truthy; [|exact He].
    apply zero_mul_finite; [|exact Hl].
    apply zero_mul_finite; [|exact Hp].
    now apply is_zero_spec. }
  rewrite (floor_zero _ H1).
  apply zero_div_truthy; [exact H1|reflexivity].
Qed.

End ZeroArithmetic.

Section GatewayEdges.

Import Host BinanceExecutor.
Local Open Scope string_scope.
Context `{Env}.

Lemma closePosition_configured (st : State) (c : BinanceConfig)
    (sym : string) (w : World) :
  config st = Some c ->
  let r1 := requestOf st c GET "/fapi/v2/positionRisk" [] w in
  let w1 := afterRequest w r1 in
  exists positions,
    getOpenPositions st w = (Returned positions, w1)
    /\ closePosition st sym w
       = match find (fun p => String.eqb (symbol p) sym) positions with
         | None => (Returned (failure "Posição não encontrada"), w1)
         | Some p =>
             let amount := parseFloat (positionAmt p) in
             let r2 := requestOf st c POST orderEndpoint
                                 (orderParams sym (closingSide amount)
                                              (PrimFloat.abs amount)) w1 in
             (Returned (orderResult (answer w1 r2)), afterRequest w1 r2)
         end.
Proof.
  intros Hc r1 w1.
  destruct (getOpenPositions_configured st c w Hc) as [positions Hp].
  fold r1 w1 in Hp. exists positions. split; [exact Hp|].
  unfold closePosition, tryCatch.
  rewrite (bind_returned _ _ _ _ _ Hp).
  destruct (find _ positions) as [p|]; [|reflexivity].
  fold (closingSide (parseFloat (positionAmt p))).
  now rewrite (openMarketOrder_configured st c _ _ _ w1 Hc).
Qed.

Lemma closePosition_unconfigured (st : State) (sym : string) (w : World) :
  config st = None ->
  closePosition st sym w = (Returned (failure "Posição não encontrada"), w).
Proof.
  intros Hc. unfold closePosition, tryCatch.
  now rewrite (bind_returned _ _ _ _ _ (getOpenPositions_unconfigured st w Hc)).
Qed.

(** X10. An executor that was never given credentials sends nothing: every
    operation returns at once, with the world as it was.  The position
    lookup gives no positions, the balance is 0, the leverage and
    margin-type calls give [false], [openMarketOrder] fails with 'Binance
    não configurada', [closePosition] with 'Posição não encontrada', and
    [executeSignal] fails with 'Quantidade inválida' (or with 'Binance
    não configurada', when the quantity sized from the zero balance is not
    [<= 0]). *)
Theorem X10_unconfigured_executor_sends_nothing :
  forall (st : State) (w : World) (sym side marginType : string)
         (leverage quantity : float) (t : Trade),
    config st = None ->
    getOpenPositions st w = (Returned [], w)
    /\ getBalance st w = (Returned 0%float, w)
    /\ setLeverage st sym leverage w = (Returned false, w)
    /\ setMarginType st sym marginType w = (Returned false, w)
    /\ openMarketOrder st sym side quantity w
       = (Returned (failure "Binance não configurada"), w)
    /\ closePosition st sym w
       = (Returned (failure "Posição não encontrada"), w)
    /\ exists result,
         executeSignal st t w = (Returned result, w)
         /\ success result = false
         /\ (error result = Some "Quantidade inválida"
             \/ error result = Some "Binance não configurada").
Proof.
  intros st w sym side marginType leverage quantity t Hc.
  split; [now apply getOpenPositions_unconfigured|].
  split; [now apply getBalance_unconfigured|].
  split; [now apply setLeverage_unconfigured|].
  split; [now apply setMarginType_unconfigured|].
  split; [now apply openMarketOrder_unconfigured|].
  split; [now apply closePosition_unconfigured|].
  rewrite (executeSignal_unconfigured st t w Hc).
  eexists. split; [reflexivity|]. split; [reflexivity|].
  simpl. destruct (PrimFloat.leb _ _); [now left|now right].
Qed.

(** X11. No public operation of the executor throws, whatever its
    configuration and whatever the venue answers: each of
    [getOpenPositions], [getBalance], [setLeverage], [setMarginType],
    [calculatePositionSize], [openMarketOrder], [closePosition] and
    [executeSignal] returns a value. *)
Theorem X11_executor_operations_never_throw :
  forall (st : State) (w : World) (sym side marginType : string)
         (leverage quantity accountPercentage entryPrice : float) (t : Trade),
    (exists a w1, getOpenPositions st w = (Returned a, w1))
    /\ (exists a w1, getBalance st w = (Returned a, w1))
    /\ (exists a w1, setLeverage st sym leverage w = (Returned a, w1))
    /\ (exists a w1, setMarginType st sym marginType w = (Returned a, w1))
    /\ (exists a w1,
          calculatePositionSize st accountPercentage entryPrice leverage w
          = (Returned a, w1))
    /\ (exists a w1, openMarketOrder st sym side quantity w = (Returned a, w1))
    /\ (exists a w1, closePosition st sym w = (Returned a, w1))
    /\ (exists a w1, executeSignal st t w = (Returned a, w1)).
Proof.
  intros st w sym side marginType leverage quantity accountPercentage
         entryPrice t.
  destruct (config st) as [c|] eqn:Hc.
  - destruct (getOpenPositions_configured st c w Hc) as [a1 H1].
    destruct (getBalance_configured st c w Hc) as [a2 H2].
    destruct (setLeverage_configured st c sym leverage w Hc) as [a3 H3].
    destruct (setMarginType_configured st c sym marginType w Hc) as [a4 H4].
    destruct (closePosition_configured st c sym w Hc) as (ps & _ & H7).
    destruct (executeSignal_trace st c t w Hc) as (ps' & b & _ & _ & H8).
    cbv zeta in H7, H8.
    repeat split.
    + eauto.
    + eauto.
    + eauto.
    + eauto.
    + rewrite (calculatePositionSize_formula st w _ a2 _ _ _ H2). eauto.
    + rewrite (openMarketOrder_configured st c _ _ _ w Hc). eauto.
    + rewrite H7. destruct (find _ ps); eauto.
    + rewrite H8. destruct (find _ ps'); [eauto|].
      destruct (PrimFloat.leb _ _); eauto.
  - repeat split.
    + rewrite (getOpenPositions_unconfigured st w Hc); eauto.
    + rewrite (getBalance_unconfigured st w Hc); eauto.
    + rewrite (setLeverage_unconfigured st _ _ w Hc); eauto.
    + rewrite (setMarginType_unconfigured st _ _ w Hc); eauto.
    + rewrite (calculatePositionSize_formula
                 st w w 0%float _ _ _ (getBalance_unconfigured st w Hc)); eauto.
    + rewrite (openMarketOrder_unconfigured st _ _ _ w Hc); eauto.
    + rewrite (closePosition_unconfigured st _ w Hc); eauto.
    + rewrite (executeSignal_unconfigured st t w Hc); eauto.
Qed.

(** X12. On an executor that holds credentials, [closePosition] first
    looks the open positions up.  When none of them is for the symbol, it
    sends nothing else and fails with 'Posição não encontrada'.  Otherwise
    it sends exactly one more request, a MARKET order for the symbol whose
    side is SELL when the amount of the first such position is above zero
    and BUY otherwise, and whose quantity is the absolute amount; its
    result is what the venue's answer to that order gives. *)
Theorem X12_closePosition_orders_the_opposite_side :
  forall (st : State) (c : BinanceConfig) (sym : string) (w : World),
    config st = Some c ->
    exists positions result w1 lookup,
      fst (getOpenPositions st w) = Returned positions
      /\ closePosition st sym w = (Returned result, w1)
      /\ route lookup = (GET, baseUrl st ++ "/fapi/v2/positionRisk")
      /\ match find (fun p => String.eqb (symbol p) sym) positions with
         | None =>
             sent w1 = (sent w ++ [lookup])%list
             /\ result = failure "Posição não encontrada"
         | Some p =>
             let amount := parseFloat (positionAmt p) in
             exists order ts,
               sent w1 = (sent w ++ [lookup; order])%list
               /\ route order = (POST, baseUrl st ++ "/fapi/v1/order")
               /\ params order
                  = [("symbol", Str sym);
                     ("side", Str (if Js.gtb amount 0%float
                                   then "SELL" else "BUY"));
                     ("type", Str "MARKET");
                     ("quantity", Fixed3 (PrimFloat.abs amount));
                     ("timestamp", Int ts)]
               /\ result = orderResult (answer (afterRequest w lookup) order)
         end.
Proof.
  intros st c sym w Hc.
  destruct (closePosition_configured st c sym w Hc) as (positions & Hp & Hx).
  cbv zeta in Hx. exists positions.
  rewrite Hx, Hp. clear Hx.
  destruct (find _ positions) as [p|];
    do 2 eexists; exists (requestOf st c GET "/fapi/v2/positionRisk" [] w);
    (split; [reflexivity|]); (split; [reflexivity|]); (split; [reflexivity|]).
  - cbv zeta. do 2 eexists.
    rewrite !sent_afterRequest, <- app_assoc.
    split; [reflexivity|]. split; [reflexivity|]. split; reflexivity.
  - rewrite sent_afterRequest. now split.
Qed.

(** X13. When the balance read is zero (which is also what [getBalance]
    returns when its request fails), the account fraction and the leverage
    are finite and the entry price is neither zero nor NaN, then
    [calculatePositionSize] returns a zero quantity, which is [<= 0]: the
    condition on which [executeSignal] answers 'Quantidade inválida'
    instead of placing an order. *)
Theorem X13_zero_balance_sizes_to_no_order :
  forall (st : State) (w : World) (balance accountPercentage entryPrice leverage : float),
    fst (getBalance st w) = Returned balance ->
    PrimFloat.is_zero balance = true ->
    PrimFloat.is_finite (accountPercentage / 100) = true ->
    PrimFloat.is_finite leverage = true ->
    Js.truthy entryPrice = true ->
    exists quantity,
      fst (calculatePositionSize st accountPercentage entryPrice leverage w)
      = Returned quantity
      /\ PrimFloat.is_zero quantity = true
      /\ PrimFloat.leb quantity 0 = true.
Proof.
  intros st w balance ap entry lev Hb Hz Hp Hl He.
  destruct (getBalance st w) as [o w1] eqn:Eb. simpl in Hb. subst o.
  rewrite (calculatePositionSize_formula st w w1 balance _ _ _ Eb).
  eexists. split; [reflexivity|].
  pose proof (sizedQuantity_zero balance ap lev entry Hz Hp Hl He) as Hq.
  split; [now apply zeroSF_is_zero|now apply zero_leb_zero].
Qed.

End GatewayEdges.

Section GatewayEdgeWitnesses.

Import Host BinanceExecutor.
Local Open Scope string_scope.
#[local] Existing Instance Fixture.holdingVenue.

Lemma X10_witness :
  getOpenPositions initial Fixture.world = (Returned [], Fixture.world)
  /\ getBalance initial Fixture.world = (Returned 0%float, Fixture.world)
  /\ setLeverage initial "BTCUSDT" 15 Fixture.world
     = (Returned false, Fixture.world)
  /\ setMarginType initial "BTCUSDT" "ISOLATED" Fixture.world
     = (Returned false, Fixture.world)
  /\ openMarketOrder initial "BTCUSDT" "BUY" 0.03 Fixture.world
     = (Returned (failure "Binance não configurada"), Fixture.world)
  /\ closePosition initial "BTCUSDT" Fixture.world
     = (Returned (failure "Posição não encontrada"), Fixture.world)
  /\ exists result,
       executeSignal initial Fixture.longTrade Fixture.world
       = (Returned result, Fixture.world)
       /\ success result = false
       /\ (error result = Some "Quantidade inválida"
           \/ error result = Some "Binance não configurada").
Proof.
  apply (X10_unconfigured_executor_sends_nothing
           initial Fixture.world "BTCUSDT" "BUY" "ISOLATED" 15 0.03
           Fixture.longTrade).
  reflexivity.
Defined.

Lemma X12_witness :
  exists positions result w1 lookup,
    fst (getOpenPositions Fixture.executor Fixture.world) = Returned positions
    /\ closePosition Fixture.executor "BTCUSDT" Fixture.world
       = (Returned result, w1)
    /\ route lookup
       = (GET, baseUrl Fixture.executor ++ "/fapi/v2/positionRisk")
    /\ match find (fun p => String.eqb (symbol p) "BTCUSDT") positions with
       | None =>
           sent w1 = (sent Fixture.world ++ [lookup])%list
           /\ result = failure "Posição não encontrada"
       | Some p =>
           let amount := parseFloat (positionAmt p) in
           exists order ts,
             sent w1 = (sent Fixture.world ++ [lookup; order])%list
             /\ route order
                = (POST, baseUrl Fixture.executor ++ "/fapi/v1/order")
             /\ params order
                = [("symbol", Str "BTCUSDT");
                   ("side", Str (if Js.gtb amount 0%float
                                 then "SELL" else "BUY"));
                   ("type", Str "MARKET");
                   ("quantity", Fixed3 (PrimFloat.abs amount));
                   ("timestamp", Int ts)]
             /\ result
                = orderResult (answer (afterRequest Fixture.world lookup) order)
       end.
Proof.
  apply (X12_closePosition_orders_the_opposite_side
           Fixture.executor (mkConfig "key" "secret" true) "BTCUSDT"
           Fixture.world).
  reflexivity.
Defined.

Lemma X13_witness :
  exists quantity,
    fst (calculatePositionSize initial 10 50000 15 Fixture.world)
    = Returned quantity
    /\ PrimFloat.is_zero quantity = true
    /\ PrimFloat.leb quantity 0 = true.
Proof.
  apply (X13_zero_balance_sizes_to_no_order
           initial Fixture.world 0%float 10%float 50000%float 15%float);
    reflexivity.
Defined.

End GatewayEdgeWitnesses.

(* ================================================================== *)
(** ** Orchestrator: what one signal can do to the bot and the world *)

Section Bookkeeping.

Import Host TradingBot.
Context `{Env}.

Lemma addLog_eq (ty : LogType) (m : LogMessage) (st : State) (w : World) :
  addLog ty m st w
  = (Returned (withLogs (logged (clock w) ty m (logs st)) st), w).
Proof.
  unfold addLog, bind, dateNow, ret, withLogs, logged.
  destruct (Nat.ltb_spec maxLogs (List.length (mkLog (clock w) ty m :: logs st)))
    as [|Hfit]; [reflexivity|].
  now rewrite (firstn_all2 _ Hfit).
Qed.

Lemma logged_length (now : Z) (ty : LogType) (m : LogMessage) (l : list BotLog) :
  (List.length (logged now ty m l) <= maxLogs)%nat.
Proof. unfold logged. apply firstn_le_length. Qed.

Lemma firstn_cons_firstn {A : Type} (n : nat) (x : A) (l : list A) :
  firstn (S n) (x :: firstn (S n) l) = firstn (S n) (x :: l).
Proof.
  rewrite !firstn_cons. f_equal. rewrite firstn_firstn. f_equal. lia.
Qed.

Lemma logged_logged (now : Z) (ty : LogType) (m : LogMessage)
    (added l : list BotLog) :
  logged now ty m (firstn maxLogs (added ++ l))
  = firstn maxLogs ((mkLog now ty m :: added) ++ l).
Proof.
  unfold logged, maxLogs. change 100%nat with (S 99).
  apply firstn_cons_firstn.
Qed.

Lemma sendNotification_effect (n : Notice) (w : World) :
  exists notices later,
    sendNotification n w
    = (Returned tt, mkWorld later (sent w) (pushed w ++ notices))
    /\ (notices = [] \/ notices = [n]).
Proof.
  unfold sendNotification, bind, lookupTokens, push, ret.
  destruct (pushTokens w) as [[|tk tks]|].
  - exists []. rewrite app_nil_r. eexists. split; [reflexivity|auto].
  - exists [n]. eexists. split; [reflexivity|auto].
  - exists []. rewrite app_nil_r. eexists. split; [reflexivity|auto].
Qed.

Lemma sendNotification_pushes (n : Notice) (w : World) :
  exists later,
    sendNotification n w
    = (Returned tt,
       mkWorld later (sent w)
               (pushed w ++ match pushTokens w with
                            | Some (_ :: _) => [n]
                            | _ => []
                            end)).
Proof.
  unfold sendNotification, bind, lookupTokens, push, ret.
  destruct (pushTokens w) as [[|tk tks]|]; eexists; rewrite ?app_nil_r;
    reflexivity.
Qed.

Lemma executeSignal_effect (ex : BinanceExecutor.State)
    (t : BinanceExecutor.Trade) (w : World) :
  exists result w1 requests,
    BinanceExecutor.executeSignal ex t w = (Returned result, w1)
    /\ sent w1 = sent w ++ requests
    /\ (List.length requests <= 5)%nat
    /\ pushed w1 = pushed w.
Proof.
  destruct (BinanceExecutor.config ex) as [c|] eqn:Hc.
  - destruct (executeSignal_trace ex c t w Hc) as (ps & b & _ & _ & He).
    cbv zeta in He. rewrite He. clear He.
    destruct (find _ ps) as [p|]; [|destruct (PrimFloat.leb _ _)];
      do 3 eexists;
      (split; [reflexivity|]);
      (split; [rewrite !sent_afterRequest, <- ?app_assoc; reflexivity|]);
      (split; [simpl; lia|reflexivity]).
  - rewrite (executeSignal_unconfigured ex t w Hc).
    do 2 eexists. exists []. rewrite app_nil_r.
    repeat split. simpl; lia.
Qed.

Ltac log_step :=
  rewrite (bind_returned _ _ _ _ _ (addLog_eq _ _ _ _)).

(** X14. [handleSignal] never throws.  It leaves the bot's configuration,
    running flag and current price as they are; it either leaves
    [lastOrderTime] and [totalOrders] as they are or sets [lastOrderTime]
    to the clock reading at its start and adds one to [totalOrders]; it
    sends at most five requests to the venue and hands at most one
    notification to the push service. *)
Theorem X14_handleSignal_books_at_most_one_order :
  forall (s : Signal.t) (st : State) (ex : BinanceExecutor.State) (w : World),
    exists st1 w1 requests notices,
      handleSignal s (st, ex) w = (Returned st1, w1)
      /\ config st1 = config st
      /\ isRunning st1 = isRunning st
      /\ currentPrice st1 = currentPrice st
      /\ (lastOrderTime st1 = lastOrderTime st
          /\ totalOrders st1 = totalOrders st
          \/ lastOrderTime st1 = clock w
             /\ totalOrders st1 = totalOrders st + 1)
      /\ sent w1 = sent w ++ requests
      /\ (List.length requests <= 5)%nat
      /\ pushed w1 = pushed w ++ notices
      /\ (List.length notices <= 1)%nat.
Proof.
  intros s st ex w.
  assert (Hquiet : forall ty m st0,
             config st0 = config st -> isRunning st0 = isRunning st ->
             currentPrice st0 = currentPrice st ->
             lastOrderTime st0 = lastOrderTime st ->
             totalOrders st0 = totalOrders st ->
             exists st1 w1 requests notices,
               addLog ty m st0 w = (Returned st1, w1)
               /\ config st1 = config st
               /\ isRunning st1 = isRunning st
               /\ currentPrice st1 = currentPrice st
               /\ (lastOrderTime st1 = lastOrderTime st
                   /\ totalOrders st1 = totalOrders st
                   \/ lastOrderTime st1 = clock w
                      /\ totalOrders st1 = totalOrders st + 1)
               /\ sent w1 = sent w ++ requests
               /\ (List.length requests <= 5)%nat
               /\ pushed w1 = pushed w ++ notices
               /\ (List.length notices <= 1)%nat).
  { intros ty m st0 H1 H2 H3 H4 H5. rewrite addLog_eq.
    do 2 eexists. exists [], []. rewrite !app_nil_r.
    split; [reflexivity|]. cbn. repeat split; auto; try lia. }
  unfold handleSignal. log_step. cbn [config withLogs].
  destruct (config st) as [c|] eqn:Hc; [|now apply Hquiet].
  destruct (enabled c); cbn [negb]; [|now apply Hquiet].
  destruct (PrimFloat.ltb _ _); [now apply Hquiet|].
  rewrite bind_dateNow.
  destruct (_ <? _); [now apply Hquiet|].
  destruct (BinanceExecutor.isConfigured ex); cbn [negb].
  - log_step.
    destruct (executeSignal_effect
                ex
                (BinanceExecutor.mkTrade
                   (Signal.type s) (Signal.entryPrice s) (Signal.stopLoss s)
                   (Signal.takeProfit1 s)
                   (Js.orElse (accountPercentage c) 10%float)
                   (Js.orElse (leverage c) 15%float)) w)
      as (result & w1 & requests & Ex & Hsent & Hlen & Hpushed).
    rewrite (bind_returned _ _ _ _ _ Ex).
    destruct (BinanceExecutor.success result).
    + log_step.
      destruct (sendNotification_effect
                  (Executado s (BinanceExecutor.orderId result)
                             (BinanceExecutor.executedQty result)
                             (BinanceExecutor.avgPrice result)) w1)
        as (notices & later & En & Hn).
      rewrite (bind_returned _ _ _ _ _ En).
      do 2 eexists. exists requests, notices.
      split; [reflexivity|]. cbn. rewrite Hpushed.
      repeat split; auto;
        destruct Hn as [-> | ->]; simpl; lia.
    + log_step.
      destruct (sendNotification_effect
                  (ErroAoExecutar s (BinanceExecutor.error result)) w1)
        as (notices & later & En & Hn).
      rewrite (bind_returned _ _ _ _ _ En).
      do 2 eexists. exists requests, notices.
      split; [reflexivity|]. cbn. rewrite Hpushed.
      repeat split; auto;
        destruct Hn as [-> | ->]; simpl; lia.
  - log_step.
    destruct (sendNotification_effect (SinalDetectado s) w)
      as (notices & later & En & Hn).
    rewrite (bind_returned _ _ _ _ _ En).
    do 2 eexists. exists [], notices.
    split; [reflexivity|]. cbn. rewrite app_nil_r.
    repeat split; auto;
      destruct Hn as [-> | ->]; simpl; lia.
Qed.

Lemma logged_first (now : Z) (ty : LogType) (m : LogMessage) (l : list BotLog) :
  logged now ty m l = firstn maxLogs ([mkLog now ty m] ++ l).
Proof. reflexivity. Qed.

(** X15. After [handleSignal] the log holds at most 100 lines, newest
    first: it is the first 100 lines of one or two new lines, then the
    line of the detected signal stamped with the clock reading at the
    start, then the lines the log held before. *)
Theorem X15_handleSignal_log_is_newest_first_and_capped :
  forall (s : Signal.t) (st : State) (ex : BinanceExecutor.State) (w : World),
    exists st1 w1 newer,
      handleSignal s (st, ex) w = (Returned st1, w1)
      /\ logs st1
         = firstn 100
             (newer ++ [mkLog (clock w) signal (SinalDetectadoMsg s)] ++ logs st)
      /\ (1 <= List.length newer <= 2)%nat
      /\ (List.length (logs st1) <= 100)%nat.
Proof.
  intros s st ex w.
  assert (Hquiet : forall m,
             exists st1 w1 newer,
               addLog info m
                 (withLogs
                    (logged (clock w) signal (SinalDetectadoMsg s) (logs st)) st)
                 w = (Returned st1, w1)
               /\ logs st1
                  = firstn 100
                      (newer ++ [mkLog (clock w) signal (SinalDetectadoMsg s)]
                             ++ logs st)
               /\ (1 <= List.length newer <= 2)%nat
               /\ (List.length (logs st1) <= 100)%nat).
  { intros m. rewrite addLog_eq. do 2 eexists.
    exists [mkLog (clock w) info m].
    split; [reflexivity|]. cbn [logs withLogs].
    split; [rewrite (logged_first _ signal), !logged_logged; reflexivity|].
    split; [simpl; lia|apply logged_length]. }
  unfold handleSignal. log_step. cbn [config withLogs].
  destruct (config st) as [c|] eqn:Hc; [|now apply Hquiet].
  destruct (enabled c); cbn [negb]; [|now apply Hquiet].
  destruct (PrimFloat.ltb _ _); [now apply Hquiet|].
  rewrite bind_dateNow.
  destruct (_ <? _); [now apply Hquiet|].
  destruct (BinanceExecutor.isConfigured ex); cbn [negb].
  - log_step.
    destruct (executeSignal_effect
                ex
                (BinanceExecutor.mkTrade
                   (Signal.type s) (Signal.entryPrice s) (Signal.stopLoss s)
                   (Signal.takeProfit1 s)
                   (Js.orElse (accountPercentage c) 10%float)
                   (Js.orElse (leverage c) 15%float)) w)
      as (result & w1 & requests & Ex & _).
    rewrite (bind_returned _ _ _ _ _ Ex).
    destruct (BinanceExecutor.success result).
    + log_step.
      destruct (sendNotification_effect
                  (Executado s (BinanceExecutor.orderId result)
                             (BinanceExecutor.executedQty result)
                             (BinanceExecutor.avgPrice result)) w1)
        as (notices & later & En & _).
      rewrite (bind_returned _ _ _ _ _ En).
      do 2 eexists.
      exists [mkLog (clock w1) order (ExecutadoMsg s result);
              mkLog (clock w) order (Executando s)].
      split; [reflexivity|]. cbn [logs withLogs recordOrder].
      split; [rewrite (logged_first _ signal), !logged_logged; reflexivity|].
      split; [simpl; lia|apply logged_length].
    + log_step.
      destruct (sendNotification_effect
                  (ErroAoExecutar s (BinanceExecutor.error result)) w1)
        as (notices & later & En & _).
      rewrite (bind_returned _ _ _ _ _ En).
      do 2 eexists.
      exists [mkLog (clock w1) error
                    (ErroAoExecutarMsg s (BinanceExecutor.error result));
              mkLog (clock w) order (Executando s)].
      split; [reflexivity|]. cbn [logs withLogs].
      split; [rewrite (logged_first _ signal), !logged_logged; reflexivity|].
      split; [simpl; lia|apply logged_length].
  - log_step.
    destruct (sendNotification_effect (SinalDetectado s) w)
      as (notices & later & En & _).
    rewrite (bind_returned _ _ _ _ _ En).
    do 2 eexists. exists [mkLog (clock w) info BinanceNaoConfigurada].
    split; [reflexivity|]. cbn [logs withLogs].
    split; [rewrite (logged_first _ signal), !logged_logged; reflexivity|].
    split; [simpl; lia|apply logged_length].
Qed.

(** X16. A signal the policy turns away (no configuration, bot disabled,
    score below the minimum, or last order less than five minutes old)
    touches nothing but the log: [handleSignal] returns with the world as
    it was, so no request and no notification, and the bot state differs
    only by two log lines, the signal and the reason. *)
Theorem X16_turned_away_signal_touches_nothing :
  forall (s : Signal.t) (st : State) (ex : BinanceExecutor.State) (w : World),
    turnedAway s st (clock w) ->
    exists st1 why,
      handleSignal s (st, ex) w = (Returned st1, w)
      /\ st1
         = withLogs
             (firstn 100
                ([mkLog (clock w) info why;
                  mkLog (clock w) signal (SinalDetectadoMsg s)] ++ logs st))
             st.
Proof.
  intros s st ex w Hturn. unfold turnedAway in Hturn.
  unfold handleSignal. log_step. cbn [config withLogs].
  assert (Hquiet : forall m,
             exists st1 why,
               addLog info m
                 (withLogs
                    (logged (clock w) signal (SinalDetectadoMsg s) (logs st)) st)
                 w = (Returned st1, w)
               /\ st1
                  = withLogs
                      (firstn 100
                         ([mkLog (clock w) info why;
                           mkLog (clock w) signal (SinalDetectadoMsg s)]
                            ++ logs st))
                      st).
  { intros m. rewrite addLog_eq. eexists. exists m.
    split; [reflexivity|]. unfold withLogs. cbn [config isRunning lastOrderTime totalOrders logs currentPrice].
    rewrite (logged_first _ signal), logged_logged. reflexivity. }
  destruct (config st) as [c|] eqn:Hc; [|now apply Hquiet].
  destruct (enabled c); cbn [negb]; [|now apply Hquiet].
  destruct (PrimFloat.ltb _ _); [now apply Hquiet|].
  rewrite bind_dateNow. cbn [lastOrderTime withLogs].
  destruct (Z.ltb_spec (clock w - lastOrderTime st) minOrderInterval)
    as [|Hge]; [now apply Hquiet|].
  destruct Hturn as [Hd|[Hs|Hi]]; [discriminate Hd|discriminate Hs|lia].
Qed.

(** X17. A signal that passes the policy while the executor holds no
    credentials is notified and nothing else: no request is sent,
    [lastOrderTime] and [totalOrders] stay as they are, and the
    'Sinal detectado' notification is pushed exactly when a device is
    registered. *)
Theorem X17_unconfigured_executor_only_notifies :
  forall (s : Signal.t) (st : State) (ex : BinanceExecutor.State) (w : World)
         (c : BotConfig),
    config st = Some c ->
    enabled c = true ->
    PrimFloat.ltb (Js.ofZ (Signal.score s)) (Js.orElse (minScore c) 60%float)
    = false ->
    minOrderInterval <= clock w - lastOrderTime st ->
    BinanceExecutor.isConfigured ex = false ->
    exists st1 w1,
      handleSignal s (st, ex) w = (Returned st1, w1)
      /\ sent w1 = sent w
      /\ pushed w1
         = pushed w ++ match pushTokens w with
                       | Some (_ :: _) => [SinalDetectado s]
                       | _ => []
                       end
      /\ lastOrderTime st1 = lastOrderTime st
      /\ totalOrders st1 = totalOrders st.
Proof.
  intros s st ex w c Hc Hen Hsc Hint Hex.
  unfold handleSignal. log_step. cbn [config withLogs].
  rewrite Hc, Hen. cbn [negb]. rewrite Hsc, bind_dateNow.
  cbn [lastOrderTime withLogs].
  rewrite (proj2 (Z.ltb_ge _ _) Hint), Hex. cbn [negb].
  log_step.
  destruct (sendNotification_pushes (SinalDetectado s) w) as (later & En).
  rewrite (bind_returned _ _ _ _ _ En).
  do 2 eexists. split; [reflexivity|]. cbn. repeat split.
Qed.

End Bookkeeping.

Section BookkeepingWitnesses.

Import Host TradingBot.
#[local] Existing Instance Fixture.fillingVenue.

Lemma X16_witness :
  exists st1 why,
    handleSignal Fixture.rallySignal Fixture.idleBot Fixture.world
    = (Returned st1, Fixture.world)
    /\ st1
       = withLogs
           (firstn 100
              ([mkLog (clock Fixture.world) info why;
                mkLog (clock Fixture.world) signal
                      (SinalDetectadoMsg Fixture.rallySignal)]
                 ++ logs (fst Fixture.idleBot)))
           (fst Fixture.idleBot).
Proof.
  apply (X16_turned_away_signal_touches_nothing
           Fixture.rallySignal (fst Fixture.idleBot) (snd Fixture.idleBot)
           Fixture.world).
  left. reflexivity.
Defined.

Lemma X17_witness :
  exists st1 w1,
    handleSignal Fixture.rallySignal Fixture.keylessBot Fixture.world
    = (Returned st1, w1)
    /\ sent w1 = sent Fixture.world
    /\ pushed w1
       = pushed Fixture.world
         ++ match pushTokens Fixture.world with
            | Some (_ :: _) => [SinalDetectado Fixture.rallySignal]
            | _ => []
            end
    /\ lastOrderTime st1 = lastOrderTime (fst Fixture.keylessBot)
    /\ totalOrders st1 = totalOrders (fst Fixture.keylessBot).
Proof.
  apply (X17_unconfigured_executor_only_notifies
           Fixture.rallySignal (fst Fixture.keylessBot)
           (snd Fixture.keylessBot) Fixture.world
           (mkConfig true "" "" true 15 10 60 "ISOLATED")).
  - reflexivity.
  - reflexivity.
  - vm_compute. reflexivity.
  - vm_compute. discriminate.
  - reflexivity.
Defined.

End BookkeepingWitnesses.

(* ================================================================== *)
(** ** Life cycle: configuration, start, stop and restart *)

Section LifeCycle.

Import Host TradingBot.
Context `{Env}.

(** X18. [configure] on the bot always replaces the bot's configuration,
    but it hands credentials to the executor only when key and secret are
    both non-empty (the endpoint is then the testnet's or the production
    one, as the flag says).  With a blank key or secret the executor is
    left exactly as it was, so an executor that held credentials keeps
    them: afterwards the executor is configured when both are non-empty or
    it was configured before. *)
Theorem X18_blank_credentials_keep_the_executor :
  forall (c : BotConfig) (st : State) (ex : BinanceExecutor.State),
    let b := configure c (st, ex) in
    config (fst b) = Some c
    /\ BinanceExecutor.isConfigured (snd b)
       = (BinanceExecutor.nonEmpty (apiKey c)
          && BinanceExecutor.nonEmpty (apiSecret c)
          || BinanceExecutor.isConfigured ex)
    /\ if BinanceExecutor.nonEmpty (apiKey c)
          && BinanceExecutor.nonEmpty (apiSecret c)
       then BinanceExecutor.baseUrl (snd b)
            = (if testnet c then "https://testnet.binancefuture.com"
               else "https://fapi.binance.com")%string
       else snd b = ex.
Proof.
  intros c st ex. unfold configure. cbn [fst snd config].
  destruct (BinanceExecutor.nonEmpty (apiKey c)
            && BinanceExecutor.nonEmpty (apiSecret c)) eqn:E.
  - repeat split.
    unfold BinanceExecutor.isConfigured, BinanceExecutor.configure. simpl.
    exact E.
  - repeat split.
Qed.

Lemma monitor_start_effect (pm : PriceMonitor.State) (tm : EventLoop.Timers) :
  exists pm1,
    PriceMonitor.start (pm, tm) = (pm1, tm)
    /\ PriceMonitor.isRunning pm1 = true
    /\ PriceMonitor.callbacks pm1 = PriceMonitor.callbacks pm.
Proof.
  unfold PriceMonitor.start.
  destruct (PriceMonitor.isRunning pm) eqn:E; [now exists pm|].
  unfold PriceMonitor.connect. cbn. eexists. repeat split.
Qed.

Lemma detector_start_effect (k : SignalDetector.Klines)
    (sd : SignalDetector.State) (pm : PriceMonitor.State)
    (tm : EventLoop.Timers) :
  exists sd1 pm1 tm1,
    SignalDetector.start k (sd, pm, tm) = (sd1, pm1, tm1)
    /\ SignalDetector.isRunning sd1 = true
    /\ SignalDetector.callbacks sd1 = SignalDetector.callbacks sd
    /\ PriceMonitor.isRunning pm1 = PriceMonitor.isRunning pm
    /\ PriceMonitor.callbacks pm1
       = PriceMonitor.callbacks pm
         ++ (if SignalDetector.isRunning sd then []
             else [PriceMonitor.DetectorProcessPrice]).
Proof.
  unfold SignalDetector.start.
  destruct (SignalDetector.isRunning sd) eqn:E.
  - exists sd, pm, tm. rewrite app_nil_r. now repeat split.
  - cbn. do 3 eexists. split; [reflexivity|]. cbn.
    repeat split;
      (destruct (SignalDetector.historyLoaded sd); [reflexivity|]);
      destruct k; reflexivity.
Qed.

(** What [start] does when the bot is not running. *)
Lemma start_effect (k : SignalDetector.Klines) (sv : Server) (w : World) :
  isRunning (bot sv) = false ->
  exists sv1 w1,
    start k sv w = (Returned sv1, w1)
    /\ isRunning (bot sv1) = true
    /\ PriceMonitor.isRunning (monitor sv1) = true
    /\ SignalDetector.isRunning (detector sv1) = true
    /\ config (bot sv1) = config (bot sv)
    /\ executor sv1 = executor sv
    /\ SignalDetector.callbacks (detector sv1)
       = SignalDetector.callbacks (detector sv) ++ [botHandleSignal]
    /\ PriceMonitor.callbacks (monitor sv1)
       = PriceMonitor.callbacks (monitor sv)
         ++ [PriceMonitor.BotCurrentPrice]
         ++ (if SignalDetector.isRunning (detector sv) then []
             else [PriceMonitor.DetectorProcessPrice]).
Proof.
  intros Hr. unfold start. rewrite Hr.
  destruct (monitor_start_effect (monitor sv) (timers sv))
    as (pm1 & E1 & R1 & C1).
  rewrite E1.
  destruct (detector_start_effect
              k (detector sv)
              (PriceMonitor.onPrice PriceMonitor.BotCurrentPrice pm1)
              (timers sv))
    as (sd1 & pm3 & tm2 & E2 & R2 & C2 & R3 & C3).
  rewrite E2. rewrite (bind_returned _ _ _ _ _ (addLog_eq _ _ _ _)).
  destruct (sendNotification_effect RoboIniciado w) as (ns & later & En & _).
  rewrite (bind_returned _ _ _ _ _ En).
  do 2 eexists. split; [reflexivity|]. cbn.
  repeat split; try assumption.
  - rewrite R3. exact R1.
  - now rewrite C2.
  - rewrite C3. cbn. rewrite C1, <- app_assoc. reflexivity.
Qed.

Lemma stop_effect (sv : Server) (w : World) :
  isRunning (bot sv) = true ->
  exists sv1 w1,
    stop sv w = (Returned sv1, w1)
    /\ isRunning (bot sv1) = false
    /\ PriceMonitor.isRunning (monitor sv1) = false
    /\ SignalDetector.isRunning (detector sv1) = false
    /\ config (bot sv1) = config (bot sv)
    /\ executor sv1 = executor sv
    /\ SignalDetector.callbacks (detector sv1)
       = SignalDetector.callbacks (detector sv)
    /\ PriceMonitor.callbacks (monitor sv1)
       = PriceMonitor.callbacks (monitor sv).
Proof.
  intros Hr. unfold stop. rewrite Hr. cbn [negb].
  unfold PriceMonitor.stop, SignalDetector.stop.
  destruct (sendNotification_effect RoboParado w) as (ns & later & En & _).
  rewrite (bind_returned _ _ _ _ _ En).
  do 2 eexists. split; [reflexivity|]. cbn. repeat split.
Qed.

(** X19. [stop] removes no subscription and every [start] adds its own.
    From a server on which neither the bot nor the detector runs, after
    start, stop and start again the bot's signal handler is subscribed
    twice and the two price handlers are each subscribed twice, so an
    analysis run that emits a signal delivers it to the bot's handler
    twice. *)
Theorem X19_restart_subscribes_again :
  forall (k1 k2 : SignalDetector.Klines) (sv : Server) (w : World),
    isRunning (bot sv) = false ->
    SignalDetector.isRunning (detector sv) = false ->
    exists sv1 w1 sv2 w2 sv3 w3,
      start k1 sv w = (Returned sv1, w1)
      /\ stop sv1 w1 = (Returned sv2, w2)
      /\ start k2 sv2 w2 = (Returned sv3, w3)
      /\ SignalDetector.callbacks (detector sv2)
         = SignalDetector.callbacks (detector sv) ++ [botHandleSignal]
      /\ SignalDetector.callbacks (detector sv3)
         = SignalDetector.callbacks (detector sv)
           ++ [botHandleSignal; botHandleSignal]
      /\ PriceMonitor.callbacks (monitor sv3)
         = PriceMonitor.callbacks (monitor sv)
           ++ [PriceMonitor.BotCurrentPrice; PriceMonitor.DetectorProcessPrice;
               PriceMonitor.BotCurrentPrice; PriceMonitor.DetectorProcessPrice]
      /\ forall now,
           map fst (snd (SignalDetector.analyzeMarket now (detector sv3))) = []
           \/ map fst (snd (SignalDetector.analyzeMarket now (detector sv3)))
              = SignalDetector.callbacks (detector sv)
                ++ [botHandleSignal; botHandleSignal].
Proof.
  intros k1 k2 sv w Hb Hd.
  destruct (start_effect k1 sv w Hb)
    as (sv1 & w1 & E1 & B1 & M1 & D1 & _ & _ & S1 & P1).
  destruct (stop_effect sv1 w1 B1)
    as (sv2 & w2 & E2 & B2 & M2 & D2 & _ & _ & S2 & P2).
  destruct (start_effect k2 sv2 w2 B2)
    as (sv3 & w3 & E3 & B3 & M3 & D3 & _ & _ & S3 & P3).
  exists sv1, w1, sv2, w2, sv3, w3.
  rewrite Hd in P1. rewrite D2 in P3.
  assert (HS3 : SignalDetector.callbacks (detector sv3)
                = SignalDetector.callbacks (detector sv)
                  ++ [botHandleSignal; botHandleSignal]).
  { rewrite S3, S2, S1, <- app_assoc. reflexivity. }
  repeat split; try assumption.
  - now rewrite S2.
  - rewrite P3, P2, P1, <- !app_assoc. reflexivity.
  - intros now. unfold SignalDetector.analyzeMarket.
    destruct (_ <? _)%nat; [now left|].
    destruct (_ <? _); [now left|].
    destruct (SignalDetector.detectSignal _ _ _ _ _ _ _); [|now left].
    right. cbn [snd]. rewrite map_map. cbn [fst]. rewrite map_id. exact HS3.
Qed.

(** X20. A second [start] right after a [start], and a second [stop]
    right after a [stop], change nothing, on the price monitor, on the
    signal detector and on the bot: no second socket, subscription, timer,
    log line or notification. *)
Theorem X20_second_start_or_stop_changes_nothing :
  (forall w, PriceMonitor.start (PriceMonitor.start w) = PriceMonitor.start w)
  /\ (forall w, PriceMonitor.stop (PriceMonitor.stop w) = PriceMonitor.stop w)
  /\ (forall k k' w,
        SignalDetector.start k' (SignalDetector.start k w)
        = SignalDetector.start k w)
  /\ (forall w,
        SignalDetector.stop (SignalDetector.stop w) = SignalDetector.stop w)
  /\ (forall k k' sv w, bind (start k sv) (start k') w = start k sv w)
  /\ (forall sv w, bind (stop sv) stop w = stop sv w).
Proof.
  repeat split.
  - intros [pm tm].
    destruct (monitor_start_effect pm tm) as (pm1 & E & R & _).
    rewrite E. unfold PriceMonitor.start. cbv beta iota. now rewrite R.
  - intros [pm tm]. unfold PriceMonitor.stop. cbn. reflexivity.
  - intros k k' [[sd pm] tm].
    destruct (detector_start_effect k sd pm tm) as (sd1 & pm1 & tm1 & E & R & _).
    rewrite E. unfold SignalDetector.start. cbv beta iota. now rewrite R.
  - intros [sd tm]. unfold SignalDetector.stop. cbn. reflexivity.
  - intros k k' sv w.
    destruct (isRunning (bot sv)) eqn:Hr.
    + assert (E : forall k0, start k0 sv w = (Returned sv, w))
        by (intros k0; unfold start; now rewrite Hr).
      unfold bind. now rewrite !E.
    + destruct (start_effect k sv w Hr) as (sv1 & w1 & E & R & _).
      rewrite (bind_returned _ _ _ _ _ E), E.
      unfold start. now rewrite R.
  - intros sv w.
    destruct (isRunning (bot sv)) eqn:Hr.
    + destruct (stop_effect sv w Hr) as (sv1 & w1 & E & R & _).
      rewrite (bind_returned _ _ _ _ _ E), E.
      unfold stop. now rewrite R.
    + assert (E : stop sv w = (Returned sv, w))
        by (unfold stop; now rewrite Hr).
      unfold bind. now rewrite !E.
Qed.


End LifeCycle.

Section LifeCycleWitnesses.

Import Host TradingBot.
#[local] Existing Instance Fixture.fillingVenue.

Lemma X19_witness :
  exists sv1 w1 sv2 w2 sv3 w3,
    start SignalDetector.KlinesFailed freshServer Fixture.world
    = (Returned sv1, w1)
    /\ stop sv1 w1 = (Returned sv2, w2)
    /\ start (SignalDetector.KlinesLoaded
                (Fixture.barsAt Fixture.t0 Fixture.rallyCloses)) sv2 w2
       = (Returned sv3, w3)
    /\ SignalDetector.callbacks (detector sv2)
       = SignalDetector.callbacks (detector freshServer) ++ [botHandleSignal]
    /\ SignalDetector.callbacks (detector sv3)
       = SignalDetector.callbacks (detector freshServer)
         ++ [botHandleSignal; botHandleSignal]
    /\ PriceMonitor.callbacks (monitor sv3)
       = PriceMonitor.callbacks (monitor freshServer)
         ++ [PriceMonitor.BotCurrentPrice; PriceMonitor.DetectorProcessPrice;
             PriceMonitor.BotCurrentPrice; PriceMonitor.DetectorProcessPrice]
    /\ forall now,
         map fst (snd (SignalDetector.analyzeMarket now (detector sv3))) = []
         \/ map fst (snd (SignalDetector.analyzeMarket now (detector sv3)))
            = SignalDetector.callbacks (detector freshServer)
              ++ [botHandleSignal; botHandleSignal].
Proof.
  apply (X19_restart_subscribes_again
           SignalDetector.KlinesFailed
           (SignalDetector.KlinesLoaded
              (Fixture.barsAt Fixture.t0 Fixture.rallyCloses))
           freshServer Fixture.world);
    reflexivity.
Defined.

End LifeCycleWitnesses.

(* ================================================================== *)
(** ** Tickers: what one ticker does to the detector and the bot *)

Section TickDispatch.

Import TradingBot.

Lemma processPrice_same_tick (price : float) (timestamp : Z)
    (st : SignalDetector.State) :
  SignalDetector.processPrice price timestamp
    (SignalDetector.processPrice price timestamp st)
  = SignalDetector.processPrice price timestamp st.
Proof.
  unfold SignalDetector.processPrice.
  destruct (timestamp / SignalDetector.candleInterval
            * SignalDetector.candleInterval
            >? SignalDetector.lastCandleTime st) eqn:Hgt.
  - simpl. rewrite Z.gtb_ltb, Z.ltb_irrefl, max2_same, min2_same.
    reflexivity.
  - destruct (SignalDetector.currentCandle st) as [c|] eqn:E; simpl.
    + rewrite Hgt. now rewrite max2_absorbs, min2_absorbs.
    + now rewrite Hgt, E.
Qed.

Lemma dispatch_effect (d : PriceMonitor.PriceData)
    (cbs : list PriceMonitor.PriceCallback) (sv : Server) :
  let sv1 := fold_left (fun s x => priceCallback (fst x) (snd x) s)
                       (map (fun cb => (cb, d)) cbs) sv in
  detector sv1
  = (if hasDetectorHandler cbs
     then SignalDetector.processPrice (PriceMonitor.price d)
                                      (PriceMonitor.timestamp d) (detector sv)
     else detector sv)
  /\ bot sv1
     = (if hasBotHandler cbs then withCurrentPrice (PriceMonitor.price d) (bot sv)
        else bot sv)
  /\ monitor sv1 = monitor sv
  /\ executor sv1 = executor sv
  /\ timers sv1 = timers sv.
Proof.
  revert sv. induction cbs as [|cb cbs IH]; intros sv; [now repeat split|].
  cbn [map fold_left fst snd hasDetectorHandler hasBotHandler existsb].
  destruct (IH (priceCallback cb d sv)) as (Hd & Hb & Hm & He & Ht).
  cbv zeta. rewrite Hd, Hb, Hm, He, Ht.
  fold (hasDetectorHandler cbs). fold (hasBotHandler cbs).
  destruct cb; cbn [priceCallback detector bot monitor executor timers orb].
  - repeat split.
    destruct (hasDetectorHandler cbs); [apply processPrice_same_tick|reflexivity].
  - repeat split.
    destruct (hasBotHandler cbs); reflexivity.
Qed.

(** X22. One ticker acts once for each kind of handler, however often
    that handler is subscribed: when the detector's handler is among the
    monitor's subscribers the detector ends as after one [processPrice] of
    the ticker's price and time, and is untouched otherwise; when the
    bot's handler is among them the bot's current price is the ticker's
    price, and the bot is untouched otherwise; the monitor reports the
    ticker as its last price; subscribers, executor and timers stay as
    they are. *)
Theorem X22_ticker_acts_once_per_handler :
  forall (d : PriceMonitor.PriceData) (sv : Server),
    let sv1 := onTicker d sv in
    let cbs := PriceMonitor.callbacks (monitor sv) in
    detector sv1
    = (if hasDetectorHandler cbs
       then SignalDetector.processPrice (PriceMonitor.price d)
                                        (PriceMonitor.timestamp d)
                                        (detector sv)
       else detector sv)
    /\ bot sv1
       = (if hasBotHandler cbs
          then withCurrentPrice (PriceMonitor.price d) (bot sv)
          else bot sv)
    /\ PriceMonitor.getLastPrice (monitor sv1) = Some d
    /\ PriceMonitor.callbacks (monitor sv1) = cbs
    /\ executor sv1 = executor sv
    /\ timers sv1 = timers sv.
Proof.
  intros d sv sv1 cbs. unfold sv1, cbs, onTicker, PriceMonitor.onTicker.
  cbv beta iota.
  destruct (dispatch_effect
              d (PriceMonitor.callbacks (monitor sv))
              (mkServer (bot sv) (executor sv)
                        (PriceMonitor.mkState
                           (PriceMonitor.ws (monitor sv))
                           (PriceMonitor.reconnectAttempts (monitor sv))
                           (PriceMonitor.callbacks (monitor sv)) (Some d)
                           (PriceMonitor.isRunning (monitor sv))
                           (PriceMonitor.pingInterval (monitor sv)))
                        (detector sv) (timers sv)))
    as (Hd & Hb & Hm & He & Ht).
  cbv zeta in Hd, Hb, Hm, He, Ht.
  rewrite Hd, Hb, Hm, He, Ht. repeat split.
Qed.

End TickDispatch.

(* ================================================================== *)
(** ** Price monitor: connected only while running *)

Section SocketInvariant.

Import EventLoop PriceMonitor.

Lemma socket_connect (w : World) :
  socketOnlyWhileRunning w -> socketOnlyWhileRunning (connect w).
Proof.
  destruct w as [st tm]. unfold socketOnlyWhileRunning, connect.
  destruct (isRunning st) eqn:E; cbn; [now right|]. rewrite E. trivial.
Qed.

Lemma socket_scheduleReconnect (w : World) :
  socketOnlyWhileRunning w -> socketOnlyWhileRunning (scheduleReconnect w).
Proof.
  destruct w as [st tm]. unfold socketOnlyWhileRunning, scheduleReconnect.
  destruct (_ <=? _)%nat; cbn; trivial.
Qed.

Lemma socket_react (e : Event) (w : World) :
  socketOnlyWhileRunning w -> socketOnlyWhileRunning (react e w).
Proof.
  destruct w as [st tm]. intros Hs.
  destruct e as [| |cb|hd|hd|d|h|h]; cbn [react fst snd].
  - unfold start. destruct (isRunning st) eqn:E; [assumption|].
    apply socket_connect. now right.
  - now left.
  - exact Hs.
  - unfold onOpen, seen, socketOnlyWhileRunning in *. cbn in *.
    destruct hd; destruct Hs as [-> | ->]; auto.
  - unfold onClose.
    match goal with
    | |- socketOnlyWhileRunning (if _ then scheduleReconnect ?x else _) =>
        assert (H1 : socketOnlyWhileRunning x)
    end.
    { unfold seen, socketOnlyWhileRunning in *. cbn in *.
      destruct hd; destruct Hs as [-> | ->]; auto. }
    destruct (isRunning _); [now apply socket_scheduleReconnect|exact H1].
  - exact Hs.
  - unfold onBackoffTimeout. apply socket_connect. exact Hs.
  - unfold onCooldownTimeout. apply socket_connect. exact Hs.
Qed.

Lemma socket_run (events : list Event) (w : World) :
  socketOnlyWhileRunning w -> socketOnlyWhileRunning (run events w).
Proof.
  unfold run. revert w.
  induction events as [|e events IH]; simpl; intros w Hs; [assumption|].
  apply IH. now apply socket_react.
Qed.

(** X23. Over every course of events of the price monitor from its
    initial state, the monitor reports itself connected only while it is
    running; after [stop] it is not connected, and a [start] after that
    [stop] does not make it connected before a socket opens. *)
Theorem X23_connected_only_while_running :
  forall (events : list Event),
    let w := run events (initial, empty) in
    (isConnected (fst w) = false \/ isRunning (fst w) = true)
    /\ isConnected (fst (stop w)) = false
    /\ isConnected (fst (start (stop w))) = false.
Proof.
  intros events w.
  assert (Hs : socketOnlyWhileRunning w).
  { apply socket_run. now left. }
  repeat split.
  - unfold isConnected. destruct Hs as [-> | ->]; [now left|now right].
  - destruct w as [st tm]. reflexivity.
  - destruct w as [st tm]. reflexivity.
Qed.

End SocketInvariant.

(* ================================================================== *)
(** ** Orchestrator: when the order cooldown starts *)

Section OrderCooldown.

Import Host TradingBot.
Context `{Env}.









End OrderCooldown.

Section OrderCooldownWitness.

Import Host TradingBot.
#[local] Existing Instance Fixture.fillingVenue.


End OrderCooldownWitness.
